(** * AZen biofeedback core: estimator, rPPG worker, vitals engine, kernel guard

    A shallow embedding of the TypeScript sources
      - [src/types.ts]                           (shared data model)
      - [src/services/AdaptiveStateEstimator.ts] (recursive state estimator)
      - [fft.worker.ts]                          (rPPG / HRV worker)
      - [CameraVitalsEngine]                     (signal extraction pipeline)
      - [config/SafetyConfig]                    (constants)
    together with the properties stated about them.

    Numbers.  A JavaScript [number] is modelled as a real number of the
    Standard Library ([R]): arithmetic is exact, [Math.sqrt], [Math.exp],
    [Math.cos] and [Math.sin] are [sqrt], [exp], [cos] and [sin].  Rounding,
    [NaN] and the infinities are outside this model; where the source would
    divide by zero the statements below carry the hypothesis that excludes
    it.  Typed arrays ([Float32Array]) are lists of reals.

    Domains.  Three definitions agree with the source on a domain that the
    statements about them spell out as hypotheses:
      - [Estimator.setProtocol] reads [PATTERN_TO_TARGET] as its own
        entries; a pattern id that names a property inherited from
        [Object.prototype] ([JS.Object_prototype_keys]) is outside it;
      - [Worker.spectralPeak] needs a non-zero sample rate, without which
        the source's bin loop has infinite bounds and never ends;
      - [Worker.hammingWindow] needs a length other than 1, for which the
        source's only coefficient is [NaN]. *)

From Stdlib Require Import Reals Lra Lia List String ZArith Bool Sorted.
Import ListNotations.
Open Scope R_scope.

(* ================================================================== *)
(** ** JavaScript primitives used by the sources *)
(* ================================================================== *)

Module JS.

(** [a < b], [a > b], [a <= b] as the booleans the source branches on. *)
Definition ltb (a b : R) : bool := if Rlt_dec a b then true else false.
Definition gtb (a b : R) : bool := if Rgt_dec a b then true else false.
Definition leb (a b : R) : bool := if Rle_dec a b then true else false.

(** [x || d] on numbers: [d] when [x] is falsy, that is, zero. *)
Definition or_else (x d : R) : R := if Req_dec_T x 0 then d else x.

(** [Math.floor], as an integer. *)
Definition floor (x : R) : Z := Int_part x.

(** The property names every object literal inherits from
    [Object.prototype]: [obj[key]] is not [undefined] for these keys even
    when [obj] has no entry of its own for them. *)
Definition Object_prototype_keys : list string :=
  [ "constructor"; "hasOwnProperty"; "isPrototypeOf";
    "propertyIsEnumerable"; "toLocaleString"; "toString"; "valueOf";
    "__proto__"; "__defineGetter__"; "__defineSetter__";
    "__lookupGetter__"; "__lookupSetter__" ]%string.

(** [Math.pow(x, 0.5)]. *)
Definition pow_half (x : R) : R := sqrt x.

(** [Math.hypot(a, b)]. *)
Definition hypot (a b : R) : R := sqrt (a * a + b * b).

(** [arr.reduce((a, b) => a + b, 0)]. *)
Definition sum (data : list R) : R := fold_left Rplus data 0.

(** [arr.slice(s, e)] with JavaScript's treatment of negative and
    out-of-range indices. *)
Definition slice_index (len : nat) (i : Z) : nat :=
  if (i <? 0)%Z then Z.to_nat (Z.max (Z.of_nat len + i) 0)
  else Nat.min (Z.to_nat i) len.

Definition slice {A : Type} (l : list A) (s e : Z) : list A :=
  let s' := slice_index (List.length l) s in
  let e' := slice_index (List.length l) e in
  firstn (e' - s') (skipn s' l).

(** [Math.max(...xs)] and [Math.min(...xs)] on a non-empty list (the
    sources only call them on non-empty lists; [0] stands for the
    empty case). *)
Definition max_list (xs : list R) : R :=
  match xs with [] => 0 | x :: t => fold_left Rmax t x end.
Definition min_list (xs : list R) : R :=
  match xs with [] => 0 | x :: t => fold_left Rmin t x end.

End JS.

(* ================================================================== *)
(** ** [types.ts]: beliefs and observations *)
(* ================================================================== *)

Module Types.

Inductive BreathPhase := inhale | holdIn | exhale | holdOut.

Record BeliefState := mkBelief {
  arousal : R;
  attention : R;
  rhythm_alignment : R;
  valence : R;
  arousal_variance : R;
  attention_variance : R;
  rhythm_variance : R;
  prediction_error : R;
  innovation : R;
  mahalanobis_distance : R;
  confidence : R
}.

Inductive Interaction := pause | resume | touch.
Inductive Visibility := visible | hidden.

Record Observation := mkObservation {
  timestamp : R;
  delta_time : R;
  user_interaction : option Interaction;
  visibilty_state : Visibility;
  heart_rate : option R;
  hr_confidence : option R;
  respiration_rate : option R;
  stress_index : option R;
  facial_valence : option R
}.

(** The part of a [BreathPattern] the core reads: its id and timings. *)
Record BreathPattern := mkPattern {
  id : string;
  timing_inhale : R;
  timing_holdIn : R;
  timing_exhale : R;
  timing_holdOut : R;
  recommendedCycles : nat;
  tier : nat
}.

Definition BREATHING_PATTERNS : list BreathPattern :=
  [ mkPattern "4-7-8" 4 7 8 0 4 1;
    mkPattern "box" 4 4 4 4 6 1;
    mkPattern "calm" 4 0 6 0 8 1;
    mkPattern "coherence" 6 0 6 0 10 2;
    mkPattern "deep-relax" 4 0 8 0 6 1;
    mkPattern "7-11" 7 0 11 0 4 2;
    mkPattern "awake" 4 0 2 0 15 2;
    mkPattern "triangle" 4 4 4 0 8 1;
    mkPattern "tactical" 5 5 5 5 5 2;
    mkPattern "buteyko" 3 0 3 4 12 3;
    mkPattern "wim-hof" 2 0 1 15 30 3 ]%string.

Record SafetyProfile := mkProfile {
  patternId : string;
  cummulative_stress_score : R;
  last_incident_timestamp : R;
  safety_lock_until : R;
  resonance_history : list R
}.

Inductive InterruptionKind := kind_pause | kind_background.

(** [KernelEvent]: the tagged union, every variant with its timestamp
    last. *)
Inductive KernelEvent :=
| BOOT (timestamp : R)
| LOAD_PROTOCOL (patternId : string) (timestamp : R)
| START_SESSION (timestamp : R)
| TICK (dt : R) (observation : Observation) (timestamp : R)
| BELIEF_UPDATE (belief : BeliefState) (timestamp : R)
| PHASE_TRANSITION (from to : BreathPhase) (timestamp : R)
| CYCLE_COMPLETE (count : nat) (timestamp : R)
| INTERRUPTION (kind : InterruptionKind) (timestamp : R)
| RESUME (timestamp : R)
| HALT (reason : string) (timestamp : R)
| SAFETY_INTERDICTION (riskLevel : R) (action : string) (timestamp : R)
| LOAD_SAFETY_REGISTRY (registry : list (string * SafetyProfile))
    (timestamp : R)
| ADJUST_TEMPO (scale : R) (reason : string) (timestamp : R)
| AI_INTERVENTION (intent : string) (parameters : string) (timestamp : R)
| AI_VOICE_MESSAGE (text : string) (sentiment : string) (timestamp : R).

End Types.

(* ================================================================== *)
(** ** [AdaptiveStateEstimator.ts] *)
(* ================================================================== *)

Module Estimator.
Import Types.

(** [EstimatorConfig]: every field optional. *)
Record EstimatorConfig := mkEstimatorConfig {
  opt_alpha : option R;
  opt_adaptive_r : option bool;
  opt_r_adaptation_rate : option R;
  opt_q_base : option R;
  opt_r_base : option R;
  opt_outlier_threshold : option R
}.

(** [Required<EstimatorConfig>]. *)
Record Config := mkConfig {
  alpha : R;
  adaptive_r : bool;
  r_adaptation_rate : R;
  q_base : R;
  r_base : R;
  outlier_threshold : R
}.

Record TargetState := mkTarget {
  target_arousal : R;
  target_attention : R;
  target_rhythm_alignment : R;
  target_valence : R
}.

Inductive TargetKey := parasympathetic | balanced | sympathetic | default.

Definition PROTOCOL_TARGETS (k : TargetKey) : TargetState :=
  match k with
  | parasympathetic => mkTarget 0.2 0.5 0.8 0.6
  | balanced => mkTarget 0.4 0.7 0.9 0.5
  | sympathetic => mkTarget 0.7 0.8 0.6 0.7
  | default => mkTarget 0.5 0.6 0.7 0.5
  end.

Definition PATTERN_TO_TARGET : list (string * TargetKey) :=
  [ ("4-7-8", parasympathetic);
    ("deep-relax", parasympathetic);
    ("7-11", parasympathetic);
    ("coherence", balanced);
    ("calm", balanced);
    ("box", balanced);
    ("triangle", balanced);
    ("tactical", balanced);
    ("awake", sympathetic);
    ("wim-hof", sympathetic);
    ("buteyko", parasympathetic) ]%string.

Fixpoint lookup (key : string) (tbl : list (string * TargetKey))
  : option TargetKey :=
  match tbl with
  | [] => None
  | (k, v) :: rest => if String.eqb key k then Some v else lookup key rest
  end.

Record AdaptiveStateEstimator := mkEstimator {
  belief : BeliefState;
  target : TargetState;
  config : Config
}.

Definition TAU_AROUSAL : R := 15.0.
Definition TAU_ATTENTION : R := 5.0.
Definition TAU_RHYTHM : R := 10.0.
Definition TAU_VALENCE : R := 8.0.

Definition or_default {A : Type} (o : option A) (d : A) : A :=
  match o with Some v => v | None => d end.

Definition constructor (cfg : EstimatorConfig) : AdaptiveStateEstimator :=
  {| config :=
       {| alpha := or_default (opt_alpha cfg) 1e-3;
          adaptive_r := or_default (opt_adaptive_r cfg) true;
          r_adaptation_rate := or_default (opt_r_adaptation_rate cfg) 0.2;
          q_base := or_default (opt_q_base cfg) 0.01;
          r_base := or_default (opt_r_base cfg) 0.15;
          outlier_threshold := or_default (opt_outlier_threshold cfg) 3.0 |};
     belief :=
       {| arousal := 0.5;
          attention := 0.5;
          rhythm_alignment := 0.0;
          valence := 0.0;
          arousal_variance := 0.2;
          attention_variance := 0.2;
          rhythm_variance := 0.3;
          prediction_error := 0.0;
          innovation := 0.0;
          mahalanobis_distance := 0.0;
          confidence := 0.0 |};
     target := PROTOCOL_TARGETS default |}.

(** The constructor called with no argument ([config = {}]). *)
Definition empty_config : EstimatorConfig :=
  mkEstimatorConfig None None None None None None.

(** [setProtocol]; [None] is [null].  [lookup] reads the entries the
    table itself holds, and [or_default] is the [|| 'default'] fallback.
    For an id among [JS.Object_prototype_keys] (never one of
    [BreathingType]) the source finds an inherited, truthy value, skips
    the fallback and leaves [this.target] undefined; such ids are outside
    this definition's domain, and the statements about unlisted ids
    exclude them. *)
Definition setProtocol (est : AdaptiveStateEstimator)
    (pattern : option BreathPattern) : AdaptiveStateEstimator :=
  match pattern with
  | None =>
      {| belief := belief est; target := PROTOCOL_TARGETS default;
         config := config est |}
  | Some p =>
      let targetKey := or_default (lookup (id p) PATTERN_TO_TARGET) default in
      {| belief := belief est; target := PROTOCOL_TARGETS targetKey;
         config := config est |}
  end.

Definition clamp (value min max : R) : R := Rmax min (Rmin max value).

Definition predict (est : AdaptiveStateEstimator) (dt : R) : BeliefState :=
  let b := belief est in
  let t := target est in
  let alpha_arousal := 1 - exp (- dt / TAU_AROUSAL) in
  let alpha_attention := 1 - exp (- dt / TAU_ATTENTION) in
  let alpha_rhythm := 1 - exp (- dt / TAU_RHYTHM) in
  let alpha_valence := 1 - exp (- dt / TAU_VALENCE) in
  let predicted_arousal :=
    arousal b + alpha_arousal * (target_arousal t - arousal b) in
  let predicted_attention :=
    attention b + alpha_attention * (target_attention t - attention b) in
  let predicted_rhythm :=
    rhythm_alignment b
    + alpha_rhythm * (target_rhythm_alignment t - rhythm_alignment b) in
  let predicted_valence :=
    valence b + alpha_valence * (target_valence t - valence b) in
  let Q := q_base (config est) * dt in
  {| arousal := clamp predicted_arousal 0 1;
     attention := clamp predicted_attention 0 1;
     rhythm_alignment := clamp predicted_rhythm 0 1;
     valence := clamp predicted_valence (-1) 1;
     arousal_variance := arousal_variance b + Q;
     attention_variance := attention_variance b + Q;
     rhythm_variance := rhythm_variance b + Q;
     prediction_error := 0;
     innovation := 0;
     mahalanobis_distance := 0;
     confidence := 0 |}.

(** Field updates of the mutable [corrected] object. *)
Definition set_arousal (b : BeliefState) (v : R) : BeliefState :=
  mkBelief v (attention b) (rhythm_alignment b) (valence b)
    (arousal_variance b) (attention_variance b) (rhythm_variance b)
    (prediction_error b) (innovation b) (mahalanobis_distance b)
    (confidence b).
Definition set_attention (b : BeliefState) (v : R) : BeliefState :=
  mkBelief (arousal b) v (rhythm_alignment b) (valence b)
    (arousal_variance b) (attention_variance b) (rhythm_variance b)
    (prediction_error b) (innovation b) (mahalanobis_distance b)
    (confidence b).
Definition set_valence (b : BeliefState) (v : R) : BeliefState :=
  mkBelief (arousal b) (attention b) (rhythm_alignment b) v
    (arousal_variance b) (attention_variance b) (rhythm_variance b)
    (prediction_error b) (innovation b) (mahalanobis_distance b)
    (confidence b).
Definition set_arousal_variance (b : BeliefState) (v : R) : BeliefState :=
  mkBelief (arousal b) (attention b) (rhythm_alignment b) (valence b)
    v (attention_variance b) (rhythm_variance b)
    (prediction_error b) (innovation b) (mahalanobis_distance b)
    (confidence b).
Definition set_prediction_error (b : BeliefState) (v : R) : BeliefState :=
  mkBelief (arousal b) (attention b) (rhythm_alignment b) (valence b)
    (arousal_variance b) (attention_variance b) (rhythm_variance b)
    v (innovation b) (mahalanobis_distance b) (confidence b).
Definition set_confidence (b : BeliefState) (v : R) : BeliefState :=
  mkBelief (arousal b) (attention b) (rhythm_alignment b) (valence b)
    (arousal_variance b) (attention_variance b) (rhythm_variance b)
    (prediction_error b) (innovation b) (mahalanobis_distance b) v.

(** The measured arousal of the arousal correction: normalised heart
    rate, blended 60/40 with the normalised stress index when there is
    one, clamped to [0,1]. *)
Definition measured_arousal_of (hr : R) (si : option R) : R :=
  let measured_arousal := (hr - 50) / 70 in
  let measured_arousal :=
    match si with
    | Some stress_index =>
        let stress_norm := Rmin 1 (stress_index / 300) in
        0.6 * measured_arousal + 0.4 * stress_norm
    | None => measured_arousal
    end in
  clamp measured_arousal 0 1.

(** The measurement noise [R] of the arousal correction. *)
Definition measurement_noise (cfg : Config) (hc : R) : R :=
  if adaptive_r cfg
  then r_base cfg + (1 - hc) * r_adaptation_rate cfg
  else r_base cfg.

(** The arousal block of [correct]: the corrected object, the current
    innovation and the Mahalanobis score after it. *)
Definition correct_arousal (cfg : Config) (predicted : BeliefState)
    (obs : Observation) : BeliefState * R * R :=
  match heart_rate obs, hr_confidence obs with
  | Some hr, Some hc =>
      if JS.gtb hc 0.3 then
        let measured_arousal := measured_arousal_of hr (stress_index obs) in
        let R_ := measurement_noise cfg hc in
        let S := arousal_variance predicted + R_ in
        let K_arousal := arousal_variance predicted / S in
        let innovation := measured_arousal - arousal predicted in
        let mahalanobis := sqrt ((innovation * innovation) / S) in
        if JS.ltb mahalanobis (outlier_threshold cfg) then
          (set_arousal_variance
             (set_arousal predicted (arousal predicted + K_arousal * innovation))
             ((1 - K_arousal) * arousal_variance predicted),
           innovation, mahalanobis)
        else
          (set_arousal_variance predicted (arousal_variance predicted + 0.01),
           0, mahalanobis)
      else (predicted, 0, 0)
  | _, _ => (predicted, 0, 0)
  end.

Definition isDistracted (obs : Observation) : bool :=
  match user_interaction obs, visibilty_state obs with
  | Some pause, _ => true
  | _, hidden => true
  | _, _ => false
  end.

Definition correct (est : AdaptiveStateEstimator) (predicted : BeliefState)
    (obs : Observation) (dt : R) : BeliefState :=
  let '(corrected, currentInnovation, mahalanobis) :=
    correct_arousal (config est) predicted obs in
  let corrected :=
    match facial_valence obs with
    | Some fv => set_valence corrected (0.8 * valence corrected + 0.2 * fv)
    | None => corrected
    end in
  let corrected :=
    if isDistracted obs
    then set_attention corrected (attention predicted * 0.95)
    else set_attention corrected (Rmin 1 (attention corrected + 0.15 * dt)) in
  {| arousal := clamp (arousal corrected) 0 1;
     attention := clamp (attention corrected) 0 1;
     rhythm_alignment := clamp (rhythm_alignment corrected) 0 1;
     valence := clamp (valence corrected) (-1) 1;
     arousal_variance := arousal_variance corrected;
     attention_variance := attention_variance corrected;
     rhythm_variance := rhythm_variance corrected;
     prediction_error := prediction_error corrected;
     innovation := currentInnovation;
     mahalanobis_distance := mahalanobis;
     confidence := confidence corrected |}.

Definition computePredictionError (est : AdaptiveStateEstimator)
    (state : BeliefState) : R :=
  let error_arousal := (arousal state - target_arousal (target est)) ^ 2 in
  let error_rhythm :=
    (rhythm_alignment state - target_rhythm_alignment (target est)) ^ 2 in
  sqrt (0.5 * error_arousal + 0.5 * error_rhythm).

Definition computeConfidence (state : BeliefState) (obs : Observation) : R :=
  let certainty :=
    1 - Rmin 1 ((arousal_variance state + attention_variance state) / 2) in
  let sensor_quality := or_default (hr_confidence obs) 0.5 in
  clamp (JS.pow_half (certainty * sensor_quality)) 0 1.

(** [update]: the new estimator (its [belief] replaced) and the copy of
    the belief handed to the caller. *)
Definition update (est : AdaptiveStateEstimator) (obs : Observation)
    (dt : R) : AdaptiveStateEstimator * BeliefState :=
  let predicted := predict est dt in
  let corrected := correct est predicted obs dt in
  let corrected :=
    set_prediction_error corrected (computePredictionError est corrected) in
  let corrected :=
    set_confidence corrected (computeConfidence corrected obs) in
  ({| belief := corrected; target := target est; config := config est |},
   corrected).

End Estimator.

(* ================================================================== *)
(** ** [fft.worker.ts]: the rPPG / HRV worker *)
(* ================================================================== *)

Module Worker.

Record RGB := mkRGB { r : R; g : R; b : R; timestamp : R }.

Record ProcessingRequest := mkRequest {
  type : string;
  rgbData : list RGB;
  motionScore : R;
  sampleRate : R
}.

Record HRV := mkHRV { rmssd : R; sdnn : R; stressIndex : R }.

Record ProcessingResponse := mkResponse {
  heartRate : R;
  respirationRate : R;
  hrv : HRV;
  confidence : R;
  snr : R
}.

(** What the worker posts back: [{type: 'vitals_result', ...}] or
    [{type: 'error', message}]. *)
Inductive Message :=
| vitals_result (res : ProcessingResponse)
| error (message : string).

(** *** Math utils *)

Definition mean (data : list R) : R :=
  JS.sum data / INR (List.length data).

Definition stdDev (data : list R) : R :=
  let m := mean data in
  let variance :=
    fold_left (fun sum val => sum + (val - m) ^ 2) data 0
    / INR (List.length data) in
  sqrt variance.

(** [hammingWindow].  For [n = 1] the source divides by [n - 1 = 0] and
    its single coefficient is [NaN]; the statements about coefficients
    take [2 <= n].  The handler calls it with min(length, 512), which is
    at least 64 past the guard. *)
Definition hammingWindow (n : nat) : list R :=
  map (fun i => 0.54 - 0.46 * cos ((2 * PI * INR i) / (INR n - 1)))
      (seq 0 n).

(** *** POS projection *)

Definition zeroRGB : RGB := mkRGB 0 0 0 0.

Definition computePOS (rgb : list RGB) (fs : R) : list R :=
  let l := List.length rgb in
  let windowSize := JS.floor (1.6 * fs) in
  map (fun i =>
         let start := Z.max 0 (Z.of_nat i - windowSize) in
         let end_ := Z.min (Z.of_nat l) (Z.of_nat i + windowSize) in
         let segment := JS.slice rgb start end_ in
         let meanR := JS.or_else (mean (map r segment)) 1 in
         let meanG := JS.or_else (mean (map g segment)) 1 in
         let meanB := JS.or_else (mean (map b segment)) 1 in
         let c := nth i rgb zeroRGB in
         let cn_r := r c / meanR in
         let cn_g := g c / meanG in
         let cn_b := b c / meanB in
         let s1 := cn_g - cn_b in
         let s2 := cn_g + cn_b - 2 * cn_r in
         let seg_s1 := map (fun c => (g c / meanG) - (b c / meanB)) segment in
         let seg_s2 :=
           map (fun c => (g c / meanG) + (b c / meanB) - 2 * (r c / meanR))
               segment in
         let std1 := stdDev seg_s1 in
         let std2 := stdDev seg_s2 in
         let alpha := if JS.gtb std2 0 then std1 / std2 else 0 in
         s1 + alpha * s2)
      (seq 0 l).

(** *** Peak detection *)

(** One iteration of the loop of [detectPeaks] at index [i]; the loop
    state is the list of peaks and [lastPeakIndex]. *)
Definition detectPeaks_step (signal : list R) (threshold : R)
    (minDistance : Z) (st : list nat * Z) (i : nat) : list nat * Z :=
  let '(peaks, lastPeakIndex) := st in
  if JS.gtb (nth i signal 0) threshold
     && JS.gtb (nth i signal 0) (nth (i - 1) signal 0)
     && JS.gtb (nth i signal 0) (nth (i + 1) signal 0)
     && (Z.of_nat i - lastPeakIndex >? minDistance)%Z
  then (peaks ++ [i], Z.of_nat i)
  else (peaks, lastPeakIndex).

Definition detectPeaks (signal : list R) (fs : R) : list nat :=
  let minDistance := JS.floor (0.3 * fs) in
  let threshold := mean signal + stdDev signal * 0.5 in
  fst (fold_left (detectPeaks_step signal threshold minDistance)
                 (seq 1 (List.length signal - 2))
                 ([], (- minDistance)%Z)).

(** *** The message handler, stage by stage *)

(** Stage 2: five-point moving average, then DC removal. *)
Definition smooth (arr : list R) : list R :=
  map (fun i =>
         let lo := Nat.max 0 (i - 2) in
         let hi := Nat.min (List.length arr - 1) (i + 2) in
         let window := firstn (hi + 1 - lo) (skipn lo arr) in
         JS.sum window / INR (List.length window))
      (seq 0 (List.length arr)).

Definition acSignal_of (rgbData : list RGB) (sampleRate : R) : list R :=
  let bvpSignal := computePOS rgbData sampleRate in
  let smoothed := smooth bvpSignal in
  let meanVal := mean smoothed in
  map (fun v => v - meanVal) smoothed.

Definition nFFT : nat := 512.

(** Stage 3: the Hamming-windowed samples ([fftSignal], its first
    [w.length] entries; the zero padding is never read). *)
Definition fftSignal_of (acSignal : list R) : list R :=
  let w := hammingWindow (Nat.min (List.length acSignal) nFFT) in
  map (fun p => fst p * snd p) (combine acSignal w).

(** Power of one DFT bin. *)
Definition binPower (fftSignal : list R) (bin : Z) : R :=
  let k := (2 * PI * IZR bin) / INR nFFT in
  let re :=
    fold_left (fun re p => re + snd p * cos (k * INR (fst p)))
              (combine (seq 0 (List.length fftSignal)) fftSignal) 0 in
  let im :=
    fold_left (fun im p => im - snd p * sin (k * INR (fst p)))
              (combine (seq 0 (List.length fftSignal)) fftSignal) 0 in
  re * re + im * im.

(** The bins [lo], [lo + 1], ..., [hi] of a [for] loop. *)
Definition bins (lo hi : Z) : list Z :=
  map (fun k => (lo + Z.of_nat k)%Z) (seq 0 (Z.to_nat (hi - lo + 1))).

(** The spectral-peak loop: state [(maxPower, peakFreq, noisePower)]. *)
Definition peak_step (fftSignal : list R) (sampleRate : R)
    (st : R * R * R) (bin : Z) : R * R * R :=
  let '(maxPower, peakFreq, noisePower) := st in
  let power := binPower fftSignal bin in
  if JS.gtb power maxPower
  then (power, IZR bin * sampleRate / INR nFFT, noisePower + power)
  else (maxPower, peakFreq, noisePower + power).

(** The spectral-peak loop over the bins of a band.  With a sample rate
    of 0 the source's bounds are infinite and its loop never ends, so the
    handler posts nothing: the statements about a reply take
    [0 < sampleRate]. *)
Definition spectralPeak (fftSignal : list R) (sampleRate : R)
    (lowHz highHz : R) : R * R * R :=
  let minBin := JS.floor (lowHz * INR nFFT / sampleRate) in
  let maxBin := JS.floor (highHz * INR nFFT / sampleRate) in
  fold_left (peak_step fftSignal sampleRate) (bins minBin maxBin) (0, 0, 0).

(** Stage 5: inter-beat intervals and the time-domain statistics. *)
Definition successive {A : Type} (xs : list A) : list (A * A) :=
  combine xs (tl xs).

Definition hrv_of (peaks : list nat) (sampleRate : R) : HRV :=
  let '(rmssd, sdnn, stressIndex) :=
    if (2 <? List.length peaks)%nat then
      let intervalsMs :=
        map (fun p => (INR (snd p) - INR (fst p)) * 1000 / sampleRate)
            (successive peaks) in
      let sqDiffSum :=
        fold_left (fun acc p => acc + (snd p - fst p) ^ 2)
                  (successive intervalsMs) 0 in
      let rmssd := sqrt (sqDiffSum / (INR (List.length intervalsMs) - 1)) in
      let sdnn := stdDev intervalsMs in
      let mode := mean intervalsMs in
      let range := JS.max_list intervalsMs - JS.min_list intervalsMs in
      let stressIndex := 1000 / (2 * mode * JS.or_else range 1) in
      (rmssd, sdnn, stressIndex)
    else (0, 0, 0) in
  mkHRV rmssd sdnn (stressIndex * 10000).

(** [self.onmessage]: what is posted back for a request. *)
Definition onmessage (req : ProcessingRequest) : Message :=
  if negb (String.eqb (type req) "process_signal")
     || (List.length (rgbData req) <? 64)%nat
  then error "Error: Insufficient data"
  else
    let acSignal := acSignal_of (rgbData req) (sampleRate req) in
    let fftSignal := fftSignal_of acSignal in
    let '(maxPower, peakFreq, noisePower) :=
      spectralPeak fftSignal (sampleRate req) 0.66 3.66 in
    let snr :=
      if JS.gtb noisePower 0 then maxPower / (noisePower - maxPower) else 0 in
    let hr := peakFreq * 60 in
    let '(_, respFreq, _) :=
      spectralPeak fftSignal (sampleRate req) 0.1 0.5 in
    let rr := respFreq * 60 in
    let peaks := detectPeaks acSignal (sampleRate req) in
    let motionPenalty := Rmax 0 (1 - motionScore req * 2) in
    let snrScore := Rmin 1 (snr / 10) in
    let confidence := motionPenalty * snrScore in
    vitals_result
      {| heartRate := hr;
         respirationRate := rr;
         hrv := hrv_of peaks (sampleRate req);
         confidence := confidence;
         snr := snr |}.

End Worker.

(* ================================================================== *)
(** ** [types.ts]: vital signs *)
(* ================================================================== *)

Module Vitals.

Inductive SignalQuality := excellent | good | fair | poor.

Inductive MoodLabel := anxious | calm | focused | neutral | distracted.

Record AffectiveState := mkAffective {
  valence : R;
  arousal : R;
  mood_label : MoodLabel
}.

Record VitalSigns := mkVitals {
  heartRate : R;
  respirationRate : option R;
  hrv : option Worker.HRV;
  affective : option AffectiveState;
  confidence : R;
  signalQuality : SignalQuality;
  snr : R;
  motionLevel : R
}.

End Vitals.

(* ================================================================== *)
(** ** [CameraVitalsEngine]: the signal extraction pipeline *)
(* ================================================================== *)

Module Engine.
Import Vitals.

Record Keypoint := mkKeypoint { x : R; y : R }.

Record ROI := mkROI { roi_x : R; roi_y : R; width : R; height : R }.

Record Color := mkColor { col_r : R; col_g : R; col_b : R }.

(** A video frame as the engine reads it: its size, and for a region
    the RGBA bytes [getImageData] returns after [drawImage] (the canvas
    is the browser's). *)
Record Video := mkVideo {
  videoWidth : R;
  videoHeight : R;
  imageData : ROI -> list R
}.

(** The fields of the engine.  [detector] and [worker] say whether the
    collaborator has been created ([null] before [init]). *)
Record CameraVitalsEngine := mkEngine {
  detector : bool;
  worker : bool;
  rgbBuffer : list Worker.RGB;
  isProcessing : bool;
  valenceSmoother : R;
  arousalSmoother : R;
  lastKnownVitals : VitalSigns;
  lastPos : option Keypoint
}.

Definition BUFFER_DURATION : nat := 6.
Definition SAMPLE_RATE : nat := 30.

Definition getDefaultVitals : VitalSigns :=
  {| heartRate := 0; respirationRate := None; hrv := None;
     affective := None; confidence := 0; signalQuality := poor;
     snr := 0; motionLevel := 0 |}.

Definition mapWorkerResponse (res : Worker.ProcessingResponse) : VitalSigns :=
  {| heartRate := Worker.heartRate res;
     respirationRate := Some (Worker.respirationRate res);
     hrv := Some (Worker.hrv res);
     affective := None;
     confidence := Worker.confidence res;
     snr := Worker.snr res;
     signalQuality :=
       if JS.gtb (Worker.confidence res) 0.7 then excellent
       else if JS.gtb (Worker.confidence res) 0.4 then good
       else poor;
     motionLevel := 0 |}.

Definition set_lastKnownVitals (e : CameraVitalsEngine) (v : VitalSigns)
  : CameraVitalsEngine :=
  mkEngine (detector e) (worker e) (rgbBuffer e) (isProcessing e)
    (valenceSmoother e) (arousalSmoother e) v (lastPos e).

(** [decayVitals]: the engine with [lastKnownVitals] replaced, and the
    value returned. *)
Definition decayVitals (e : CameraVitalsEngine)
  : CameraVitalsEngine * VitalSigns :=
  let v := lastKnownVitals e in
  let confidence' := confidence v * 0.95 in
  let v :=
    {| heartRate := heartRate v;
       respirationRate := respirationRate v;
       hrv := hrv v;
       affective := affective v;
       confidence := confidence';
       signalQuality := if JS.gtb confidence' 0.4 then fair else poor;
       snr := snr v;
       motionLevel := motionLevel v |} in
  (set_lastKnownVitals e v, v).

Definition dist (a b : Keypoint) : R := JS.hypot (x a - x b) (y a - y b).

Definition zeroPoint : Keypoint := mkKeypoint 0 0.

(** [pts[i]]. *)
Definition pt (pts : list Keypoint) (i : nat) : Keypoint :=
  nth i pts zeroPoint.

Definition calculateGeometricValence (pts : list Keypoint) : R :=
  let leftLip := pt pts 61 in
  let rightLip := pt pts 291 in
  let mouthWidth := dist leftLip rightLip in
  let faceWidth := dist (pt pts 234) (pt pts 454) in
  let smileRatio := mouthWidth / faceWidth in
  let smileScore := (smileRatio - 0.35) * 5.0 in
  let leftBrow := pt pts 107 in
  let rightBrow := pt pts 336 in
  let browDist := dist leftBrow rightBrow / faceWidth in
  let furrowScore := (0.25 - browDist) * 8.0 in
  Rmax (-1) (Rmin 1 (smileScore - Rmax 0 furrowScore)).

Definition classifyMood (val aro : R) : MoodLabel :=
  if JS.gtb aro 0.7 then anxious
  else if JS.gtb val 0.3 && JS.ltb aro 0.5 then calm
  else if JS.gtb val 0.2 && JS.gtb aro 0.4 && JS.ltb aro 0.7 then focused
  else if JS.ltb aro 0.2 then distracted
  else neutral.

Definition getForeheadROI (pts : list Keypoint) (w h : R) : ROI :=
  let xs :=
    map (fun v => Rmax 0 (Rmin w v))
        [x (pt pts 109); x (pt pts 338); x (pt pts 297); x (pt pts 332)] in
  let ys :=
    map (fun v => Rmax 0 (Rmin h v))
        [y (pt pts 109); y (pt pts 338); y (pt pts 297)] in
  {| roi_x := JS.min_list xs; roi_y := JS.min_list ys;
     width := JS.max_list xs - JS.min_list xs;
     height := JS.max_list ys - JS.min_list ys |}.

Definition getCheekROI (pts : list Keypoint) (w h : R) (isLeft : bool) : ROI :=
  let indices := if isLeft then [123; 50; 205]%nat else [352; 280; 425]%nat in
  let regionPts := map (pt pts) indices in
  let xs := map x regionPts in
  let ys := map y regionPts in
  {| roi_x := JS.min_list xs; roi_y := JS.min_list ys;
     width := JS.max_list xs - JS.min_list xs;
     height := JS.max_list ys - JS.min_list ys |}.

(** The loop [for (i = 0; i < data.length; i += 16)] of
    [extractROIColor]: the start index of every fourth pixel. *)
Definition sampled_indices (len : nat) : list nat :=
  map (fun k => (16 * k)%nat) (seq 0 ((len + 15) / 16)).

Definition extractROIColor (video : Video) (roi : ROI) : Color :=
  if JS.leb (width roi) 0 || JS.leb (height roi) 0 then mkColor 0 0 0
  else
    let data := imageData video roi in
    let idx := sampled_indices (List.length data) in
    let r := fold_left (fun acc i => acc + nth i data 0) idx 0 in
    let g := fold_left (fun acc i => acc + nth (i + 1) data 0) idx 0 in
    let b := fold_left (fun acc i => acc + nth (i + 2) data 0) idx 0 in
    let c := List.length idx in
    if (0 <? c)%nat then mkColor (r / INR c) (g / INR c) (b / INR c)
    else mkColor 0 0 0.

(** [calculateMotion]: the new [lastPos] and the motion score. *)
Definition calculateMotion (last : option Keypoint) (pts : list Keypoint)
  : option Keypoint * R :=
  let nose := pt pts 1 in
  match last with
  | None => (Some nose, 0)
  | Some lastPos =>
      let d := JS.hypot (x nose - x lastPos) (y nose - y lastPos) in
      (Some nose, Rmin 1 (d / 10))
  end.

(** [triggerWorker], with the worker's reply awaited: [None] is the
    source's [null]. *)
Definition triggerWorker (e : CameraVitalsEngine) (motion : R)
  : option VitalSigns :=
  if negb (worker e) then None
  else
    let req :=
      {| Worker.type := "process_signal";
         Worker.rgbData := rgbBuffer e;
         Worker.motionScore := motion;
         Worker.sampleRate := INR SAMPLE_RATE |} in
    match Worker.onmessage req with
    | Worker.vitals_result res => Some (mapWorkerResponse res)
    | Worker.error _ => None
    end.

(** [processFrame] for one frame: [now] is [performance.now()] and
    [faces] what the detector's [estimateFaces] returned, each face its
    list of keypoints. *)
Definition processFrame (e : CameraVitalsEngine) (video : Video) (now : R)
    (faces : list (list Keypoint)) : CameraVitalsEngine * VitalSigns :=
  if negb (detector e) || negb (worker e) then (e, getDefaultVitals)
  else
    match faces with
    | [] => decayVitals e
    | keypoints :: _ =>
        let forehead :=
          extractROIColor video
            (getForeheadROI keypoints (videoWidth video) (videoHeight video)) in
        let leftCheek :=
          extractROIColor video
            (getCheekROI keypoints (videoWidth video) (videoHeight video) true) in
        let rightCheek :=
          extractROIColor video
            (getCheekROI keypoints (videoWidth video) (videoHeight video) false) in
        let fusedColor :=
          {| Worker.r := (col_r forehead + col_r leftCheek + col_r rightCheek) / 3;
             Worker.g := (col_g forehead + col_g leftCheek + col_g rightCheek) / 3;
             Worker.b := (col_b forehead + col_b leftCheek + col_b rightCheek) / 3;
             Worker.timestamp := now |} in
        let buffer := rgbBuffer e ++ [fusedColor] in
        let maxSamples := (BUFFER_DURATION * SAMPLE_RATE)%nat in
        let buffer :=
          if (maxSamples <? List.length buffer)%nat then tl buffer else buffer in
        let valence := calculateGeometricValence keypoints in
        let valenceSmoother' := valenceSmoother e * 0.9 + valence * 0.1 in
        let '(lastPos', motion) := calculateMotion (lastPos e) keypoints in
        let e1 :=
          mkEngine (detector e) (worker e) buffer (isProcessing e)
            valenceSmoother' (arousalSmoother e) (lastKnownVitals e) lastPos' in
        let workerResult :=
          if (64 <? List.length buffer)%nat && negb (isProcessing e1)
          then triggerWorker e1 motion
          else None in
        let currentVitals :=
          match workerResult with
          | Some v => v
          | None => lastKnownVitals e1
          end in
        let rawStress :=
          match hrv currentVitals with
          | Some h => JS.or_else (Worker.stressIndex h) 0
          | None => 0
          end in
        let arousal := Rmin 1 (rawStress / 500) in
        let arousalSmoother' := arousalSmoother e1 * 0.95 + arousal * 0.05 in
        let affectiveState :=
          {| Vitals.valence := valenceSmoother';
             Vitals.arousal := arousalSmoother';
             mood_label := classifyMood valenceSmoother' arousalSmoother' |} in
        let finalResult :=
          {| heartRate := heartRate currentVitals;
             respirationRate := respirationRate currentVitals;
             hrv := hrv currentVitals;
             affective := Some affectiveState;
             confidence := confidence currentVitals;
             signalQuality := signalQuality currentVitals;
             snr := snr currentVitals;
             motionLevel := motion |} in
        (mkEngine (detector e1) (worker e1) (rgbBuffer e1) (isProcessing e1)
           valenceSmoother' arousalSmoother' finalResult lastPos',
         finalResult)
    end.

(** A freshly constructed engine, and the engine after a successful
    [init] (detector and worker created). *)
Definition new_engine : CameraVitalsEngine :=
  mkEngine false false [] false 0 0 getDefaultVitals None.

Definition init (e : CameraVitalsEngine) : CameraVitalsEngine :=
  mkEngine true true (rgbBuffer e) (isProcessing e) (valenceSmoother e)
    (arousalSmoother e) (lastKnownVitals e) (lastPos e).

End Engine.

(* ================================================================== *)
(** ** [config/SafetyConfig] *)
(* ================================================================== *)

Module Config.

Record Clocks := mkClocks {
  controlHz : R;
  maxFrameDtSec : R;
  maxControlStepsPerFrame : R
}.

Record VitalsBounds := mkVitalsBounds {
  hrHardMin : R;
  hrHardMax : R;
  hrSoftMin : R;
  hrSoftMax : R
}.

Record Tempo := mkTempo {
  tempo_min : R;
  tempo_max : R;
  upStep : R;
  downStep : R;
  lowAlign : R;
  highAlign : R;
  deadband : R
}.

Record Safety := mkSafety { minSessionSecBeforeEmergency : R }.

Record Persistence := mkPersistence { retentionMs : R }.

Record SafetyConfigType := mkSafetyConfig {
  clocks : Clocks;
  vitals : VitalsBounds;
  tempo : Tempo;
  safety : Safety;
  persistence : Persistence
}.

Definition SafetyConfig : SafetyConfigType :=
  {| clocks := mkClocks 10 0.1 3;
     vitals := mkVitalsBounds 30 220 40 200;
     tempo := mkTempo 1.0 1.3 0.002 0.001 0.35 0.8 0.01;
     safety := mkSafety 10;
     persistence := mkPersistence (7 * 24 * 60 * 60 * 1000) |}.

End Config.

(* ================================================================== *)
(** ** The kernel's safety guard *)
(* ================================================================== *)

Module Kernel.
Import Types Config.

Inductive Status := IDLE | RUNNING | PAUSED | SAFETY_LOCK.

(** Modelled from the spec: the file [services/PureZenBKernel] (class
    [PureZenBKernel], its [RuntimeState] and [dispatch]) is not among
    the sources; only its test is.  The record holds the fields of
    RuntimeState that the status machine and the safety guard read
    (section 3 of the specification), and the "elapsed session time" of
    section 4.2 as [sessionDuration].  The breathing-phase clock
    ([phase], [phaseElapsed], [phaseDuration], [cycleCount]) and the
    guard's tempo adaptation are left out: nothing below depends on
    them. *)
Record RuntimeState := mkState {
  status : Status;
  pattern : option BreathPattern;
  tempoScale : R;
  belief : option BeliefState;
  safetyRegistry : list (string * SafetyProfile);
  lastObservation : option Observation;
  sessionDuration : R
}.

(** Modelled from the spec: a kernel instance is its configuration, its
    RuntimeState, the append-only event log, and the events handed to
    the persistence collaborator's [writeEvent], oldest first. *)
Record PureZenBKernel := mkKernel {
  config : SafetyConfigType;
  state : RuntimeState;
  log : list KernelEvent;
  written : list KernelEvent
}.

Definition initial_state : RuntimeState :=
  mkState IDLE None 1 None [] None 0.

Definition new_kernel (cfg : SafetyConfigType) : PureZenBKernel :=
  mkKernel cfg initial_state [] [].

(** Modelled from the spec (4.1): the whitelisted subset "START_SESSION,
    HALT, SAFETY_INTERDICTION, CYCLE_COMPLETE, ADJUST_TEMPO of AI
    origin"; the voice bridge marks its adjustments with a reason that
    starts with [AI]. *)
Definition whitelist (ev : KernelEvent) : bool :=
  match ev with
  | START_SESSION _ | HALT _ _ | SAFETY_INTERDICTION _ _ _
  | CYCLE_COMPLETE _ _ => true
  | ADJUST_TEMPO _ reason _ => String.prefix "AI" reason
  | _ => false
  end.

Fixpoint find_profile (pid : string) (reg : list (string * SafetyProfile))
  : option SafetyProfile :=
  match reg with
  | [] => None
  | (k, p) :: rest => if String.eqb pid k then Some p else find_profile pid rest
  end.

Fixpoint find_pattern (pid : string) (tbl : list BreathPattern)
  : option BreathPattern :=
  match tbl with
  | [] => None
  | p :: rest => if String.eqb pid (id p) then Some p else find_pattern pid rest
  end.

Definition set_status (s : RuntimeState) (st : Status) : RuntimeState :=
  mkState st (pattern s) (tempoScale s) (belief s) (safetyRegistry s)
    (lastObservation s) (sessionDuration s).

(** Modelled from the spec (4.1, 4.2): the effect of one event on the
    kernel, before the event itself is logged.  The result is the new
    RuntimeState, the events the kernel emits while handling it (logged,
    and persisted when whitelisted), and the events it emits and
    persists unconditionally. *)
Definition apply_event (cfg : SafetyConfigType) (s : RuntimeState)
    (ev : KernelEvent) : RuntimeState * list KernelEvent * list KernelEvent :=
  match ev with
  | LOAD_PROTOCOL pid ts =>
      (* fails closed when the pattern is locked *)
      match find_profile pid (safetyRegistry s) with
      | Some p =>
          if JS.gtb (safety_lock_until p) ts
          then (mkState (status s) None (tempoScale s) (belief s)
                  (safetyRegistry s) (lastObservation s) (sessionDuration s),
                [SAFETY_INTERDICTION 0 "PATTERN_LOCKED" ts], [])
          else (mkState (status s) (find_pattern pid BREATHING_PATTERNS)
                  (tempoScale s) (belief s) (safetyRegistry s)
                  (lastObservation s) (sessionDuration s), [], [])
      | None =>
          (mkState (status s) (find_pattern pid BREATHING_PATTERNS)
             (tempoScale s) (belief s) (safetyRegistry s)
             (lastObservation s) (sessionDuration s), [], [])
      end
  | START_SESSION ts =>
      match status s, pattern s with
      | SAFETY_LOCK, _ => (s, [SAFETY_INTERDICTION 0 "REJECT_START" ts], [])
      | _, Some _ =>
          (mkState RUNNING (pattern s) (tempoScale s) (belief s)
             (safetyRegistry s) (lastObservation s) 0, [], [])
      | _, None => (s, [], [])
      end
  | TICK dt obs _ =>
      match status s with
      | RUNNING =>
          (mkState RUNNING (pattern s) (tempoScale s) (belief s)
             (safetyRegistry s) (Some obs) (sessionDuration s + dt), [], [])
      | _ => (s, [], [])
      end
  | BELIEF_UPDATE b ts =>
      (* the safety guard, rules 1 and 3 *)
      if JS.gtb (prediction_error b) 0.95
         && JS.leb (minSessionSecBeforeEmergency (safety cfg))
                   (sessionDuration s)
      then
        let halt := SAFETY_INTERDICTION (prediction_error b) "EMERGENCY_HALT" ts in
        (mkState SAFETY_LOCK (pattern s) (tempoScale s) (Some b)
           (safetyRegistry s) (lastObservation s) (sessionDuration s),
         [], [halt])
      else
        (mkState (status s) (pattern s) (tempoScale s) (Some b)
           (safetyRegistry s) (lastObservation s) (sessionDuration s), [], [])
  | SAFETY_INTERDICTION _ action _ =>
      if String.eqb action "EMERGENCY_HALT"
      then (set_status s SAFETY_LOCK, [], [])
      else (s, [], [])
  | INTERRUPTION _ _ =>
      match status s with
      | RUNNING => (set_status s PAUSED, [], [])
      | _ => (s, [], [])
      end
  | RESUME _ =>
      match status s with
      | PAUSED => (set_status s RUNNING, [], [])
      | _ => (s, [], [])
      end
  | LOAD_SAFETY_REGISTRY reg _ =>
      (mkState (status s) (pattern s) (tempoScale s) (belief s) reg
         (lastObservation s) (sessionDuration s), [], [])
  | ADJUST_TEMPO scale _ _ =>
      (mkState (status s) (pattern s)
         (Rmax (tempo_min (tempo cfg)) (Rmin (tempo_max (tempo cfg)) scale))
         (belief s) (safetyRegistry s) (lastObservation s)
         (sessionDuration s), [], [])
  | _ => (s, [], [])
  end.

(** Modelled from the spec (4.1): [dispatch] applies the event, appends
    it and what the kernel emitted to the log, and calls the persistence
    write for the whitelisted events; what the guard persists
    unconditionally does not pass through the whitelist [wl]. *)
Definition dispatch_with (wl : KernelEvent -> bool) (k : PureZenBKernel)
    (ev : KernelEvent) : PureZenBKernel :=
  let '(s', emitted, forced) := apply_event (config k) (state k) ev in
  {| config := config k;
     state := s';
     log := log k ++ [ev] ++ emitted ++ forced;
     written := written k ++ filter wl ([ev] ++ emitted) ++ forced |}.

Definition dispatch : PureZenBKernel -> KernelEvent -> PureZenBKernel :=
  dispatch_with whitelist.

(** Modelled from the spec (4.1): [tick(dt, observation)] is the
    control-loop entry point; it dispatches a TICK event stamped with
    the observation's time. *)
Definition tick (k : PureZenBKernel) (dt : R) (obs : Observation)
  : PureZenBKernel :=
  dispatch k (TICK dt obs (timestamp obs)).

Definition getState (k : PureZenBKernel) : RuntimeState := state k.

End Kernel.

(* ================================================================== *)
(** ** Predicates used in the statements *)
(* ================================================================== *)

Module Invariants.
Import Types Estimator.

(** The three variances of a belief are non-negative. *)
Definition variances_ok (b : BeliefState) : Prop :=
  0 <= arousal_variance b /\ 0 <= attention_variance b
  /\ 0 <= rhythm_variance b.

(** The noise parameters of a configuration are sensible: process noise
    non-negative, base measurement noise positive, adaptation rate
    non-negative. *)
Definition config_ok (cfg : Config) : Prop :=
  0 <= q_base cfg /\ 0 < r_base cfg /\ 0 <= r_adaptation_rate cfg.

(** The confidence of an observation, when present, is at most 1. *)
Definition confidence_ok (obs : Observation) : Prop :=
  forall hc, hr_confidence obs = Some hc -> hc <= 1.

(** The point estimates are inside their ranges. *)
Definition in_range (b : BeliefState) : Prop :=
  0 <= arousal b <= 1 /\ 0 <= attention b <= 1
  /\ 0 <= rhythm_alignment b <= 1 /\ -1 <= valence b <= 1.


(** The estimators a program can hold when it constructs one with the
    default configuration and then only calls [setProtocol] and
    [update], the latter with a non-negative time step and an
    observation whose confidence is at most 1. *)
Inductive reachable : AdaptiveStateEstimator -> Prop :=
| reach_new : reachable (constructor empty_config)
| reach_setProtocol est pattern :
    reachable est -> reachable (setProtocol est pattern)
| reach_update est obs dt :
    reachable est -> 0 <= dt -> confidence_ok obs ->
    reachable (fst (update est obs dt)).

End Invariants.

(* ================================================================== *)
(** ** Concrete inputs used in the examples *)
(* ================================================================== *)

Module Examples.
Import Types.

(** An observation with a heart rate and its confidence. *)
Definition obs_hr (hr hc : R) : Observation :=
  mkObservation 0 0 None visible (Some hr) (Some hc) None None None.

(** An observation with a confidence but no heart rate. *)
Definition obs_conf (hc : R) : Observation :=
  mkObservation 0 0 None visible None (Some hc) None None None.

(** The estimator as constructed with no configuration. *)
Definition est0 : Estimator.AdaptiveStateEstimator :=
  Estimator.constructor Estimator.empty_config.

(** An estimator configured with [r_base = 0.05] and
    [outlier_threshold = 1]. *)
Definition est_tight : Estimator.AdaptiveStateEstimator :=
  Estimator.constructor
    (Estimator.mkEstimatorConfig None None None None (Some 0.05) (Some 1)).

(** A worker request of [n] black samples at 30 Hz, no motion. *)
Definition req_black (n : nat) : Worker.ProcessingRequest :=
  Worker.mkRequest "process_signal" (repeat Worker.zeroRGB n) 0 30.

(** The belief injected by the kernel's EMERGENCY_HALT test. *)
Definition belief_alarm : BeliefState :=
  mkBelief 1.0 0.0 0.0 (-0.8) 0 0 0 0.99 1.0 10.0 0.

(** The kernel of that test: protocol 4-7-8 loaded, session started,
    one tick of [dt] seconds. *)
Definition kernel_after (dt : R) : Kernel.PureZenBKernel :=
  let k := Kernel.new_kernel Config.SafetyConfig in
  let k := Kernel.dispatch k (LOAD_PROTOCOL "4-7-8" 0) in
  let k := Kernel.dispatch k (START_SESSION 0) in
  Kernel.tick k dt
    (mkObservation dt dt None visible None None None None None).

End Examples.

(* ================================================================== *)
(** ** [components/Footer]: session bookkeeping of the safety registry *)
(* ================================================================== *)

Module Footer.
Import Types.

(** [Math.trunc], the rounding of JavaScript's integer conversions and of
    its [%] operator. *)
Definition trunc (x : R) : Z :=
  if Rlt_dec x 0 then (- JS.floor (- x))%Z else JS.floor x.

(** [a % b] on numbers (the sign of the result is the dividend's). *)
Definition rem (a b : R) : R := a - b * IZR (trunc (a / b)).

(** [SessionHistoryItem] of [types.ts]. *)
Record SessionHistoryItem := mkHistoryItem {
  item_id : string;
  item_timestamp : R;
  durationSec : R;
  item_patternId : string;
  cycles : nat;
  finalBelief : BeliefState
}.

(** [safetyRegistry[id]]: [None] is [undefined]. *)
Fixpoint registry_get (reg : list (string * SafetyProfile)) (key : string)
  : option SafetyProfile :=
  match reg with
  | [] => None
  | (k, p) :: rest => if String.eqb key k then Some p else registry_get rest key
  end.

(** The [reason] strings of [isPatternLocked], as data: the numbers the
    templates interpolate. *)
Inductive LockReason :=
| SafetyLockActive (h m : Z)
| RequiresMoreSessions (n : nat).

Record LockStatus := mkLock { locked : bool; reason : option LockReason }.

(** [isPatternLocked]; [now] is [Date.now()]. *)
Definition isPatternLocked (safetyRegistry : list (string * SafetyProfile))
    (history : list SessionHistoryItem) (now : R) (pattern : BreathPattern)
  : LockStatus :=
  let tiered :=
    if (tier pattern =? 1)%nat then mkLock false None
    else
      let qualitySessions :=
        filter (fun h => JS.gtb (durationSec h) 60) history in
      if (tier pattern =? 2)%nat then
        let minSessions := 5%nat in
        if (List.length qualitySessions <? minSessions)%nat
        then mkLock true
               (Some (RequiresMoreSessions
                        (minSessions - List.length qualitySessions)))
        else mkLock false None
      else if (tier pattern =? 3)%nat then
        let minSessions := 20%nat in
        if (List.length qualitySessions <? minSessions)%nat
        then mkLock true
               (Some (RequiresMoreSessions
                        (minSessions - List.length qualitySessions)))
        else mkLock false None
      else mkLock false None in
  match registry_get safetyRegistry (id pattern) with
  | Some record =>
      if JS.gtb (safety_lock_until record) now then
        let remainMs := Rmax 0 (safety_lock_until record - now) in
        let h := JS.floor (remainMs / 3600000) in
        let m := JS.floor (rem remainMs 3600000 / 60000) in
        mkLock true (Some (SafetyLockActive h m))
      else tiered
  | None => tiered
  end.

(** [[...history, x].slice(-5)]. *)
Definition push_last5 (history : list R) (x : R) : list R :=
  let l := history ++ [x] in
  JS.slice l (-5) (Z.of_nat (List.length l)).

(** The record [handleStop] hands to [kernel.updateSafetyProfile]:
    [now] is [Date.now()], [sessionStartTime] the start of the session,
    [belief] the kernel's final belief. *)
Definition handleStop_record (safetyRegistry : list (string * SafetyProfile))
    (currentPatternId : string) (sessionStartTime now : R)
    (belief : BeliefState) : SafetyProfile :=
  let durationSec := IZR (JS.floor ((now - sessionStartTime) / 1000)) in
  let isSuccess :=
    JS.gtb durationSec 45 && JS.ltb (prediction_error belief) 0.5 in
  let record :=
    match registry_get safetyRegistry currentPatternId with
    | Some r => r
    | None => mkProfile currentPatternId 0 0 0 []
    end in
  if isSuccess then
    mkProfile (patternId record) (cummulative_stress_score record)
      (last_incident_timestamp record) (safety_lock_until record)
      (push_last5 (resonance_history record) 1.0)
  else
    let score := cummulative_stress_score record + 1 in
    if JS.gtb score 5 then
      mkProfile (patternId record) 0 (last_incident_timestamp record)
        (now + 24 * 60 * 60 * 1000)
        (push_last5 (resonance_history record) 0.0)
    else
      mkProfile (patternId record) score (last_incident_timestamp record)
        (safety_lock_until record)
        (push_last5 (resonance_history record) 0.0).

End Footer.

(* ================================================================== *)
(** ** [GeminiSomaticBridge.ts]: audio conversion and telemetry pacing *)
(* ================================================================== *)

Module Bridge.

(** Storing a number into an [Int16Array]: truncation towards zero, then
    wrap-around modulo 2^16 into the signed range. *)
Definition toInt16 (v : R) : Z :=
  ((Footer.trunc v + 32768) mod 65536 - 32768)%Z.

Definition floatTo16BitPCM (input : list R) : list Z :=
  map (fun x =>
         let s := Rmax (-1) (Rmin 1 x) in
         toInt16 (if JS.ltb s 0 then s * 32768 else s * 32767))
      input.

(** What one call of the kernel subscriber installed by [handleOpen]
    reads: the clock [Date.now()], the bridge's [isConnected] flag,
    whether the kernel status is RUNNING, and the belief's prediction
    error. *)
Record TelemetryCall := mkCall {
  call_now : R;
  call_connected : bool;
  call_running : bool;
  call_prediction_error : R
}.

(** One call of the subscriber.  The result is the new [lastSend] and
    whether a telemetry message was sent. *)
Definition telemetry_step (lastSend : R) (c : TelemetryCall) : R * bool :=
  let now := call_now c in
  let isCritical := JS.gtb (call_prediction_error c) 0.8 in
  let shouldSend :=
    JS.gtb (now - lastSend) 3000
    || (isCritical && JS.gtb (now - lastSend) 1000) in
  if shouldSend && call_connected c && call_running c then (now, true)
  else (lastSend, false).

(** The subscriber called for a sequence of kernel states: the times at
    which a message was sent, oldest first, starting from [lastSend]. *)
Fixpoint telemetry_run (lastSend : R) (calls : list TelemetryCall)
  : list R :=
  match calls with
  | [] => []
  | c :: rest =>
      let '(lastSend', sent) := telemetry_step lastSend c in
      if sent then call_now c :: telemetry_run lastSend' rest
      else telemetry_run lastSend' rest
  end.

End Bridge.

(* ================================================================== *)
(** ** Drivers and predicates for the further properties *)
(* ================================================================== *)

Module Props.
Import Types.

(** The target of an estimator is one of the four protocol targets. *)
Definition protocol_target (t : Estimator.TargetState) : Prop :=
  exists k, t = Estimator.PROTOCOL_TARGETS k.

(** [x] lies between [a] and [b], in either order. *)
Definition between (a b x : R) : Prop := Rmin a b <= x <= Rmax a b.

(** Consecutive entries of an index list are more than [d] apart. *)
Fixpoint spaced (d : Z) (l : list nat) : Prop :=
  match l with
  | [] => True
  | i :: rest =>
      match rest with
      | [] => True
      | j :: _ => (Z.of_nat j - Z.of_nat i > d)%Z
      end /\ spaced d rest
  end.

(** Consecutive entries of a list of times are more than [gap] apart. *)
Fixpoint paced (gap : R) (l : list R) : Prop :=
  match l with
  | [] => True
  | t :: rest =>
      match rest with
      | [] => True
      | u :: _ => u - t > gap
      end /\ paced gap rest
  end.

(** One frame as [processFrame] sees it: the video, the clock and the
    detected faces. *)
Definition Frame : Type := Engine.Video * R * list (list Engine.Keypoint).

(** [processFrame] called for each frame of a sequence in turn. *)
Definition processFrames (e : Engine.CameraVitalsEngine) (frames : list Frame)
  : Engine.CameraVitalsEngine :=
  fold_left (fun e f => fst (Engine.processFrame e (fst (fst f)) (snd (fst f)) (snd f)))
            frames e.

(** The ranges of the vital signs the engine hands out. *)
Definition vitals_ok (v : Vitals.VitalSigns) : Prop :=
  0 <= Vitals.confidence v <= 1
  /\ 0 <= Vitals.motionLevel v <= 1
  /\ (forall h, Vitals.hrv v = Some h -> 0 <= Worker.stressIndex h)
  /\ (forall a, Vitals.affective v = Some a ->
        -1 <= Vitals.valence a <= 1 /\ 0 <= Vitals.arousal a <= 1).

(** The ranges the engine keeps between frames. *)
Definition engine_ok (e : Engine.CameraVitalsEngine) : Prop :=
  vitals_ok (Engine.lastKnownVitals e)
  /\ -1 <= Engine.valenceSmoother e <= 1
  /\ 0 <= Engine.arousalSmoother e <= 1.

(** The first detected face, if any, has a positive face width (the
    distance between keypoints 234 and 454 that the valence proxy divides
    by). *)
Definition face_ok (faces : list (list Engine.Keypoint)) : Prop :=
  match faces with
  | [] => True
  | pts :: _ => 0 < Engine.dist (Engine.pt pts 234) (Engine.pt pts 454)
  end.

(** The request [triggerWorker] posts for a buffer and a motion score. *)
Definition worker_request (buffer : list Worker.RGB) (motion : R)
  : Worker.ProcessingRequest :=
  Worker.mkRequest "process_signal" buffer motion (INR Engine.SAMPLE_RATE).

End Props.

(* ================================================================== *)
(** ** Further concrete inputs *)
(* ================================================================== *)

Module Samples.
Import Types.

(** A pattern with an id the estimator's table does not know. *)
Definition pattern_unknown : BreathPattern :=
  mkPattern "sigh" 2 0 6 0 5 1.

(** A face whose keypoints all sit at the origin except keypoint 454,
    ten pixels to the right (face width 10). *)
Definition face_flat : list Engine.Keypoint :=
  repeat Engine.zeroPoint 454 ++ [Engine.mkKeypoint 10 0].

(** A 640 x 480 frame whose every region reads as no pixels. *)
Definition video_blank : Engine.Video := Engine.mkVideo 640 480 (fun _ => []).

(** An initialised engine. *)
Definition engine_ready : Engine.CameraVitalsEngine :=
  Engine.init Engine.new_engine.

(** Two frames 33 ms apart: one with that face, one without a face. *)
Definition frames_two : list Props.Frame :=
  [(video_blank, 0%R, [face_flat]); (video_blank, 33%R, [])].

(** An initialised engine whose buffer holds [n] black samples. *)
Definition engine_with (n : nat) : Engine.CameraVitalsEngine :=
  Engine.mkEngine true true (repeat Worker.zeroRGB n) false 0 0
    Engine.getDefaultVitals None.

(** Three frames without a face. *)
Definition frames_faceless : list Props.Frame :=
  [(video_blank, 0%R, []); (video_blank, 33%R, []); (video_blank, 66%R, [])].

(** The tier-2 pattern 'coherence' of BREATHING_PATTERNS. *)
Definition pattern_coherence : BreathPattern :=
  mkPattern "coherence" 6 0 6 0 10 2.

(** A registry in which 'coherence' is locked until time 5000000, with a
    stress score of 5. *)
Definition registry_locked : list (string * SafetyProfile) :=
  [("coherence"%string, mkProfile "coherence" 5 0 5000000 [0; 0; 0; 0; 0])].

(** Three subscriber calls while connected and running: a calm one at
    4 s, a critical one 1.5 s later, a calm one 2 s after that. *)
Definition calls_three : list Bridge.TelemetryCall :=
  [Bridge.mkCall 4000 true true 0.1;
   Bridge.mkCall 5500 true true 0.9;
   Bridge.mkCall 7500 true true 0.1].

(** Three audio samples: one in range, two beyond it. *)
Definition audio_three : list R := [0.5%R; (-3)%R; 2%R].

End Samples.

(* ================================================================== *)
(** ** Basic facts *)
(* ================================================================== *)

Import Types.

Lemma ltb_true_iff (a b : R) : JS.ltb a b = true <-> a < b.
Proof. unfold JS.ltb. destruct (Rlt_dec a b); split; intros; try easy. Qed.

Lemma gtb_true_iff (a b : R) : JS.gtb a b = true <-> a > b.
Proof. unfold JS.gtb. destruct (Rgt_dec a b); split; intros; try easy. Qed.

Lemma leb_true_iff (a b : R) : JS.leb a b = true <-> a <= b.
Proof. unfold JS.leb. destruct (Rle_dec a b); split; intros; try easy. Qed.

Lemma ltb_false_iff (a b : R) : JS.ltb a b = false <-> b <= a.
Proof.
  unfold JS.ltb. destruct (Rlt_dec a b); split; intros; try easy; lra.
Qed.

Lemma gtb_false_iff (a b : R) : JS.gtb a b = false <-> a <= b.
Proof.
  unfold JS.gtb. destruct (Rgt_dec a b); split; intros; try easy; lra.
Qed.

Lemma leb_false_iff (a b : R) : JS.leb a b = false <-> b < a.
Proof.
  unfold JS.leb. destruct (Rle_dec a b); split; intros; try easy; lra.
Qed.

(** Goals made of [Rmax], [Rmin] and linear arithmetic. *)
Ltac minmax :=
  unfold Estimator.clamp, Rmax, Rmin in *;
  repeat match goal with
         | |- context [Rle_dec ?a ?b] => destruct (Rle_dec a b)
         | H : context [Rle_dec ?a ?b] |- _ => destruct (Rle_dec a b)
         end;
  try lra.

Lemma clamp_range (v lo hi : R) :
  lo <= hi -> lo <= Estimator.clamp v lo hi <= hi.
Proof. intros. minmax. Qed.

Lemma clamp_id (v lo hi : R) :
  lo <= v <= hi -> Estimator.clamp v lo hi = v.
Proof. intros. minmax. Qed.

Lemma clamp_idem (v lo hi : R) :
  lo <= hi ->
  Estimator.clamp (Estimator.clamp v lo hi) lo hi = Estimator.clamp v lo hi.
Proof. intros. apply clamp_id, clamp_range; assumption. Qed.

Lemma sqrt_le_one (x : R) : x <= 1 -> sqrt x <= 1.
Proof.
  intros H. apply Rle_trans with (sqrt 1).
  - apply sqrt_le_1_alt. exact H.
  - rewrite sqrt_1. lra.
Qed.

Lemma exp_at_zero (tau : R) : exp (- 0 / tau) = 1.
Proof.
  replace (- 0 / tau) with 0 by (unfold Rdiv; ring). apply exp_0.
Qed.

(* ================================================================== *)
(** ** The estimator: projections of [update] *)
(* ================================================================== *)

Section EstimatorFacts.
Import Estimator Invariants.

Variable est : AdaptiveStateEstimator.
Variable obs : Observation.
Variable dt : R.

Let predicted := predict est dt.
Let stage := correct_arousal (config est) predicted obs.
Let out := snd (update est obs dt).

(** The belief kept by the estimator is the one it returns. *)
Lemma update_stores_result : belief (fst (update est obs dt)) = out.
Proof. reflexivity. Qed.

Lemma update_arousal :
  arousal out = clamp (arousal (fst (fst stage))) 0 1.
Proof.
  unfold out, stage, predicted, update, correct.
  destruct (correct_arousal _ _ _) as [[c i] m]. simpl.
  destruct (facial_valence obs), (isDistracted obs); reflexivity.
Qed.

Lemma update_arousal_variance :
  arousal_variance out = arousal_variance (fst (fst stage)).
Proof.
  unfold out, stage, predicted, update, correct.
  destruct (correct_arousal _ _ _) as [[c i] m]. simpl.
  destruct (facial_valence obs), (isDistracted obs); reflexivity.
Qed.

Lemma update_attention_variance :
  attention_variance out = attention_variance (belief est) + q_base (config est) * dt.
Proof.
  unfold out, update, correct, correct_arousal.
  destruct (heart_rate obs), (hr_confidence obs); simpl;
    repeat match goal with
           | |- context [if ?c then _ else _] => destruct c; simpl
           | |- context [match ?c with Some _ => _ | None => _ end] =>
               destruct c; simpl
           end; reflexivity.
Qed.

Lemma update_rhythm_variance :
  rhythm_variance out = rhythm_variance (belief est) + q_base (config est) * dt.
Proof.
  unfold out, update, correct, correct_arousal.
  destruct (heart_rate obs), (hr_confidence obs); simpl;
    repeat match goal with
           | |- context [if ?c then _ else _] => destruct c; simpl
           | |- context [match ?c with Some _ => _ | None => _ end] =>
               destruct c; simpl
           end; reflexivity.
Qed.

Lemma update_confidence :
  confidence out
  = clamp (sqrt ((1 - Rmin 1 ((arousal_variance out + attention_variance out) / 2))
                 * or_default (hr_confidence obs) 0.5)) 0 1.
Proof. reflexivity. Qed.

Lemma update_in_range : in_range out.
Proof.
  unfold in_range, out, update, correct.
  destruct (correct_arousal _ _ _) as [[c i] m]. simpl.
  repeat split; apply clamp_range; lra.
Qed.

Lemma predict_arousal_range : 0 <= arousal predicted <= 1.
Proof. apply clamp_range; lra. Qed.

(** Without an attempted correction the arousal block returns the
    prediction untouched. *)
Lemma correct_arousal_skipped :
  (hr_confidence obs = None
   \/ exists hc, hr_confidence obs = Some hc /\ hc <= 0.3) ->
  stage = (predicted, 0, 0).
Proof.
  unfold stage, correct_arousal.
  intros [Hn | [hc [Hs Hle]]].
  - rewrite Hn. destruct (heart_rate obs); reflexivity.
  - rewrite Hs. destruct (heart_rate obs); [|reflexivity].
    apply gtb_false_iff in Hle. rewrite Hle. reflexivity.
Qed.

End EstimatorFacts.

(* ================================================================== *)
(** ** The estimator: range of the point estimates, skipped correction *)
(* ================================================================== *)

(** C4. For every observation and every dt, the belief returned by
    [update] (which is also the belief the estimator keeps) has arousal,
    attention and rhythm_alignment in [0,1] and valence in [-1,1]; the
    prediction it starts from is clamped in the same way. *)
Theorem C4_update_point_estimates_in_range :
  forall (est : Estimator.AdaptiveStateEstimator) (obs : Observation) (dt : R),
    let out := snd (Estimator.update est obs dt) in
    (0 <= arousal out <= 1 /\ 0 <= attention out <= 1
     /\ 0 <= rhythm_alignment out <= 1 /\ -1 <= valence out <= 1)
    /\ Estimator.belief (fst (Estimator.update est obs dt)) = out
    /\ Invariants.in_range (Estimator.predict est dt).
Proof.
  intros est obs dt out. split; [|split].
  - apply (update_in_range est obs dt).
  - reflexivity.
  - unfold Invariants.in_range, Estimator.predict; simpl.
    repeat split; apply clamp_range; lra.
Qed.

(** C5. When the observation's hr_confidence is absent or at most 0.3,
    the arousal estimate and the arousal variance returned by [update] are
    those of the predict step alone: the clamped first-order relaxation
    towards the protocol target, and the old variance plus q_base * dt.
    No innovation and no Mahalanobis score are recorded. *)
Theorem C5_no_correction_without_confidence :
  forall (est : Estimator.AdaptiveStateEstimator) (obs : Observation) (dt : R),
    (hr_confidence obs = None
     \/ exists hc, hr_confidence obs = Some hc /\ hc <= 0.3) ->
    let out := snd (Estimator.update est obs dt) in
    let b := Estimator.belief est in
    arousal out = arousal (Estimator.predict est dt)
    /\ arousal_variance out = arousal_variance (Estimator.predict est dt)
    /\ arousal out
       = Estimator.clamp
           (arousal b
            + (1 - exp (- dt / Estimator.TAU_AROUSAL))
              * (Estimator.target_arousal (Estimator.target est) - arousal b))
           0 1
    /\ arousal_variance out
       = arousal_variance b + Estimator.q_base (Estimator.config est) * dt
    /\ innovation out = 0
    /\ mahalanobis_distance out = 0.
Proof.
  intros est obs dt Hskip out b.
  pose proof (correct_arousal_skipped est obs dt Hskip) as Hstage.
  assert (Ha : arousal out = arousal (Estimator.predict est dt)).
  { unfold out. rewrite update_arousal, Hstage. simpl.
    apply clamp_idem. lra. }
  assert (Hv : arousal_variance out
               = arousal_variance (Estimator.predict est dt)).
  { unfold out. rewrite update_arousal_variance, Hstage. reflexivity. }
  repeat split.
  - exact Ha.
  - exact Hv.
  - rewrite Ha. reflexivity.
  - rewrite Hv. reflexivity.
  - unfold out, Estimator.update, Estimator.correct. rewrite Hstage. reflexivity.
  - unfold out, Estimator.update, Estimator.correct. rewrite Hstage. reflexivity.
Qed.

Lemma C5_witness :
  (hr_confidence (Examples.obs_hr 120 0.25) = None
   \/ exists hc, hr_confidence (Examples.obs_hr 120 0.25) = Some hc /\ hc <= 0.3)
  /\ arousal (snd (Estimator.update Examples.est0 (Examples.obs_hr 120 0.25) 1))
     = arousal (Estimator.predict Examples.est0 1).
Proof.
  assert (H : hr_confidence (Examples.obs_hr 120 0.25) = None
              \/ exists hc, hr_confidence (Examples.obs_hr 120 0.25) = Some hc
                            /\ hc <= 0.3).
  { right. exists 0.25. split; [reflexivity | lra]. }
  split; [exact H|].
  exact (proj1 (C5_no_correction_without_confidence
                  Examples.est0 (Examples.obs_hr 120 0.25) 1 H)).
Defined.

(* ================================================================== *)
(** ** The estimator: the arousal correction and its outlier gate *)
(* ================================================================== *)

Section ArousalCorrection.
Import Estimator Invariants.

Variable est : AdaptiveStateEstimator.
Variable obs : Observation.
Variable dt : R.
Variables hr hc : R.
Hypothesis Hhr : heart_rate obs = Some hr.
Hypothesis Hhc : hr_confidence obs = Some hc.
Hypothesis Hgt : hc > 0.3.

Let predicted := predict est dt.
Let R_ := measurement_noise (config est) hc.
Let S := arousal_variance predicted + R_.
Let K := arousal_variance predicted / S.
Let innov := measured_arousal_of hr (stress_index obs) - arousal predicted.
Let maha := sqrt ((innov * innov) / S).

Lemma correct_arousal_attempted :
  correct_arousal (config est) predicted obs
  = if JS.ltb maha (outlier_threshold (config est))
    then (set_arousal_variance
            (set_arousal predicted (arousal predicted + K * innov))
            ((1 - K) * arousal_variance predicted),
          innov, maha)
    else (set_arousal_variance predicted (arousal_variance predicted + 0.01),
          0, maha).
Proof.
  unfold correct_arousal. rewrite Hhr, Hhc.
  apply gtb_true_iff in Hgt. rewrite Hgt. reflexivity.
Qed.

Lemma correction_rejected :
  outlier_threshold (config est) <= maha ->
  correct_arousal (config est) predicted obs
  = (set_arousal_variance predicted (arousal_variance predicted + 0.01),
     0, maha).
Proof.
  intros H. rewrite correct_arousal_attempted.
  apply ltb_false_iff in H. rewrite H. reflexivity.
Qed.

Lemma correction_accepted :
  maha < outlier_threshold (config est) ->
  correct_arousal (config est) predicted obs
  = (set_arousal_variance
       (set_arousal predicted (arousal predicted + K * innov))
       ((1 - K) * arousal_variance predicted),
     innov, maha).
Proof.
  intros H. rewrite correct_arousal_attempted.
  apply ltb_true_iff in H. rewrite H. reflexivity.
Qed.

Lemma measured_arousal_range :
  0 <= measured_arousal_of hr (stress_index obs) <= 1.
Proof. unfold measured_arousal_of. apply clamp_range. lra. Qed.

End ArousalCorrection.

(** The Kalman gain of a non-negative variance against a positive noise
    lies in [0,1). *)
Lemma gain_bounds (pv r : R) :
  0 <= pv -> 0 < r -> 0 <= pv / (pv + r) < 1.
Proof.
  intros Hpv Hr.
  assert (E : pv / (pv + r) * (pv + r) = pv) by (field; lra).
  split.
  - apply Rmult_le_reg_r with (pv + r); [lra|]. rewrite E. lra.
  - apply Rmult_lt_reg_r with (pv + r); [lra|]. rewrite E. lra.
Qed.

(** A step of size [K] in [0,1] from one point of [0,1] towards another
    stays in [0,1]. *)
Lemma convex_step (a m K : R) :
  0 <= a <= 1 -> 0 <= m <= 1 -> 0 <= K <= 1 -> 0 <= a + K * (m - a) <= 1.
Proof. intros. nra. Qed.

(** Prediction over a zero time step leaves arousal and its variance as
    they are. *)
Lemma predict_zero_arousal (est : Estimator.AdaptiveStateEstimator) :
  0 <= arousal (Estimator.belief est) <= 1 ->
  arousal (Estimator.predict est 0) = arousal (Estimator.belief est)
  /\ arousal_variance (Estimator.predict est 0)
     = arousal_variance (Estimator.belief est).
Proof.
  intros H. unfold Estimator.predict; simpl.
  rewrite exp_at_zero. split.
  - rewrite clamp_id; lra.
  - lra.
Qed.

(** C2 (amended). When the arousal correction is attempted (heart rate
    and hr_confidence present, hr_confidence > 0.3) with a non-negative
    predicted variance and a positive measurement noise R, let
    S = predicted_variance + R, K = predicted_variance / S and the score
    be sqrt(innovation^2 / S).  Then
    - if the score is at least the outlier threshold (equality included),
      the arousal estimate stays at the predicted value and the arousal
      variance grows (by 0.01);
    - if the score is strictly below the threshold, the arousal estimate
      is predicted + K * innovation and the arousal variance is
      (1 - K) * predicted_variance.
    The score is what the result records as mahalanobis_distance, and K
    lies in [0,1). *)
Theorem C2_outlier_gate :
  forall (est : Estimator.AdaptiveStateEstimator) (obs : Observation)
         (dt hr hc : R),
    heart_rate obs = Some hr ->
    hr_confidence obs = Some hc ->
    hc > 0.3 ->
    let predicted := Estimator.predict est dt in
    let R_ := Estimator.measurement_noise (Estimator.config est) hc in
    let S := arousal_variance predicted + R_ in
    let K := arousal_variance predicted / S in
    let innov :=
      Estimator.measured_arousal_of hr (stress_index obs) - arousal predicted in
    let maha := sqrt ((innov * innov) / S) in
    let out := snd (Estimator.update est obs dt) in
    0 <= arousal_variance predicted ->
    0 < R_ ->
    (Estimator.outlier_threshold (Estimator.config est) <= maha ->
       arousal out = arousal predicted
       /\ arousal_variance out = arousal_variance predicted + 0.01
       /\ arousal_variance out > arousal_variance predicted)
    /\ (maha < Estimator.outlier_threshold (Estimator.config est) ->
          arousal out = arousal predicted + K * innov
          /\ arousal_variance out = (1 - K) * arousal_variance predicted)
    /\ mahalanobis_distance out = maha
    /\ 0 <= K < 1.
Proof.
  intros est obs dt hr hc Hhr Hhc Hgt. cbv zeta. intros Hpv HR.
  pose proof (gain_bounds _ _ Hpv HR) as HK.
  split; [|split; [|split]].
  - intros Hrej.
    pose proof (correction_rejected est obs dt hr hc Hhr Hhc Hgt Hrej) as E.
    assert (Hv : arousal_variance (snd (Estimator.update est obs dt))
                 = arousal_variance (Estimator.predict est dt) + 0.01).
    { rewrite update_arousal_variance, E. reflexivity. }
    repeat apply conj.
    + rewrite update_arousal, E. simpl. apply clamp_idem. lra.
    + exact Hv.
    + rewrite Hv. lra.
  - intros Hacc.
    pose proof (correction_accepted est obs dt hr hc Hhr Hhc Hgt Hacc) as E.
    split.
    + rewrite update_arousal, E.
      cbn [fst arousal Estimator.set_arousal Estimator.set_arousal_variance].
      apply clamp_id. apply convex_step.
      * apply (predict_arousal_range est dt).
      * apply measured_arousal_range.
      * lra.
    + rewrite update_arousal_variance, E. reflexivity.
  - pose proof (correct_arousal_attempted est obs dt hr hc Hhr Hhc Hgt) as E.
    unfold Estimator.update, Estimator.correct. rewrite E.
    destruct (JS.ltb _ _); reflexivity.
  - exact HK.
Qed.

(** The estimator configured with r_base = 0.05 and threshold 1, first
    update, zero time step, heart rate 120 at confidence 1: the score is
    exactly the threshold and the correction is rejected. *)
Lemma tight_example_values :
  let est := Examples.est_tight in
  let obs := Examples.obs_hr 120 1 in
  let predicted := Estimator.predict est 0 in
  let S := arousal_variance predicted
           + Estimator.measurement_noise (Estimator.config est) 1 in
  let innov :=
    Estimator.measured_arousal_of 120 (stress_index obs) - arousal predicted in
  let out := snd (Estimator.update est obs 0) in
  arousal predicted = 0.5
  /\ arousal_variance predicted = 0.2
  /\ S = 0.25
  /\ innov = 0.5
  /\ sqrt ((innov * innov) / S) = 1
  /\ Estimator.outlier_threshold (Estimator.config est) = 1
  /\ arousal out = 0.5
  /\ arousal_variance out = 0.21.
Proof.
  cbv zeta.
  destruct (predict_zero_arousal Examples.est_tight) as [Ha Hv];
    [simpl; lra|].
  change (arousal (Estimator.belief Examples.est_tight)) with 0.5 in Ha.
  change (arousal_variance (Estimator.belief Examples.est_tight)) with 0.2 in Hv.
  assert (HR : Estimator.measurement_noise
                 (Estimator.config Examples.est_tight) 1 = 0.05).
  { unfold Estimator.measurement_noise; simpl. lra. }
  assert (Hm : Estimator.measured_arousal_of 120
                 (stress_index (Examples.obs_hr 120 1)) = 1).
  { unfold Estimator.measured_arousal_of; simpl.
    replace ((120 - 50) / 70) with 1 by lra. apply clamp_id; lra. }
  assert (Hs : sqrt
                 ((Estimator.measured_arousal_of 120
                     (stress_index (Examples.obs_hr 120 1))
                   - arousal (Estimator.predict Examples.est_tight 0))
                  * (Estimator.measured_arousal_of 120
                       (stress_index (Examples.obs_hr 120 1))
                     - arousal (Estimator.predict Examples.est_tight 0))
                  / (arousal_variance (Estimator.predict Examples.est_tight 0)
                     + Estimator.measurement_noise
                         (Estimator.config Examples.est_tight) 1)) = 1).
  { rewrite Hm, Ha, Hv, HR.
    replace ((1 - 0.5) * (1 - 0.5) / (0.2 + 0.05)) with 1 by lra.
    apply sqrt_1. }
  assert (Hrej :
    Estimator.correct_arousal (Estimator.config Examples.est_tight)
      (Estimator.predict Examples.est_tight 0) (Examples.obs_hr 120 1)
    = (Estimator.set_arousal_variance (Estimator.predict Examples.est_tight 0)
         (arousal_variance (Estimator.predict Examples.est_tight 0) + 0.01),
       0,
       sqrt
         ((Estimator.measured_arousal_of 120
             (stress_index (Examples.obs_hr 120 1))
           - arousal (Estimator.predict Examples.est_tight 0))
          * (Estimator.measured_arousal_of 120
               (stress_index (Examples.obs_hr 120 1))
             - arousal (Estimator.predict Examples.est_tight 0))
          / (arousal_variance (Estimator.predict Examples.est_tight 0)
             + Estimator.measurement_noise
                 (Estimator.config Examples.est_tight) 1)))).
  { apply (correction_rejected Examples.est_tight (Examples.obs_hr 120 1) 0
             120 1); [reflexivity | reflexivity | lra |].
    rewrite Hs. simpl. lra. }
  repeat apply conj.
  - exact Ha.
  - exact Hv.
  - rewrite Hv, HR. lra.
  - rewrite Hm, Ha. lra.
  - exact Hs.
  - reflexivity.
  - rewrite update_arousal, Hrej.
    cbn [fst arousal Estimator.set_arousal_variance].
    rewrite Ha. apply clamp_id. lra.
  - rewrite update_arousal_variance, Hrej.
    cbn [fst arousal_variance Estimator.set_arousal_variance].
    rewrite Hv. lra.
Qed.

(** C2, as stated, fails when the score equals the threshold: the score
    does not exceed the threshold, yet the Kalman correction is not
    applied (arousal stays 0.5 instead of 0.9, the variance becomes 0.21
    instead of 0.04). *)
Lemma C2_counterexample :
  let est := Examples.est_tight in
  let obs := Examples.obs_hr 120 1 in
  let predicted := Estimator.predict est 0 in
  let S := arousal_variance predicted
           + Estimator.measurement_noise (Estimator.config est) 1 in
  let K := arousal_variance predicted / S in
  let innov :=
    Estimator.measured_arousal_of 120 (stress_index obs) - arousal predicted in
  let maha := sqrt ((innov * innov) / S) in
  let out := snd (Estimator.update est obs 0) in
  ~ ((maha > Estimator.outlier_threshold (Estimator.config est) ->
        arousal out = arousal predicted
        /\ arousal_variance out > arousal_variance predicted)
     /\ (~ maha > Estimator.outlier_threshold (Estimator.config est) ->
           arousal out = arousal predicted + K * innov
           /\ arousal_variance out = (1 - K) * arousal_variance predicted)).
Proof.
  cbv zeta.
  destruct tight_example_values
    as (Ha & Hv & HS & Hi & Hm & Ht & Hao & Hvo).
  intros [_ H].
  destruct H as [H _].
  - rewrite Hm, Ht. lra.
  - rewrite Hao, Hi, HS, Ha, Hv in H. lra.
Qed.

Lemma C2_witness :
  (heart_rate (Examples.obs_hr 120 1) = Some 120
   /\ hr_confidence (Examples.obs_hr 120 1) = Some 1
   /\ 1 > 0.3
   /\ 0 <= arousal_variance (Estimator.predict Examples.est0 0)
   /\ 0 < Estimator.measurement_noise (Estimator.config Examples.est0) 1)
  /\ mahalanobis_distance
       (snd (Estimator.update Examples.est0 (Examples.obs_hr 120 1) 0))
     = sqrt
         ((Estimator.measured_arousal_of 120 None
           - arousal (Estimator.predict Examples.est0 0))
          * (Estimator.measured_arousal_of 120 None
             - arousal (Estimator.predict Examples.est0 0))
          / (arousal_variance (Estimator.predict Examples.est0 0)
             + Estimator.measurement_noise
                 (Estimator.config Examples.est0) 1)).
Proof.
  assert (H : 1 > 0.3) by lra.
  assert (Hpv : 0 <= arousal_variance (Estimator.predict Examples.est0 0))
    by (simpl; lra).
  assert (HR : 0 < Estimator.measurement_noise
                     (Estimator.config Examples.est0) 1)
    by (unfold Estimator.measurement_noise; simpl; lra).
  split; [exact (conj eq_refl (conj eq_refl (conj H (conj Hpv HR))))|].
  exact (proj1 (proj2 (proj2 (C2_outlier_gate Examples.est0
                                (Examples.obs_hr 120 1) 0 120 1
                                eq_refl eq_refl H Hpv HR)))).
Defined.

(* ================================================================== *)
(** ** The estimator: variances and gain *)
(* ================================================================== *)

Section VarianceInvariant.
Import Estimator Invariants.

Lemma measurement_noise_lower (cfg : Config) (hc : R) :
  0 <= r_adaptation_rate cfg -> hc <= 1 ->
  r_base cfg <= measurement_noise cfg hc.
Proof.
  intros Hrate Hhc. unfold measurement_noise.
  destruct (adaptive_r cfg); [nra | lra].
Qed.

Lemma update_variances_ok (est : AdaptiveStateEstimator)
    (obs : Observation) (dt : R) :
  variances_ok (belief est) -> config_ok (config est) ->
  0 <= dt -> confidence_ok obs ->
  variances_ok (snd (update est obs dt)).
Proof.
  intros (Ha & Hat & Hr) (Hq & Hrb & Hrate) Hdt Hobs.
  assert (HQ : 0 <= q_base (config est) * dt) by nra.
  assert (Hpv : 0 <= arousal_variance (predict est dt))
    by (simpl; lra).
  unfold variances_ok.
  rewrite update_attention_variance, update_rhythm_variance,
    update_arousal_variance.
  repeat apply conj; try lra.
  unfold correct_arousal.
  destruct (heart_rate obs) as [hr|]; [|destruct (hr_confidence obs); exact Hpv].
  destruct (hr_confidence obs) as [hc|] eqn:Hhc; [|exact Hpv].
  destruct (JS.gtb hc 0.3); [|exact Hpv].
  pose proof (measurement_noise_lower (config est) hc Hrate (Hobs hc Hhc))
    as HR.
  destruct (JS.ltb _ _);
    cbn [fst arousal_variance set_arousal_variance set_arousal].
  - assert (HK := gain_bounds (arousal_variance (predict est dt))
                    (measurement_noise (config est) hc) Hpv ltac:(lra)).
    nra.
  - lra.
Qed.

Lemma reachable_inv (est : AdaptiveStateEstimator) :
  reachable est ->
  config est = config (constructor empty_config)
  /\ variances_ok (belief est).
Proof.
  induction 1 as [| est pattern _ [Hc Hv] | est obs dt _ [Hc Hv] Hdt Hobs].
  - split; [reflexivity|]. unfold variances_ok; simpl. lra.
  - split; [|destruct pattern; exact Hv].
    destruct pattern; exact Hc.
  - split; [exact Hc|].
    rewrite update_stores_result.
    apply update_variances_ok; try assumption.
    rewrite Hc. unfold config_ok; simpl. lra.
Qed.

End VarianceInvariant.

(** C9 (amended). For an estimator constructed with the default
    configuration and driven by [update] with non-negative time steps and
    observations whose hr_confidence is at most 1, every further such
    [update] keeps the three variances non-negative; whenever it attempts
    the arousal correction, R is at least r_base = 0.15, the innovation
    covariance S = predicted_variance + R is strictly positive, and the
    gain predicted_variance / S lies in [0,1). *)
Theorem C9_variances_and_gain :
  forall (est : Estimator.AdaptiveStateEstimator) (obs : Observation) (dt : R),
    Invariants.reachable est ->
    0 <= dt ->
    Invariants.confidence_ok obs ->
    let out := snd (Estimator.update est obs dt) in
    let pv := arousal_variance (Estimator.predict est dt) in
    (0 <= arousal_variance out /\ 0 <= attention_variance out
     /\ 0 <= rhythm_variance out)
    /\ 0 <= pv
    /\ (forall hr hc,
          heart_rate obs = Some hr -> hr_confidence obs = Some hc ->
          hc > 0.3 ->
          let R_ := Estimator.measurement_noise (Estimator.config est) hc in
          0.15 <= R_ /\ 0 < pv + R_ /\ 0 <= pv / (pv + R_) < 1).
Proof.
  intros est obs dt Hreach Hdt Hobs. cbv zeta.
  destruct (reachable_inv est Hreach) as [Hc Hv].
  assert (Hcfg : Invariants.config_ok (Estimator.config est)).
  { rewrite Hc. unfold Invariants.config_ok; simpl. lra. }
  assert (Hpv : 0 <= arousal_variance (Estimator.predict est dt)).
  { destruct Hv as (Ha & _), Hcfg as (Hq & _). simpl. nra. }
  split; [|split].
  - apply update_variances_ok; assumption.
  - exact Hpv.
  - intros hr hc _ Hhc _.
    assert (HR : 0.15 <= Estimator.measurement_noise (Estimator.config est) hc).
    { pose proof (measurement_noise_lower (Estimator.config est) hc
                    (proj2 (proj2 Hcfg)) (Hobs hc Hhc)) as H.
      rewrite Hc in H at 1. simpl in H. lra. }
    split; [exact HR|]. split; [lra|].
    apply gain_bounds; lra.
Qed.

Lemma C9_witness :
  (Invariants.reachable Examples.est0 /\ 0 <= 1
   /\ Invariants.confidence_ok (Examples.obs_hr 120 1))
  /\ 0 <= arousal_variance
            (snd (Estimator.update Examples.est0 (Examples.obs_hr 120 1) 1)).
Proof.
  assert (Hr : Invariants.reachable Examples.est0)
    by exact Invariants.reach_new.
  assert (Hdt : 0 <= 1) by lra.
  assert (Hobs : Invariants.confidence_ok (Examples.obs_hr 120 1)).
  { intros hc E. simpl in E. injection E as <-. lra. }
  split; [exact (conj Hr (conj Hdt Hobs))|].
  exact (proj1 (proj1 (C9_variances_and_gain Examples.est0
                         (Examples.obs_hr 120 1) 1 Hr Hdt Hobs))).
Defined.

(** C9, as stated for every observation, fails for an observation whose
    hr_confidence is 3.75: on the freshly constructed default estimator
    with dt = 0 the correction is attempted with R = -0.4, so that
    S = -0.2 is not positive and the gain is -1. *)
Lemma C9_counterexample :
  let est := Examples.est0 in
  let obs := Examples.obs_hr 85 3.75 in
  let pv := arousal_variance (Estimator.predict est 0) in
  let R_ := Estimator.measurement_noise (Estimator.config est) 3.75 in
  ~ (Invariants.variances_ok (Estimator.belief est) ->
     0 <= 0 ->
     heart_rate obs = Some 85 -> hr_confidence obs = Some 3.75 ->
     3.75 > 0.3 ->
     0.15 <= R_ /\ 0 < pv + R_ /\ 0 <= pv / (pv + R_) < 1).
Proof.
  cbv zeta. intros H.
  assert (Hv : Invariants.variances_ok (Estimator.belief Examples.est0)).
  { unfold Invariants.variances_ok; simpl. lra. }
  specialize (H Hv ltac:(lra) eq_refl eq_refl ltac:(lra)).
  destruct H as [H _].
  unfold Estimator.measurement_noise in H. simpl in H. lra.
Qed.

(** With the default configuration the gate cannot reject: the
    innovation is at most 1 in absolute value and S is at least 0.15, so
    the score stays below sqrt(1 / 0.15) < 3. *)
Lemma default_gate_never_rejects :
  forall (est : Estimator.AdaptiveStateEstimator) (obs : Observation)
         (dt hr hc : R),
    Invariants.reachable est ->
    0 <= dt ->
    Invariants.confidence_ok obs ->
    hr_confidence obs = Some hc ->
    let predicted := Estimator.predict est dt in
    let S := arousal_variance predicted
             + Estimator.measurement_noise (Estimator.config est) hc in
    let innov :=
      Estimator.measured_arousal_of hr (stress_index obs) - arousal predicted in
    sqrt ((innov * innov) / S)
    < Estimator.outlier_threshold (Estimator.config est).
Proof.
  intros est obs dt hr hc Hreach Hdt Hobs Hhc. cbv zeta.
  destruct (reachable_inv est Hreach) as [Hc Hv].
  assert (Hcfg : Invariants.config_ok (Estimator.config est)).
  { rewrite Hc. unfold Invariants.config_ok; simpl. lra. }
  assert (Hpv : 0 <= arousal_variance (Estimator.predict est dt)).
  { destruct Hv as (Ha & _), Hcfg as (Hq & _). simpl. nra. }
  assert (HR : 0.15 <= Estimator.measurement_noise (Estimator.config est) hc).
  { pose proof (measurement_noise_lower (Estimator.config est) hc
                  (proj2 (proj2 Hcfg)) (Hobs hc Hhc)) as H.
    rewrite Hc in H at 1. simpl in H. lra. }
  pose proof (predict_arousal_range est dt) as Hp.
  pose proof (measured_arousal_range obs hr) as Hm.
  set (i := Estimator.measured_arousal_of hr (stress_index obs)
            - arousal (Estimator.predict est dt)) in *.
  set (S := arousal_variance (Estimator.predict est dt)
            + Estimator.measurement_noise (Estimator.config est) hc) in *.
  assert (Hb : -1 <= i <= 1) by (unfold i; lra).
  assert (Hi : 0 <= i * i <= 1) by nra.
  assert (HS : 0.15 <= S) by (unfold S; lra).
  assert (Hq : 0 <= i * i / S < 3 * 3).
  { assert (E : i * i / S * S = i * i) by (field; lra).
    split.
    - apply Rmult_le_reg_r with S; [lra|]. rewrite E. lra.
    - apply Rmult_lt_reg_r with S; [lra|]. rewrite E. nra. }
  replace (Estimator.outlier_threshold (Estimator.config est)) with 3
    by (rewrite Hc; simpl; lra).
  rewrite <- (sqrt_square 3) by lra.
  apply sqrt_lt_1_alt. exact Hq.
Qed.

(* ================================================================== *)
(** ** The estimator: confidence *)
(* ================================================================== *)

(** C3 (amended). For an update on an estimator with non-negative
    variances and sensible noise parameters, with dt >= 0 and an
    observation that carries an hr_confidence in [0,1], the returned
    confidence is sqrt(certainty * hr_confidence) where
    certainty = 1 - min(1, (arousal_variance + attention_variance) / 2):
    one minus the average of the two returned variances, capped at 1. *)
Theorem C3_confidence_formula :
  forall (est : Estimator.AdaptiveStateEstimator) (obs : Observation)
         (dt hc : R),
    hr_confidence obs = Some hc ->
    0 <= hc <= 1 ->
    Invariants.variances_ok (Estimator.belief est) ->
    Invariants.config_ok (Estimator.config est) ->
    0 <= dt ->
    let out := snd (Estimator.update est obs dt) in
    let certainty :=
      1 - Rmin 1 ((arousal_variance out + attention_variance out) / 2) in
    confidence out = sqrt (certainty * hc)
    /\ 0 <= certainty <= 1.
Proof.
  intros est obs dt hc Hhc Hrange Hv Hcfg Hdt. cbv zeta.
  assert (Hobs : Invariants.confidence_ok obs).
  { intros c E. rewrite Hhc in E. injection E as <-. lra. }
  destruct (update_variances_ok est obs dt Hv Hcfg Hdt Hobs)
    as (Ha & Hat & _).
  set (out := snd (Estimator.update est obs dt)) in *.
  assert (Hc : 0 <= 1 - Rmin 1 ((arousal_variance out
                                  + attention_variance out) / 2) <= 1).
  { minmax. }
  split; [|exact Hc].
  unfold out at 1. rewrite update_confidence. fold out.
  rewrite Hhc. cbn [Estimator.or_default].
  apply clamp_id. split.
  - apply sqrt_pos.
  - apply sqrt_le_one. nra.
Qed.

Lemma C3_witness :
  (hr_confidence (Examples.obs_hr 120 1) = Some 1 /\ 0 <= 1 <= 1
   /\ Invariants.variances_ok (Estimator.belief Examples.est0)
   /\ Invariants.config_ok (Estimator.config Examples.est0)
   /\ 0 <= 1)
  /\ confidence (snd (Estimator.update Examples.est0 (Examples.obs_hr 120 1) 1))
     = sqrt
         ((1 - Rmin 1
                 ((arousal_variance
                     (snd (Estimator.update Examples.est0
                             (Examples.obs_hr 120 1) 1))
                   + attention_variance
                       (snd (Estimator.update Examples.est0
                               (Examples.obs_hr 120 1) 1))) / 2)) * 1).
Proof.
  assert (H1 : 0 <= 1 <= 1) by lra.
  assert (Hv : Invariants.variances_ok (Estimator.belief Examples.est0)).
  { unfold Invariants.variances_ok; simpl. lra. }
  assert (Hc : Invariants.config_ok (Estimator.config Examples.est0)).
  { unfold Invariants.config_ok; simpl. lra. }
  assert (Hdt : 0 <= 1) by lra.
  split; [exact (conj eq_refl (conj H1 (conj Hv (conj Hc Hdt))))|].
  exact (proj1 (C3_confidence_formula Examples.est0 (Examples.obs_hr 120 1)
                  1 1 eq_refl H1 Hv Hc Hdt)).
Defined.

(** C3, as stated (certainty one minus HALF the average of the two
    variances), fails on the first update of the default estimator with
    dt = 0 and hr_confidence = 1: both returned variances are 0.2, the
    returned confidence is sqrt(0.8), the stated formula gives
    sqrt(0.9). *)
Lemma C3_counterexample :
  let out := snd (Estimator.update Examples.est0 (Examples.obs_conf 1) 0) in
  ~ (confidence out
     = sqrt ((1 - Rmin 1 (((arousal_variance out
                            + attention_variance out) / 2) / 2)) * 1)).
Proof.
  cbv zeta.
  assert (Ha : arousal_variance
                 (snd (Estimator.update Examples.est0 (Examples.obs_conf 1) 0))
               = 0.2).
  { rewrite update_arousal_variance. simpl. lra. }
  assert (Hat : attention_variance
                  (snd (Estimator.update Examples.est0 (Examples.obs_conf 1) 0))
                = 0.2).
  { rewrite update_attention_variance. simpl. lra. }
  rewrite update_confidence, Ha, Hat. cbn [Examples.obs_conf hr_confidence
                                            Estimator.or_default].
  replace ((1 - Rmin 1 ((0.2 + 0.2) / 2)) * 1) with 0.8 by minmax.
  replace ((1 - Rmin 1 ((0.2 + 0.2) / 2 / 2)) * 1) with 0.9 by minmax.
  assert (Hs : 0 <= sqrt 0.8 <= 1).
  { split; [apply sqrt_pos | apply sqrt_le_one; lra]. }
  rewrite clamp_id by exact Hs.
  intros E. apply sqrt_inj in E; lra.
Qed.

(* ================================================================== *)
(** ** The worker: signals that are zero everywhere *)
(* ================================================================== *)

Section ZeroSignals.
Import Worker Invariants.













End ZeroSignals.

(* ================================================================== *)
(** ** The worker: short buffers and missing peaks *)
(* ================================================================== *)

(** C6. A request whose rgb sample list has fewer than 64 samples is
    answered with the error message ("Insufficient data"), and with no
    vitals_result whatever the other fields of the request are. *)
Theorem C6_short_buffer_is_error :
  forall req : Worker.ProcessingRequest,
    (List.length (Worker.rgbData req) < 64)%nat ->
    Worker.onmessage req = Worker.error "Error: Insufficient data"
    /\ forall res, Worker.onmessage req <> Worker.vitals_result res.
Proof.
  intros req Hlen.
  assert (E : Worker.onmessage req = Worker.error "Error: Insufficient data").
  { unfold Worker.onmessage.
    apply Nat.ltb_lt in Hlen. rewrite Hlen, orb_true_r. reflexivity. }
  split; [exact E|].
  intros res. rewrite E. discriminate.
Qed.

Lemma C6_witness :
  (List.length (Worker.rgbData (Examples.req_black 63)) < 64)%nat
  /\ Worker.onmessage (Examples.req_black 63)
     = Worker.error "Error: Insufficient data".
Proof.
  assert (H : (List.length (Worker.rgbData (Examples.req_black 63)) < 64)%nat).
  { simpl. lia. }
  split; [exact H|].
  exact (proj1 (C6_short_buffer_is_error (Examples.req_black 63) H)).
Defined.



(* ================================================================== *)
(** ** The engine: a frame without a face *)
(* ================================================================== *)

Lemma mapWorkerResponse_quality (res : Worker.ProcessingResponse) :
  Vitals.signalQuality (Engine.mapWorkerResponse res) <> Vitals.fair.
Proof.
  unfold Engine.mapWorkerResponse; simpl.
  destruct (JS.gtb _ 0.7); [discriminate|].
  destruct (JS.gtb _ 0.4); discriminate.
Qed.

(** C10. On an initialised engine, a frame in which no face is detected
    makes [processFrame] return the last-known vitals with confidence
    multiplied by 0.95 and signalQuality recomputed ('fair' when the
    decayed confidence exceeds 0.4, 'poor' otherwise); heartRate,
    respirationRate, hrv, snr, motionLevel (and affective) are unchanged,
    and the result becomes the new last-known vitals.  The mapping of a
    worker result never yields 'fair'. *)
Theorem C10_no_face_decays_confidence :
  forall (e : Engine.CameraVitalsEngine) (video : Engine.Video) (now : R),
    Engine.detector e = true ->
    Engine.worker e = true ->
    let last := Engine.lastKnownVitals e in
    let e' := fst (Engine.processFrame e video now []) in
    let v := snd (Engine.processFrame e video now []) in
    Vitals.confidence v = Vitals.confidence last * 0.95
    /\ (Vitals.confidence v > 0.4 -> Vitals.signalQuality v = Vitals.fair)
    /\ (Vitals.confidence v <= 0.4 -> Vitals.signalQuality v = Vitals.poor)
    /\ Vitals.heartRate v = Vitals.heartRate last
    /\ Vitals.respirationRate v = Vitals.respirationRate last
    /\ Vitals.hrv v = Vitals.hrv last
    /\ Vitals.snr v = Vitals.snr last
    /\ Vitals.motionLevel v = Vitals.motionLevel last
    /\ Vitals.affective v = Vitals.affective last
    /\ Engine.lastKnownVitals e' = v
    /\ (forall res,
          Vitals.signalQuality (Engine.mapWorkerResponse res) <> Vitals.fair).
Proof.
  intros e video now Hd Hw. cbv zeta.
  unfold Engine.processFrame. rewrite Hd, Hw.
  cbn [negb orb Engine.decayVitals fst snd Vitals.confidence
       Vitals.signalQuality Vitals.heartRate Vitals.respirationRate
       Vitals.hrv Vitals.snr Vitals.motionLevel Vitals.affective
       Engine.set_lastKnownVitals Engine.lastKnownVitals].
  repeat apply conj; try reflexivity.
  - intros H. apply gtb_true_iff in H. rewrite H. reflexivity.
  - intros H. apply gtb_false_iff in H. rewrite H. reflexivity.
  - exact mapWorkerResponse_quality.
Qed.

Lemma C10_witness :
  (Engine.detector (Engine.init Engine.new_engine) = true
   /\ Engine.worker (Engine.init Engine.new_engine) = true)
  /\ Vitals.confidence
       (snd (Engine.processFrame (Engine.init Engine.new_engine)
               (Engine.mkVideo 640 480 (fun _ => [])) 0 []))
     = Vitals.confidence
         (Engine.lastKnownVitals (Engine.init Engine.new_engine)) * 0.95.
Proof.
  split; [split; reflexivity|].
  exact (proj1 (C10_no_face_decays_confidence
                  (Engine.init Engine.new_engine)
                  (Engine.mkVideo 640 480 (fun _ => [])) 0
                  eq_refl eq_refl)).
Defined.

(* ================================================================== *)
(** ** The kernel: emergency halt *)
(* ================================================================== *)

Lemma kernel_after_running (dt : R) :
  Kernel.status (Kernel.state (Examples.kernel_after dt)) = Kernel.RUNNING
  /\ Kernel.sessionDuration (Kernel.state (Examples.kernel_after dt)) = 0 + dt
  /\ Kernel.config (Examples.kernel_after dt) = Config.SafetyConfig.
Proof. repeat apply conj; reflexivity. Qed.

(** C1. With a session running, dispatching a BELIEF_UPDATE whose
    prediction_error exceeds 0.95:
    - once the elapsed session time has reached the configured minimum
      (10 s in SafetyConfig), sets the status to SAFETY_LOCK and hands the
      SAFETY_INTERDICTION / EMERGENCY_HALT event, carrying the
      prediction error as risk level, to the persistence write whatever
      the write whitelist is;
    - before that minimum, leaves the status unchanged. *)
Theorem C1_emergency_halt :
  forall (wl : KernelEvent -> bool) (k : Kernel.PureZenBKernel)
         (b : BeliefState) (ts : R),
    Kernel.status (Kernel.state k) = Kernel.RUNNING ->
    prediction_error b > 0.95 ->
    let minSec :=
      Config.minSessionSecBeforeEmergency (Config.safety (Kernel.config k)) in
    let k' := Kernel.dispatch_with wl k (BELIEF_UPDATE b ts) in
    let halt := SAFETY_INTERDICTION (prediction_error b) "EMERGENCY_HALT" ts in
    (minSec <= Kernel.sessionDuration (Kernel.state k) ->
       Kernel.status (Kernel.state k') = Kernel.SAFETY_LOCK
       /\ In halt (Kernel.written k')
       /\ In halt (Kernel.log k'))
    /\ (Kernel.sessionDuration (Kernel.state k) < minSec ->
          Kernel.status (Kernel.state k') = Kernel.status (Kernel.state k)
          /\ Kernel.log k' = Kernel.log k ++ [BELIEF_UPDATE b ts]
          /\ Kernel.written k'
             = Kernel.written k ++ filter wl [BELIEF_UPDATE b ts])
    /\ Config.minSessionSecBeforeEmergency (Config.safety Config.SafetyConfig)
       = 10.
Proof.
  intros wl k b ts Hrun Hpe. cbv zeta.
  apply gtb_true_iff in Hpe.
  split; [|split].
  - intros Hmin. apply leb_true_iff in Hmin.
    unfold Kernel.dispatch_with, Kernel.apply_event.
    rewrite Hpe, Hmin. cbn [andb Kernel.state Kernel.status Kernel.written
                              Kernel.log].
    repeat apply conj.
    + reflexivity.
    + apply in_or_app. right. apply in_or_app. right. left. reflexivity.
    + apply in_or_app. right. right. left. reflexivity.
  - intros Hmin. apply leb_false_iff in Hmin.
    unfold Kernel.dispatch_with, Kernel.apply_event.
    rewrite Hpe, Hmin. cbn [andb Kernel.state Kernel.status Kernel.log
                              Kernel.written].
    rewrite !app_nil_r. repeat apply conj; reflexivity.
  - reflexivity.
Qed.

(** The kernel's EMERGENCY_HALT test, replayed: after 15 s the alarming
    belief locks the kernel and the halt is written; after 5 s the same
    belief leaves the kernel running and nothing more is written. *)
Lemma C1_witness :
  (Kernel.status (Kernel.state (Examples.kernel_after 15)) = Kernel.RUNNING
   /\ prediction_error Examples.belief_alarm > 0.95)
  /\ (Kernel.status
        (Kernel.state
           (Kernel.dispatch (Examples.kernel_after 15)
              (BELIEF_UPDATE Examples.belief_alarm 15)))
      = Kernel.SAFETY_LOCK
      /\ In (SAFETY_INTERDICTION 0.99 "EMERGENCY_HALT" 15)
            (Kernel.written
               (Kernel.dispatch (Examples.kernel_after 15)
                  (BELIEF_UPDATE Examples.belief_alarm 15))))
  /\ Kernel.status
       (Kernel.state
          (Kernel.dispatch (Examples.kernel_after 5)
             (BELIEF_UPDATE Examples.belief_alarm 5)))
     = Kernel.RUNNING.
Proof.
  assert (Hp : prediction_error Examples.belief_alarm > 0.95)
    by (simpl; lra).
  assert (H15 : Config.minSessionSecBeforeEmergency
                  (Config.safety (Kernel.config (Examples.kernel_after 15)))
                <= Kernel.sessionDuration
                     (Kernel.state (Examples.kernel_after 15)))
    by (simpl; lra).
  assert (H5 : Kernel.sessionDuration (Kernel.state (Examples.kernel_after 5))
               < Config.minSessionSecBeforeEmergency
                   (Config.safety (Kernel.config (Examples.kernel_after 5))))
    by (simpl; lra).
  split; [split; [reflexivity | exact Hp]|]. split.
  - destruct (proj1 (C1_emergency_halt Kernel.whitelist
                       (Examples.kernel_after 15) Examples.belief_alarm 15
                       eq_refl Hp) H15) as (Hs & Hw & _).
    exact (conj Hs Hw).
  - destruct (proj1 (proj2 (C1_emergency_halt Kernel.whitelist
                              (Examples.kernel_after 5) Examples.belief_alarm 5
                              eq_refl Hp)) H5) as (Hs & _).
    exact Hs.
Defined.

(* ================================================================== *)
(** ** The worker: confidence fusion *)
(* ================================================================== *)

(** Whenever the worker reports vitals, the reported confidence is
    max(0, 1 - 2 * motionScore) * min(1, snr / 10) for the reported
    snr, and so lies between 0 and the motion penalty. *)
Lemma onmessage_confidence_fusion (req : Worker.ProcessingRequest)
    (res : Worker.ProcessingResponse) :
  Worker.onmessage req = Worker.vitals_result res ->
  Worker.confidence res
  = Rmax 0 (1 - Worker.motionScore req * 2) * Rmin 1 (Worker.snr res / 10).
Proof.
  unfold Worker.onmessage.
  destruct (negb _ || _); [discriminate|].
  destruct (Worker.spectralPeak _ _ 0.66 3.66) as [[maxPower peakFreq] noisePower].
  destruct (Worker.spectralPeak _ _ 0.1 0.5) as [[maxResp respFreq] noiseResp].
  intros E. injection E as <-. reflexivity.
Qed.

(* ================================================================== *)
(** ** The estimator: further properties *)
(* ================================================================== *)

Lemma sqrt_le_bound (x c : R) : 0 <= c -> x <= c * c -> sqrt x <= c.
Proof.
  intros Hc Hx. rewrite <- (sqrt_square c) by exact Hc.
  apply sqrt_le_1_alt. exact Hx.
Qed.

(** The smoothing factor of a relaxation over a non-negative time step. *)
Lemma relaxation_factor (dt tau : R) :
  0 <= dt -> 0 < tau -> 0 <= 1 - exp (- dt / tau) < 1.
Proof.
  intros Hdt Htau.
  pose proof (exp_pos (- dt / tau)) as Hpos.
  assert (Hx : - dt / tau <= 0).
  { unfold Rdiv. assert (0 < / tau) by (apply Rinv_0_lt_compat; exact Htau).
    nra. }
  assert (Hle : exp (- dt / tau) <= 1).
  { destruct Hx as [Hlt | Heq].
    - left. rewrite <- exp_0. apply exp_increasing. exact Hlt.
    - rewrite Heq, exp_0. lra. }
  lra.
Qed.

Lemma relaxation_between (a t al : R) :
  0 <= al < 1 -> Props.between a t (a + al * (t - a)).
Proof. intros H. unfold Props.between. minmax; nra. Qed.

Lemma between_unit (a t x : R) :
  0 <= a <= 1 -> 0 <= t <= 1 -> Props.between a t x -> 0 <= x <= 1.
Proof. unfold Props.between. intros. minmax. Qed.

Lemma between_sym_unit (a t x : R) :
  -1 <= a <= 1 -> -1 <= t <= 1 -> Props.between a t x -> -1 <= x <= 1.
Proof. unfold Props.between. intros. minmax. Qed.

Lemma protocol_target_ranges (t : Estimator.TargetState) :
  Props.protocol_target t ->
  0 <= Estimator.target_arousal t <= 1
  /\ 0 <= Estimator.target_attention t <= 1
  /\ 0 <= Estimator.target_rhythm_alignment t <= 1
  /\ -1 <= Estimator.target_valence t <= 1.
Proof. intros [k ->]. destruct k; simpl; lra. Qed.

Lemma update_prediction_error (est : Estimator.AdaptiveStateEstimator)
    (obs : Observation) (dt : R) :
  let out := snd (Estimator.update est obs dt) in
  prediction_error out
  = sqrt (0.5 * (arousal out
                 - Estimator.target_arousal (Estimator.target est)) ^ 2
          + 0.5 * (rhythm_alignment out
                   - Estimator.target_rhythm_alignment
                       (Estimator.target est)) ^ 2).
Proof. reflexivity. Qed.

Lemma update_rhythm (est : Estimator.AdaptiveStateEstimator)
    (obs : Observation) (dt : R) :
  rhythm_alignment (snd (Estimator.update est obs dt))
  = rhythm_alignment (Estimator.predict est dt).
Proof.
  unfold Estimator.update, Estimator.correct, Estimator.correct_arousal.
  destruct (heart_rate obs), (hr_confidence obs); simpl;
    repeat match goal with
           | |- context [if ?c then _ else _] => destruct c; simpl
           | |- context [match ?c with Some _ => _ | None => _ end] =>
               destruct c; simpl
           end; apply clamp_idem; lra.
Qed.

(** X1. Whatever the observation and the time step, an estimator whose
    target is one of the four protocol targets (as after [constructor]
    and after [setProtocol] with null or with a pattern of
    BREATHING_PATTERNS) reports a prediction error between 0 and 0.8:
    it never exceeds the 0.8 above which the voice bridge treats the
    state as critical, nor the 0.95 of an emergency halt. *)
Theorem X1_prediction_error_at_most_080 :
  forall (est : Estimator.AdaptiveStateEstimator) (obs : Observation) (dt : R),
    Props.protocol_target (Estimator.target est) ->
    let out := snd (Estimator.update est obs dt) in
    0 <= prediction_error out <= 0.8
    /\ JS.gtb (prediction_error out) 0.8 = false
    /\ JS.gtb (prediction_error out) 0.95 = false.
Proof.
  intros est obs dt [k Hk]. cbv zeta.
  assert (H : 0 <= prediction_error (snd (Estimator.update est obs dt)) <= 0.8).
  { rewrite update_prediction_error.
    destruct (update_in_range est obs dt) as (Ha & _ & Hr & _).
    split; [apply sqrt_pos|].
    apply sqrt_le_bound; [lra|].
    set (a := arousal (snd (Estimator.update est obs dt))) in *.
    set (r := rhythm_alignment (snd (Estimator.update est obs dt))) in *.
    rewrite Hk.
    destruct k; cbn [Estimator.PROTOCOL_TARGETS Estimator.target_arousal
                     Estimator.target_rhythm_alignment].
    - assert ((a - 0.2) ^ 2 <= 0.64) by nra.
      assert ((r - 0.8) ^ 2 <= 0.64) by nra. lra.
    - assert ((a - 0.4) ^ 2 <= 0.36) by nra.
      assert ((r - 0.9) ^ 2 <= 0.81) by nra. lra.
    - assert ((a - 0.7) ^ 2 <= 0.49) by nra.
      assert ((r - 0.6) ^ 2 <= 0.36) by nra. lra.
    - assert ((a - 0.5) ^ 2 <= 0.25) by nra.
      assert ((r - 0.7) ^ 2 <= 0.49) by nra. lra. }
  split; [exact H|]. split; apply gtb_false_iff; lra.
Qed.

Lemma X1_witness :
  Props.protocol_target (Estimator.target Examples.est0)
  /\ prediction_error
       (snd (Estimator.update Examples.est0 (Examples.obs_hr 200 1) 1))
     <= 0.8.
Proof.
  assert (H : Props.protocol_target (Estimator.target Examples.est0))
    by (exists Estimator.default; reflexivity).
  split; [exact H|].
  exact (proj2 (proj1 (X1_prediction_error_at_most_080 Examples.est0
                         (Examples.obs_hr 200 1) 1 H))).
Defined.

Lemma known_patterns_have_targets :
  forall p, In p BREATHING_PATTERNS ->
            Estimator.lookup (id p) Estimator.PATTERN_TO_TARGET <> None.
Proof.
  intros p Hin. simpl in Hin.
  repeat (destruct Hin as [<- | Hin]; [simpl; discriminate|]).
  destruct Hin.
Qed.

Lemma prototype_keys_unlisted :
  forall key, In key JS.Object_prototype_keys ->
              Estimator.lookup key Estimator.PATTERN_TO_TARGET = None.
Proof.
  intros key Hin. simpl in Hin.
  repeat (destruct Hin as [<- | Hin]; [reflexivity|]).
  destruct Hin.
Qed.

(** X2. [setProtocol] only swaps the target: belief and configuration are
    kept.  The new target is the default target for [null], the target
    the table names for an id it lists (every pattern of
    BREATHING_PATTERNS is listed), and the default target for an unlisted
    id that is not a property name inherited from Object.prototype; in
    all these cases it is one of the four protocol targets.  No id the
    table lists is such an inherited name. *)
Theorem X2_setProtocol_target :
  forall (est : Estimator.AdaptiveStateEstimator)
         (pattern : option BreathPattern),
    let est' := Estimator.setProtocol est pattern in
    Estimator.belief est' = Estimator.belief est
    /\ Estimator.config est' = Estimator.config est
    /\ (pattern = None ->
        Estimator.target est' = Estimator.PROTOCOL_TARGETS Estimator.default)
    /\ (forall p k, pattern = Some p ->
          Estimator.lookup (id p) Estimator.PATTERN_TO_TARGET = Some k ->
          Estimator.target est' = Estimator.PROTOCOL_TARGETS k
          /\ ~ In (id p) JS.Object_prototype_keys)
    /\ (forall p, pattern = Some p ->
          Estimator.lookup (id p) Estimator.PATTERN_TO_TARGET = None ->
          ~ In (id p) JS.Object_prototype_keys ->
          Estimator.target est'
          = Estimator.PROTOCOL_TARGETS Estimator.default)
    /\ ((forall p, pattern = Some p ->
            ~ In (id p) JS.Object_prototype_keys) ->
        Props.protocol_target (Estimator.target est'))
    /\ (forall p, In p BREATHING_PATTERNS ->
          Estimator.lookup (id p) Estimator.PATTERN_TO_TARGET <> None).
Proof.
  intros est pattern. cbv zeta.
  split; [destruct pattern; reflexivity|].
  split; [destruct pattern; reflexivity|].
  split; [intros ->; reflexivity|].
  split.
  { intros p k -> Hk. split.
    - unfold Estimator.setProtocol. rewrite Hk. reflexivity.
    - intros Hin. rewrite (prototype_keys_unlisted _ Hin) in Hk.
      discriminate Hk. }
  split.
  { intros p -> Hnone _. unfold Estimator.setProtocol. rewrite Hnone.
    reflexivity. }
  split.
  { intros _. destruct pattern as [p|].
    - unfold Estimator.setProtocol. cbv zeta.
      cbn [Estimator.target]. eexists. reflexivity.
    - exists Estimator.default. reflexivity. }
  exact known_patterns_have_targets.
Qed.

Lemma X2_witness :
  (Estimator.lookup (id Samples.pattern_unknown) Estimator.PATTERN_TO_TARGET
   = None
   /\ ~ In (id Samples.pattern_unknown) JS.Object_prototype_keys)
  /\ Estimator.target
       (Estimator.setProtocol Examples.est0 (Some Samples.pattern_unknown))
     = Estimator.PROTOCOL_TARGETS Estimator.default.
Proof.
  assert (Hn : ~ In (id Samples.pattern_unknown) JS.Object_prototype_keys).
  { intros Hin. simpl in Hin.
    repeat (destruct Hin as [Hin | Hin]; [discriminate Hin|]).
    destruct Hin. }
  split; [exact (conj eq_refl Hn)|].
  exact (proj1 (proj2 (proj2 (proj2 (proj2
           (X2_setProtocol_target Examples.est0
              (Some Samples.pattern_unknown))))))
           Samples.pattern_unknown eq_refl eq_refl Hn).
Defined.

Lemma tau_positive :
  0 < Estimator.TAU_AROUSAL /\ 0 < Estimator.TAU_ATTENTION
  /\ 0 < Estimator.TAU_RHYTHM /\ 0 < Estimator.TAU_VALENCE.
Proof.
  unfold Estimator.TAU_AROUSAL, Estimator.TAU_ATTENTION,
    Estimator.TAU_RHYTHM, Estimator.TAU_VALENCE. lra.
Qed.

(** X3. For a non-negative time step, on an estimator whose point
    estimates are in range and whose target is a protocol target, the
    predict step moves every estimate towards its target without
    overshooting: each predicted value lies between the current value and
    the target. *)
Theorem X3_predict_relaxes_towards_target :
  forall (est : Estimator.AdaptiveStateEstimator) (dt : R),
    0 <= dt ->
    Invariants.in_range (Estimator.belief est) ->
    Props.protocol_target (Estimator.target est) ->
    let b := Estimator.belief est in
    let t := Estimator.target est in
    let p := Estimator.predict est dt in
    Props.between (arousal b) (Estimator.target_arousal t) (arousal p)
    /\ Props.between (attention b) (Estimator.target_attention t) (attention p)
    /\ Props.between (rhythm_alignment b)
         (Estimator.target_rhythm_alignment t) (rhythm_alignment p)
    /\ Props.between (valence b) (Estimator.target_valence t) (valence p).
Proof.
  intros est dt Hdt (Ha & Hat & Hr & Hv) Ht. cbv zeta.
  destruct (protocol_target_ranges _ Ht) as (Ta & Tat & Tr & Tv).
  destruct tau_positive as (P1 & P2 & P3 & P4).
  unfold Estimator.predict; cbn [arousal attention rhythm_alignment valence].
  split; [|split; [|split]].
  - pose proof (relaxation_between (arousal (Estimator.belief est))
                  (Estimator.target_arousal (Estimator.target est)) _
                  (relaxation_factor dt _ Hdt P1)) as B.
    rewrite clamp_id; [exact B | exact (between_unit _ _ _ Ha Ta B)].
  - pose proof (relaxation_between (attention (Estimator.belief est))
                  (Estimator.target_attention (Estimator.target est)) _
                  (relaxation_factor dt _ Hdt P2)) as B.
    rewrite clamp_id; [exact B | exact (between_unit _ _ _ Hat Tat B)].
  - pose proof (relaxation_between (rhythm_alignment (Estimator.belief est))
                  (Estimator.target_rhythm_alignment (Estimator.target est)) _
                  (relaxation_factor dt _ Hdt P3)) as B.
    rewrite clamp_id; [exact B | exact (between_unit _ _ _ Hr Tr B)].
  - pose proof (relaxation_between (valence (Estimator.belief est))
                  (Estimator.target_valence (Estimator.target est)) _
                  (relaxation_factor dt _ Hdt P4)) as B.
    rewrite clamp_id; [exact B | exact (between_sym_unit _ _ _ Hv Tv B)].
Qed.

Lemma est0_in_range : Invariants.in_range (Estimator.belief Examples.est0).
Proof. unfold Invariants.in_range; simpl. lra. Qed.

Lemma est0_protocol_target :
  Props.protocol_target (Estimator.target Examples.est0).
Proof. exists Estimator.default. reflexivity. Qed.

Lemma X3_witness :
  (0 <= 2 /\ Invariants.in_range (Estimator.belief Examples.est0)
   /\ Props.protocol_target (Estimator.target Examples.est0))
  /\ Props.between (rhythm_alignment (Estimator.belief Examples.est0))
       (Estimator.target_rhythm_alignment (Estimator.target Examples.est0))
       (rhythm_alignment (Estimator.predict Examples.est0 2)).
Proof.
  assert (H : 0 <= 2) by lra.
  split; [exact (conj H (conj est0_in_range est0_protocol_target))|].
  exact (proj1 (proj2 (proj2 (X3_predict_relaxes_towards_target Examples.est0 2
                                H est0_in_range est0_protocol_target)))).
Defined.

(** X4. An accepted arousal correction (score strictly below the
    threshold, non-negative predicted variance, positive R) pulls the
    arousal estimate towards the measured arousal without overshooting,
    and the posterior variance predicted_variance * R / (predicted_variance
    + R) is at most the predicted variance and strictly below R. *)
Theorem X4_accepted_correction_contracts :
  forall (est : Estimator.AdaptiveStateEstimator) (obs : Observation)
         (dt hr hc : R),
    heart_rate obs = Some hr ->
    hr_confidence obs = Some hc ->
    hc > 0.3 ->
    let predicted := Estimator.predict est dt in
    let pv := arousal_variance predicted in
    let R_ := Estimator.measurement_noise (Estimator.config est) hc in
    let measured := Estimator.measured_arousal_of hr (stress_index obs) in
    let innov := measured - arousal predicted in
    let out := snd (Estimator.update est obs dt) in
    0 <= pv ->
    0 < R_ ->
    sqrt ((innov * innov) / (pv + R_))
    < Estimator.outlier_threshold (Estimator.config est) ->
    Props.between (arousal predicted) measured (arousal out)
    /\ arousal_variance out = pv * R_ / (pv + R_)
    /\ arousal_variance out <= pv
    /\ arousal_variance out < R_.
Proof.
  intros est obs dt hr hc Hhr Hhc Hgt. cbv zeta. intros Hpv HR Hacc.
  pose proof (correction_accepted est obs dt hr hc Hhr Hhc Hgt Hacc) as E.
  pose proof (gain_bounds _ _ Hpv HR) as HK.
  pose proof (predict_arousal_range est dt) as Hp.
  pose proof (measured_arousal_range obs hr) as Hm.
  rewrite update_arousal, update_arousal_variance, E.
  cbn [fst arousal arousal_variance Estimator.set_arousal
       Estimator.set_arousal_variance].
  set (pv := arousal_variance (Estimator.predict est dt)) in *.
  set (R_ := Estimator.measurement_noise (Estimator.config est) hc) in *.
  set (pa := arousal (Estimator.predict est dt)) in *.
  set (m := Estimator.measured_arousal_of hr (stress_index obs)) in *.
  assert (EK : pv / (pv + R_) * (pv + R_) = pv) by (field; lra).
  assert (EV : (1 - pv / (pv + R_)) * pv = pv * R_ / (pv + R_))
    by (field; lra).
  split; [|split; [|split]].
  - pose proof (relaxation_between pa m (pv / (pv + R_)) HK) as B.
    rewrite clamp_id; [exact B | exact (between_unit _ _ _ Hp Hm B)].
  - exact EV.
  - nra.
  - assert (EV2 : (1 - pv / (pv + R_)) * pv = pv / (pv + R_) * R_)
      by (field; lra).
    rewrite EV2. nra.
Qed.

Lemma X4_witness :
  (heart_rate (Examples.obs_hr 120 1) = Some 120
   /\ hr_confidence (Examples.obs_hr 120 1) = Some 1
   /\ 1 > 0.3
   /\ 0 <= arousal_variance (Estimator.predict Examples.est0 0)
   /\ 0 < Estimator.measurement_noise (Estimator.config Examples.est0) 1)
  /\ arousal_variance
       (snd (Estimator.update Examples.est0 (Examples.obs_hr 120 1) 0))
     <= arousal_variance (Estimator.predict Examples.est0 0).
Proof.
  assert (H : 1 > 0.3) by lra.
  assert (Hpv : 0 <= arousal_variance (Estimator.predict Examples.est0 0))
    by (simpl; lra).
  assert (HR : 0 < Estimator.measurement_noise
                     (Estimator.config Examples.est0) 1)
    by (unfold Estimator.measurement_noise; simpl; lra).
  assert (Hobs : Invariants.confidence_ok (Examples.obs_hr 120 1)).
  { intros c E. simpl in E. injection E as <-. lra. }
  split; [exact (conj eq_refl (conj eq_refl (conj H (conj Hpv HR))))|].
  exact (proj1 (proj2 (proj2
           (X4_accepted_correction_contracts Examples.est0
              (Examples.obs_hr 120 1) 0 120 1 eq_refl eq_refl H Hpv HR
              (default_gate_never_rejects Examples.est0
                 (Examples.obs_hr 120 1) 0 120 1 Invariants.reach_new
                 (Rle_refl 0) Hobs eq_refl))))).
Defined.

Lemma update_attention (est : Estimator.AdaptiveStateEstimator)
    (obs : Observation) (dt : R) :
  attention (snd (Estimator.update est obs dt))
  = Estimator.clamp
      (if Estimator.isDistracted obs
       then attention (Estimator.predict est dt) * 0.95
       else Rmin 1 (attention (Estimator.predict est dt) + 0.15 * dt))
      0 1.
Proof.
  unfold Estimator.update, Estimator.correct, Estimator.correct_arousal.
  destruct (heart_rate obs), (hr_confidence obs);
    repeat match goal with
           | |- context [if JS.gtb ?a ?b then _ else _] => destruct (JS.gtb a b)
           | |- context [if JS.ltb ?a ?b then _ else _] => destruct (JS.ltb a b)
           end;
    destruct (facial_valence obs), (Estimator.isDistracted obs); reflexivity.
Qed.

(** X5. Attention after [update]: when the user has paused or the page is
    hidden it is 0.95 times the predicted attention; otherwise, for
    dt >= 0, it is min(1, predicted + 0.15 * dt), never below the
    prediction.  No other field of the observation plays a part. *)
Theorem X5_attention_decay_and_growth :
  forall (est : Estimator.AdaptiveStateEstimator) (obs : Observation) (dt : R),
    let p := attention (Estimator.predict est dt) in
    let out := snd (Estimator.update est obs dt) in
    (Estimator.isDistracted obs = true <->
       user_interaction obs = Some pause \/ visibilty_state obs = hidden)
    /\ (Estimator.isDistracted obs = true ->
          attention out = p * 0.95 /\ attention out <= p)
    /\ (Estimator.isDistracted obs = false -> 0 <= dt ->
          attention out = Rmin 1 (p + 0.15 * dt) /\ p <= attention out).
Proof.
  intros est obs dt. cbv zeta.
  assert (Hp : 0 <= attention (Estimator.predict est dt) <= 1)
    by (apply clamp_range; lra).
  split; [|split].
  - unfold Estimator.isDistracted.
    destruct (user_interaction obs) as [[| |]|], (visibilty_state obs);
      split; intros H; try reflexivity; try discriminate;
      try (left; reflexivity); try (right; reflexivity);
      destruct H as [H | H]; discriminate.
  - intros Hd. rewrite update_attention, Hd.
    rewrite clamp_id by lra. lra.
  - intros Hd Hdt. rewrite update_attention, Hd.
    set (p := attention (Estimator.predict est dt)) in *.
    rewrite clamp_id by minmax. minmax.
Qed.

Lemma X5_witness :
  (Estimator.isDistracted (Examples.obs_hr 120 1) = false /\ 0 <= 1)
  /\ attention (Estimator.predict Examples.est0 1)
     <= attention
          (snd (Estimator.update Examples.est0 (Examples.obs_hr 120 1) 1)).
Proof.
  assert (H : 0 <= 1) by lra.
  split; [exact (conj eq_refl H)|].
  exact (proj2 (proj2 (proj2 (X5_attention_decay_and_growth Examples.est0
                                (Examples.obs_hr 120 1) 1)) eq_refl H)).
Defined.

(** X6. No observation influences the rhythm estimate: rhythm_alignment
    and rhythm_variance after [update] are those of the predict step,
    the same for any two observations (respiration_rate included). *)
Theorem X6_rhythm_ignores_observations :
  forall (est : Estimator.AdaptiveStateEstimator) (obs1 obs2 : Observation)
         (dt : R),
    rhythm_alignment (snd (Estimator.update est obs1 dt))
    = rhythm_alignment (snd (Estimator.update est obs2 dt))
    /\ rhythm_variance (snd (Estimator.update est obs1 dt))
       = rhythm_variance (snd (Estimator.update est obs2 dt))
    /\ rhythm_alignment (snd (Estimator.update est obs1 dt))
       = rhythm_alignment (Estimator.predict est dt)
    /\ rhythm_variance (snd (Estimator.update est obs1 dt))
       = rhythm_variance (Estimator.predict est dt).
Proof.
  intros est obs1 obs2 dt.
  rewrite !update_rhythm, !update_rhythm_variance.
  repeat apply conj; reflexivity.
Qed.

(** X7. The confidence returned by [update] lies in [0,1] whenever
    hr_confidence is absent or non-negative.  It is 0 when hr_confidence
    is 0 and when the average of the returned arousal and attention
    variances has reached 1; without an hr_confidence (sensor quality
    0.5) and with non-negative variances its square is at most 0.5. *)
Theorem X7_confidence_range :
  forall (est : Estimator.AdaptiveStateEstimator) (obs : Observation) (dt : R),
    (forall hc, hr_confidence obs = Some hc -> 0 <= hc) ->
    let out := snd (Estimator.update est obs dt) in
    let avg := (arousal_variance out + attention_variance out) / 2 in
    0 <= confidence out <= 1
    /\ (hr_confidence obs = Some 0 -> confidence out = 0)
    /\ (1 <= avg -> confidence out = 0)
    /\ (hr_confidence obs = None -> 0 <= avg ->
        confidence out * confidence out <= 0.5).
Proof.
  intros est obs dt Hnn. cbv zeta.
  rewrite update_confidence.
  set (avg := (arousal_variance (snd (Estimator.update est obs dt))
               + attention_variance (snd (Estimator.update est obs dt))) / 2).
  split; [|split; [|split]].
  - apply clamp_range. lra.
  - intros ->. cbn [Estimator.or_default].
    rewrite Rmult_0_r, sqrt_0. apply clamp_id. lra.
  - intros Havg. replace (1 - Rmin 1 avg) with 0 by minmax.
    rewrite Rmult_0_l, sqrt_0. apply clamp_id. lra.
  - intros -> Havg. cbn [Estimator.or_default].
    assert (Hc : 0 <= (1 - Rmin 1 avg) * 0.5 <= 0.5) by minmax.
    assert (Hs : 0 <= sqrt ((1 - Rmin 1 avg) * 0.5) <= 1).
    { split; [apply sqrt_pos | apply sqrt_le_one; lra]. }
    rewrite clamp_id by exact Hs.
    rewrite sqrt_sqrt by lra. lra.
Qed.

Lemma X7_witness :
  (forall hc, hr_confidence (Examples.obs_hr 120 1) = Some hc -> 0 <= hc)
  /\ 0 <= confidence
            (snd (Estimator.update Examples.est0 (Examples.obs_hr 120 1) 1))
     <= 1.
Proof.
  assert (H : forall hc,
             hr_confidence (Examples.obs_hr 120 1) = Some hc -> 0 <= hc).
  { intros hc E. simpl in E. injection E as <-. lra. }
  split; [exact H|].
  exact (proj1 (X7_confidence_range Examples.est0 (Examples.obs_hr 120 1) 1 H)).
Defined.

(* ================================================================== *)
(** ** The worker: window, detrending, peaks *)
(* ================================================================== *)

Lemma floor_bounds (x : R) : IZR (JS.floor x) <= x < IZR (JS.floor x) + 1.
Proof.
  unfold JS.floor. destruct (base_Int_part x) as [H1 H2]. lra.
Qed.

Lemma hamming_nth (n i : nat) :
  (i < n)%nat ->
  nth i (Worker.hammingWindow n) 0
  = 0.54 - 0.46 * cos ((2 * PI * INR i) / (INR n - 1)).
Proof.
  intros Hi. unfold Worker.hammingWindow.
  set (f := fun i : nat => 0.54 - 0.46 * cos (2 * PI * INR i / (INR n - 1))).
  rewrite (nth_indep _ 0 (f 0%nat)) by (rewrite length_map, length_seq; exact Hi).
  rewrite map_nth, seq_nth by exact Hi. reflexivity.
Qed.

Lemma hammingWindow_length (n : nat) :
  List.length (Worker.hammingWindow n) = n.
Proof.
  unfold Worker.hammingWindow. rewrite length_map, length_seq. reflexivity.
Qed.

(** X8. The Hamming window of length n has n coefficients.  For n >= 2
    each coefficient lies between 0.08 and 1, the first and the last are
    0.08, and the window is symmetric: coefficient n-1-i equals
    coefficient i. *)
Theorem X8_hamming_window_shape :
  forall n : nat,
    List.length (Worker.hammingWindow n) = n
    /\ ((2 <= n)%nat ->
        (forall i, (i < n)%nat ->
           0.08 <= nth i (Worker.hammingWindow n) 0 <= 1)
        /\ nth 0 (Worker.hammingWindow n) 0 = 0.08
        /\ nth (n - 1) (Worker.hammingWindow n) 0 = 0.08
        /\ (forall i, (i < n)%nat ->
              nth (n - 1 - i) (Worker.hammingWindow n) 0
              = nth i (Worker.hammingWindow n) 0)).
Proof.
  intros n. split; [apply hammingWindow_length|].
  intros Hn.
  assert (Hd : 0 < INR n - 1).
  { apply le_INR in Hn. simpl in Hn. lra. }
  assert (Hfirst : nth 0 (Worker.hammingWindow n) 0 = 0.08).
  { rewrite hamming_nth by lia. simpl.
    replace (2 * PI * 0 / (INR n - 1)) with 0 by (unfold Rdiv; ring).
    rewrite cos_0. lra. }
  assert (Hsym : forall i, (i < n)%nat ->
            nth (n - 1 - i) (Worker.hammingWindow n) 0
            = nth i (Worker.hammingWindow n) 0).
  { intros i Hi. rewrite !hamming_nth by lia.
    assert (Hk : INR (n - 1 - i) = INR n - 1 - INR i).
    { rewrite !minus_INR by lia. simpl. lra. }
    rewrite Hk.
    replace (2 * PI * (INR n - 1 - INR i) / (INR n - 1))
      with (- (2 * PI * INR i / (INR n - 1)) + 2 * INR 1 * PI)
      by (simpl; field; lra).
    rewrite cos_period, cos_neg. reflexivity. }
  split; [|split; [exact Hfirst | split; [|exact Hsym]]].
  - intros i Hi. rewrite hamming_nth by exact Hi.
    pose proof (COS_bound (2 * PI * INR i / (INR n - 1))). lra.
  - rewrite <- Hfirst. replace (n - 1)%nat with (n - 1 - 0)%nat by lia.
    apply Hsym. lia.
Qed.

Lemma X8_witness :
  ((2 <= 64)%nat /\ (3 < 64)%nat)
  /\ nth (64 - 1 - 3) (Worker.hammingWindow 64) 0
     = nth 3 (Worker.hammingWindow 64) 0.
Proof.
  assert (H1 : (2 <= 64)%nat) by lia.
  assert (H2 : (3 < 64)%nat) by lia.
  split; [exact (conj H1 H2)|].
  exact (proj2 (proj2 (proj2 (proj2 (X8_hamming_window_shape 64) H1)))
           3%nat H2).
Defined.

Lemma sum_shift (l : list R) (m a : R) :
  fold_left Rplus (map (fun v => v - m) l) a
  = fold_left Rplus l a - INR (List.length l) * m.
Proof.
  revert a. induction l as [|x l IH]; intros a.
  - simpl. lra.
  - cbn [map fold_left List.length]. rewrite IH, S_INR.
    assert (E : forall b c, fold_left Rplus l (b + c) = fold_left Rplus l b + c).
    { clear. induction l as [|y l IH]; intros b c; simpl; [reflexivity|].
      rewrite <- IH. f_equal. lra. }
    replace (a + (x - m)) with (a + x + - m) by lra.
    rewrite E. lra.
Qed.

Lemma computePOS_length (rgb : list Worker.RGB) (fs : R) :
  List.length (Worker.computePOS rgb fs) = List.length rgb.
Proof. unfold Worker.computePOS. rewrite length_map, length_seq. reflexivity. Qed.

Lemma smooth_length (arr : list R) :
  List.length (Worker.smooth arr) = List.length arr.
Proof. unfold Worker.smooth. rewrite length_map, length_seq. reflexivity. Qed.

Lemma acSignal_length (rgb : list Worker.RGB) (fs : R) :
  List.length (Worker.acSignal_of rgb fs) = List.length rgb.
Proof.
  unfold Worker.acSignal_of.
  rewrite length_map, smooth_length, computePOS_length. reflexivity.
Qed.

(** X9. Smoothing and detrending keep one value per colour sample, the
    windowed signal that enters the DFT has min(n, 512) values, and for a
    non-empty buffer the AC signal has no DC component left: its sum, and
    so its mean, is zero. *)
Theorem X9_ac_signal_zero_mean :
  forall (rgb : list Worker.RGB) (fs : R),
    let ac := Worker.acSignal_of rgb fs in
    List.length ac = List.length rgb
    /\ List.length (Worker.fftSignal_of ac)
       = Nat.min (List.length rgb) Worker.nFFT
    /\ (rgb <> [] -> JS.sum ac = 0 /\ Worker.mean ac = 0).
Proof.
  intros rgb fs. cbv zeta.
  split; [apply acSignal_length|]. split.
  - unfold Worker.fftSignal_of.
    rewrite length_map, length_combine.
    rewrite hammingWindow_length, acSignal_length. lia.
  - intros Hne.
    assert (Hs : JS.sum (Worker.acSignal_of rgb fs) = 0).
    { unfold Worker.acSignal_of, JS.sum.
      set (sm := Worker.smooth (Worker.computePOS rgb fs)).
      rewrite sum_shift. unfold Worker.mean, JS.sum.
      assert (Hn : INR (List.length sm) <> 0).
      { apply not_0_INR. unfold sm.
        rewrite smooth_length, computePOS_length.
        destruct rgb; [contradiction | discriminate]. }
      field. exact Hn. }
    split; [exact Hs|].
    unfold Worker.mean. rewrite Hs. unfold Rdiv. ring.
Qed.

Lemma X9_witness :
  repeat Worker.zeroRGB 64 <> []
  /\ JS.sum (Worker.acSignal_of (repeat Worker.zeroRGB 64) 30) = 0.
Proof.
  assert (H : repeat Worker.zeroRGB 64 <> []) by (simpl; discriminate).
  split; [exact H|].
  exact (proj1 (proj2 (proj2 (X9_ac_signal_zero_mean
                                (repeat Worker.zeroRGB 64) 30)) H)).
Defined.

Lemma spaced_snoc (d : Z) (l : list nat) (i : nat) :
  Props.spaced d l ->
  (l = [] \/ (Z.of_nat i - Z.of_nat (last l 0%nat) > d)%Z) ->
  Props.spaced d (l ++ [i]).
Proof.
  induction l as [|x l IH]; intros Hs Hlast.
  - simpl. split; exact I.
  - destruct l as [|y l].
    + simpl. destruct Hlast as [Hnil | Hgap]; [discriminate|].
      simpl in Hgap. repeat split. exact Hgap.
    + destruct Hs as [Hxy Hs]. split; [exact Hxy|].
      apply IH; [exact Hs|]. right.
      destruct Hlast as [Hnil | Hgap]; [discriminate | exact Hgap].
Qed.

Lemma sorted_snoc (l : list nat) (i : nat) :
  StronglySorted lt l -> Forall (fun p => (p < i)%nat) l ->
  StronglySorted lt (l ++ [i]).
Proof.
  induction 1 as [|x l Hs IH Hx]; intros Hall; simpl.
  - constructor; constructor.
  - inversion Hall as [|? ? Hxi Hl]; subst.
    constructor; [apply IH; exact Hl|].
    apply Forall_app. split; [exact Hx|]. constructor; [exact Hxi | constructor].
Qed.

Section PeakDetection.
Import Worker.

Variable signal : list R.
Variable threshold : R.
Variable minDistance : Z.

(** What the loop of [detectPeaks] keeps true of its state when it has
    reached index [a]. *)
Let peak_at (i : nat) : Prop :=
  (1 <= i)%nat /\ (i + 1 < List.length signal)%nat
  /\ nth i signal 0 > threshold
  /\ nth i signal 0 > nth (i - 1) signal 0
  /\ nth i signal 0 > nth (i + 1) signal 0.

Lemma detectPeaks_loop (n a : nat) (peaks : list nat) (lastIdx : Z) :
  (1 <= a)%nat ->
  (forall i, (a <= i < a + n)%nat -> (i + 1 < List.length signal)%nat) ->
  Forall peak_at peaks ->
  StronglySorted lt peaks ->
  Props.spaced minDistance peaks ->
  Forall (fun p => (p < a)%nat) peaks ->
  (peaks <> [] -> lastIdx = Z.of_nat (last peaks 0%nat)) ->
  let peaks' :=
    fst (fold_left (detectPeaks_step signal threshold minDistance)
           (seq a n) (peaks, lastIdx)) in
  Forall peak_at peaks' /\ StronglySorted lt peaks'
  /\ Props.spaced minDistance peaks'.
Proof.
  revert a peaks lastIdx.
  induction n as [|n IH]; intros a peaks lastIdx Ha Hrange HP Hsort Hsp Hlt Hlast.
  - simpl. repeat split; assumption.
  - cbn [seq fold_left].
    replace (detectPeaks_step signal threshold minDistance (peaks, lastIdx) a)
      with (if JS.gtb (nth a signal 0) threshold
               && JS.gtb (nth a signal 0) (nth (a - 1) signal 0)
               && JS.gtb (nth a signal 0) (nth (a + 1) signal 0)
               && (Z.of_nat a - lastIdx >? minDistance)%Z
            then (peaks ++ [a], Z.of_nat a)
            else (peaks, lastIdx)) by reflexivity.
    destruct (JS.gtb (nth a signal 0) threshold
              && JS.gtb (nth a signal 0) (nth (a - 1) signal 0)
              && JS.gtb (nth a signal 0) (nth (a + 1) signal 0)
              && (Z.of_nat a - lastIdx >? minDistance)%Z) eqn:Hc.
    + apply andb_prop in Hc. destruct Hc as [Hc Hgap].
      apply andb_prop in Hc. destruct Hc as [Hc Hnext].
      apply andb_prop in Hc. destruct Hc as [Hthr Hprev].
      apply gtb_true_iff in Hthr, Hprev, Hnext.
      apply Z.gtb_lt in Hgap.
      apply IH.
      * lia.
      * intros i Hi. apply Hrange. lia.
      * apply Forall_app. split; [exact HP|].
        constructor; [|constructor].
        unfold peak_at. repeat split; try assumption.
        apply Hrange. lia.
      * apply sorted_snoc; assumption.
      * apply spaced_snoc; [exact Hsp|].
        destruct peaks as [|p ps]; [left; reflexivity|].
        right. rewrite <- Hlast by discriminate. lia.
      * apply Forall_app. split.
        -- eapply Forall_impl; [|exact Hlt]. simpl. intros; lia.
        -- constructor; [lia | constructor].
      * intros _. rewrite last_last. reflexivity.
    + apply IH; try assumption.
      * lia.
      * intros i Hi. apply Hrange. lia.
      * eapply Forall_impl; [|exact Hlt]. simpl. intros; lia.
Qed.

End PeakDetection.

(** X10. Every index returned by [detectPeaks] is an interior sample that
    is above the adaptive threshold mean + 0.5 * stddev and strictly
    greater than both neighbours; the indices are strictly increasing and
    consecutive ones are more than floor(0.3 * fs) samples apart. *)
Theorem X10_detected_peaks_are_spaced_maxima :
  forall (signal : list R) (fs : R),
    let peaks := Worker.detectPeaks signal fs in
    let threshold := Worker.mean signal + Worker.stdDev signal * 0.5 in
    Forall (fun i =>
              (1 <= i)%nat /\ (i + 1 < List.length signal)%nat
              /\ nth i signal 0 > threshold
              /\ nth i signal 0 > nth (i - 1) signal 0
              /\ nth i signal 0 > nth (i + 1) signal 0) peaks
    /\ StronglySorted lt peaks
    /\ Props.spaced (JS.floor (0.3 * fs)) peaks.
Proof.
  intros signal fs. cbv zeta. unfold Worker.detectPeaks.
  apply detectPeaks_loop.
  - lia.
  - intros i Hi. lia.
  - constructor.
  - constructor.
  - exact I.
  - constructor.
  - intros H. contradiction.
Qed.

(* ================================================================== *)
(** ** The worker: spectral peak, confidence and HRV *)
(* ================================================================== *)

Lemma nFFT_INR : INR Worker.nFFT = 512.
Proof. rewrite INR_IZR_INZ. reflexivity. Qed.

Lemma binPower_nonneg (fftSignal : list R) (bin : Z) :
  0 <= Worker.binPower fftSignal bin.
Proof. unfold Worker.binPower. cbv zeta. nra. Qed.

Lemma bins_range (lo hi b : Z) :
  In b (Worker.bins lo hi) -> (lo <= b <= hi)%Z.
Proof.
  unfold Worker.bins. intros H. apply in_map_iff in H.
  destruct H as (k & <- & Hk). apply in_seq in Hk. lia.
Qed.

(** What the spectral loop keeps true of (maxPower, peakFreq,
    noisePower): the peak power is non-negative and at most the summed
    power, and the peak frequency is the frequency of one of the bins
    visited, or still 0. *)
Lemma spectral_loop (fftSignal : list R) (sampleRate : R)
    (all : list Z) (bs : list Z) (st : R * R * R) :
  (forall b, In b bs -> In b all) ->
  (0 <= fst (fst st) <= snd st
   /\ exists b, snd (fst st) = IZR b * sampleRate / INR Worker.nFFT
                /\ (b = 0%Z \/ In b all)) ->
  let st' := fold_left (Worker.peak_step fftSignal sampleRate) bs st in
  0 <= fst (fst st') <= snd st'
  /\ exists b, snd (fst st') = IZR b * sampleRate / INR Worker.nFFT
               /\ (b = 0%Z \/ In b all).
Proof.
  revert st. induction bs as [|b bs IH]; intros st Hsub Hinv.
  - exact Hinv.
  - cbn [fold_left]. apply IH.
    + intros b' Hb'. apply Hsub. right. exact Hb'.
    + destruct st as [[maxPower peakFreq] noisePower].
      destruct Hinv as [Hm Hf]. cbn [fst snd] in Hm, Hf.
      pose proof (binPower_nonneg fftSignal b) as Hp.
      unfold Worker.peak_step.
      destruct (JS.gtb (Worker.binPower fftSignal b) maxPower) eqn:Hg;
        cbn [fst snd].
      * split; [lra|]. exists b. split; [reflexivity|].
        right. apply Hsub. left. reflexivity.
      * split; [lra | exact Hf].
Qed.

Lemma spectralPeak_inv (fftSignal : list R) (sampleRate lowHz highHz : R) :
  let st := Worker.spectralPeak fftSignal sampleRate lowHz highHz in
  0 <= fst (fst st) <= snd st
  /\ exists b, snd (fst st) = IZR b * sampleRate / 512
               /\ (b = 0%Z
                   \/ (JS.floor (lowHz * 512 / sampleRate) <= b
                       <= JS.floor (highHz * 512 / sampleRate))%Z).
Proof.
  cbv zeta. unfold Worker.spectralPeak.
  destruct (spectral_loop fftSignal sampleRate
              (Worker.bins (JS.floor (lowHz * INR Worker.nFFT / sampleRate))
                           (JS.floor (highHz * INR Worker.nFFT / sampleRate)))
              (Worker.bins (JS.floor (lowHz * INR Worker.nFFT / sampleRate))
                           (JS.floor (highHz * INR Worker.nFFT / sampleRate)))
              (0, 0, 0) (fun b H => H)) as [Hm (b & Hb & Hin)].
  - cbn [fst snd]. split; [lra|]. exists 0%Z. split; [|left; reflexivity].
    unfold Rdiv. ring.
  - split; [exact Hm|]. exists b. rewrite nFFT_INR in *.
    split; [exact Hb|].
    destruct Hin as [H0 | Hin]; [left; exact H0 | right].
    apply bins_range. exact Hin.
Qed.

(** The frequency of a bin of the band [lowHz, highHz] lies within one
    bin width below the band and inside it above. *)
Lemma bin_frequency_band (sampleRate lowHz highHz : R) (b : Z) :
  0 < sampleRate ->
  (JS.floor (lowHz * 512 / sampleRate) <= b
   <= JS.floor (highHz * 512 / sampleRate))%Z ->
  lowHz - sampleRate / 512 < IZR b * sampleRate / 512 <= highHz.
Proof.
  intros Hfs [Hlo Hhi].
  apply IZR_le in Hlo, Hhi.
  pose proof (floor_bounds (lowHz * 512 / sampleRate)) as [_ Fl].
  pose proof (floor_bounds (highHz * 512 / sampleRate)) as [Fh _].
  assert (El : lowHz * 512 / sampleRate * sampleRate = lowHz * 512)
    by (field; lra).
  assert (Eh : highHz * 512 / sampleRate * sampleRate = highHz * 512)
    by (field; lra).
  split.
  - assert (lowHz * 512 < (IZR b + 1) * sampleRate) by nra. lra.
  - assert (IZR b * sampleRate <= highHz * 512) by nra. lra.
Qed.

(** X11. For a positive sample rate, the heart rate the worker reports is
    an integer multiple of the bin width 60 * fs / 512 BPM (3.52 BPM at
    30 Hz); it is either 0 or lies in (39.6 - 60 * fs / 512, 219.6].
    Likewise the respiration rate is 0 or lies in (6 - 60 * fs / 512, 30]. *)
Theorem X11_reported_rates_on_bin_grid :
  forall (req : Worker.ProcessingRequest) (res : Worker.ProcessingResponse),
    Worker.onmessage req = Worker.vitals_result res ->
    0 < Worker.sampleRate req ->
    let width := 60 * Worker.sampleRate req / 512 in
    (exists b : Z,
        Worker.heartRate res = IZR b * width
        /\ (b = 0%Z \/ 39.6 - width < Worker.heartRate res <= 219.6))
    /\ (exists b : Z,
           Worker.respirationRate res = IZR b * width
           /\ (b = 0%Z \/ 6 - width < Worker.respirationRate res <= 30)).
Proof.
  intros req res Hmsg Hfs. cbv zeta.
  unfold Worker.onmessage in Hmsg.
  destruct (negb _ || _); [discriminate|].
  set (fft := Worker.fftSignal_of
                (Worker.acSignal_of (Worker.rgbData req) (Worker.sampleRate req)))
    in *.
  pose proof (spectralPeak_inv fft (Worker.sampleRate req) 0.66 3.66) as Hh.
  pose proof (spectralPeak_inv fft (Worker.sampleRate req) 0.1 0.5) as Hr.
  cbv zeta in Hh, Hr.
  destruct (Worker.spectralPeak fft (Worker.sampleRate req) 0.66 3.66)
    as [[maxPower peakFreq] noisePower].
  destruct (Worker.spectralPeak fft (Worker.sampleRate req) 0.1 0.5)
    as [[maxResp respFreq] noiseResp].
  cbn [fst snd] in Hh, Hr.
  destruct Hh as [_ (b & Hb & Hbr)]. destruct Hr as [_ (c & Hc & Hcr)].
  injection Hmsg as <-. cbn [Worker.heartRate Worker.respirationRate].
  split.
  - exists b. split; [rewrite Hb; lra|].
    destruct Hbr as [H0 | Hband]; [left; exact H0 | right].
    pose proof (bin_frequency_band _ _ _ _ Hfs Hband) as B.
    rewrite <- Hb in B. lra.
  - exists c. split; [rewrite Hc; lra|].
    destruct Hcr as [H0 | Hband]; [left; exact H0 | right].
    pose proof (bin_frequency_band _ _ _ _ Hfs Hband) as B.
    rewrite <- Hc in B. lra.
Qed.

Lemma onmessage_accepts (req : Worker.ProcessingRequest) :
  Worker.type req = "process_signal"%string ->
  (64 <= List.length (Worker.rgbData req))%nat ->
  0 < Worker.sampleRate req ->
  exists res, Worker.onmessage req = Worker.vitals_result res.
Proof.
  intros Htype Hlen _. unfold Worker.onmessage.
  rewrite Htype.
  replace (String.eqb "process_signal" "process_signal") with true
    by reflexivity.
  assert (E64 : (List.length (Worker.rgbData req) <? 64)%nat = false)
    by (apply Nat.ltb_ge; exact Hlen).
  rewrite E64. cbn [negb orb].
  destruct (Worker.spectralPeak _ _ 0.66 3.66) as [[maxPower peakFreq] noisePower].
  destruct (Worker.spectralPeak _ _ 0.1 0.5) as [[maxResp respFreq] noiseResp].
  eexists. reflexivity.
Qed.

Lemma req_black_accepted :
  exists res,
    Worker.onmessage (Examples.req_black 64) = Worker.vitals_result res.
Proof. apply onmessage_accepts; [reflexivity | simpl; lia | simpl; lra]. Qed.

Lemma X11_witness :
  exists res,
    (Worker.onmessage (Examples.req_black 64) = Worker.vitals_result res
     /\ 0 < Worker.sampleRate (Examples.req_black 64))
    /\ exists b : Z, Worker.heartRate res = IZR b * (60 * 30 / 512).
Proof.
  destruct req_black_accepted as [res Hres].
  assert (Hfs : 0 < Worker.sampleRate (Examples.req_black 64))
    by (simpl; lra).
  exists res. split; [exact (conj Hres Hfs)|].
  destruct (proj1 (X11_reported_rates_on_bin_grid
                     (Examples.req_black 64) res Hres Hfs)) as [b [Hb _]].
  exists b. exact Hb.
Defined.

Lemma div_nonneg (a b : R) : 0 <= a -> 0 <= b -> 0 <= a / b.
Proof.
  intros Ha [Hb | <-].
  - unfold Rdiv. assert (0 < / b) by (apply Rinv_0_lt_compat; exact Hb). nra.
  - unfold Rdiv. rewrite Rinv_0. lra.
Qed.

Lemma onmessage_snr_nonneg (req : Worker.ProcessingRequest)
    (res : Worker.ProcessingResponse) :
  Worker.onmessage req = Worker.vitals_result res -> 0 <= Worker.snr res.
Proof.
  intros Hmsg.
  unfold Worker.onmessage in Hmsg.
  destruct (negb _ || _); [discriminate|].
  set (fft := Worker.fftSignal_of
                (Worker.acSignal_of (Worker.rgbData req) (Worker.sampleRate req)))
    in *.
  pose proof (spectralPeak_inv fft (Worker.sampleRate req) 0.66 3.66) as Hh.
  cbv zeta in Hh.
  destruct (Worker.spectralPeak fft (Worker.sampleRate req) 0.66 3.66)
    as [[maxPower peakFreq] noisePower].
  destruct (Worker.spectralPeak fft (Worker.sampleRate req) 0.1 0.5)
    as [[maxResp respFreq] noiseResp].
  cbn [fst snd] in Hh. destruct Hh as [Hm _].
  injection Hmsg as <-. cbn [Worker.snr].
  destruct (JS.gtb noisePower 0); [|lra].
  apply div_nonneg; lra.
Qed.

(** A penalty in [0,1] times a score in [0,1]. *)
Lemma fusion_range (motion snr : R) :
  0 <= motion -> 0 <= snr ->
  0 <= Rmax 0 (1 - motion * 2) * Rmin 1 (snr / 10)
    <= Rmax 0 (1 - motion * 2)
  /\ Rmax 0 (1 - motion * 2) <= 1.
Proof.
  intros Hm Hs.
  assert (Hscore : 0 <= Rmin 1 (snr / 10) <= 1).
  { assert (0 <= snr / 10) by lra. minmax. }
  assert (Hpen : 0 <= Rmax 0 (1 - motion * 2) <= 1) by minmax.
  nra.
Qed.

(** X12. For a non-negative motion score, the signal-to-noise ratio the
    worker reports is non-negative and its confidence lies in [0,1],
    never above the motion penalty max(0, 1 - 2 * motionScore); a motion
    score of 0.5 or more drives the confidence to exactly 0. *)
Theorem X12_worker_confidence_in_unit_interval :
  forall (req : Worker.ProcessingRequest) (res : Worker.ProcessingResponse),
    Worker.onmessage req = Worker.vitals_result res ->
    0 <= Worker.motionScore req ->
    0 <= Worker.snr res
    /\ 0 <= Worker.confidence res <= 1
    /\ Worker.confidence res <= Rmax 0 (1 - Worker.motionScore req * 2)
    /\ (0.5 <= Worker.motionScore req -> Worker.confidence res = 0).
Proof.
  intros req res Hmsg Hmotion.
  pose proof (onmessage_snr_nonneg req res Hmsg) as Hsnr.
  pose proof (onmessage_confidence_fusion req res Hmsg) as Hc.
  destruct (fusion_range _ _ Hmotion Hsnr) as [[H0 H1] H2].
  rewrite <- Hc in H0, H1.
  split; [exact Hsnr|]. split; [lra|]. split; [exact H1|].
  intros Hhalf. rewrite Hc.
  replace (Rmax 0 (1 - Worker.motionScore req * 2)) with 0 by minmax.
  lra.
Qed.

Lemma X12_witness :
  exists res,
    (Worker.onmessage (Examples.req_black 64) = Worker.vitals_result res
     /\ 0 <= Worker.motionScore (Examples.req_black 64))
    /\ 0 <= Worker.confidence res <= 1.
Proof.
  destruct req_black_accepted as [res Hres].
  assert (Hm : 0 <= Worker.motionScore (Examples.req_black 64))
    by (simpl; lra).
  exists res. split; [exact (conj Hres Hm)|].
  exact (proj1 (proj2 (X12_worker_confidence_in_unit_interval
                         (Examples.req_black 64) res Hres Hm))).
Defined.




Lemma detectPeaks_sorted (signal : list R) (fs : R) :
  StronglySorted lt (Worker.detectPeaks signal fs).
Proof.
  unfold Worker.detectPeaks.
  apply (detectPeaks_loop signal
           (Worker.mean signal + Worker.stdDev signal * 0.5)
           (JS.floor (0.3 * fs)) (List.length signal - 2) 1 []
           (- JS.floor (0.3 * fs))%Z).
  - lia.
  - intros i Hi. lia.
  - constructor.
  - constructor.
  - exact I.
  - constructor.
  - intros H. contradiction.
Qed.

Lemma successive_sorted (l : list nat) :
  StronglySorted lt l ->
  forall a b, In (a, b) (Worker.successive l) -> (a < b)%nat.
Proof.
  unfold Worker.successive.
  induction 1 as [|x l Hs IH Hx]; intros a b Hin.
  - destruct Hin.
  - destruct l as [|y l]; [destruct Hin|].
    cbn [tl combine] in Hin. destruct Hin as [E | Hin].
    + injection E as <- <-. inversion Hx; subst. assumption.
    + apply IH. exact Hin.
Qed.

Lemma successive_length {A : Type} (l : list A) :
  List.length (Worker.successive l) = (List.length l - 1)%nat.
Proof.
  unfold Worker.successive. rewrite length_combine, length_tl. lia.
Qed.

Lemma sum_positive (l : list R) (a : R) :
  (forall x, In x l -> 0 < x) ->
  a <= fold_left Rplus l a /\ (l <> [] -> a < fold_left Rplus l a).
Proof.
  revert a. induction l as [|x l IH]; intros a Hpos.
  - simpl. split; [lra | intros H; contradiction].
  - cbn [fold_left].
    assert (Hx : 0 < x) by (apply Hpos; left; reflexivity).
    destruct (IH (a + x) (fun y Hy => Hpos y (or_intror Hy))) as [Hle _].
    split; [lra | intros _; lra].
Qed.

Lemma fold_max_ge (l : list R) (x : R) : x <= fold_left Rmax l x.
Proof.
  revert x. induction l as [|y l IH]; intros x; simpl; [lra|].
  apply Rle_trans with (Rmax x y); [apply Rmax_l | apply IH].
Qed.

Lemma fold_min_le (l : list R) (x : R) : fold_left Rmin l x <= x.
Proof.
  revert x. induction l as [|y l IH]; intros x; simpl; [lra|].
  apply Rle_trans with (Rmin x y); [apply IH | apply Rmin_l].
Qed.

Lemma range_nonneg (l : list R) : 0 <= JS.max_list l - JS.min_list l.
Proof.
  destruct l as [|x l]; simpl; [lra|].
  pose proof (fold_max_ge l x). pose proof (fold_min_le l x). lra.
Qed.

Lemma or_else_one_positive (x : R) : 0 <= x -> 0 < JS.or_else x 1.
Proof.
  intros H. unfold JS.or_else. destruct (Req_dec_T x 0); lra.
Qed.

Lemma onmessage_hrv (req : Worker.ProcessingRequest)
    (res : Worker.ProcessingResponse) :
  Worker.onmessage req = Worker.vitals_result res ->
  Worker.hrv res
  = Worker.hrv_of
      (Worker.detectPeaks
         (Worker.acSignal_of (Worker.rgbData req) (Worker.sampleRate req))
         (Worker.sampleRate req))
      (Worker.sampleRate req).
Proof.
  unfold Worker.onmessage.
  destruct (negb _ || _); [discriminate|].
  destruct (Worker.spectralPeak _ _ 0.66 3.66) as [[maxPower peakFreq] noisePower].
  destruct (Worker.spectralPeak _ _ 0.1 0.5) as [[maxResp respFreq] noiseResp].
  intros E. injection E as <-. reflexivity.
Qed.

(** The HRV statistics of strictly increasing peak indices at a positive
    sample rate. *)
Lemma hrv_of_nonneg (peaks : list nat) (fs : R) :
  0 < fs -> StronglySorted lt peaks ->
  0 <= Worker.rmssd (Worker.hrv_of peaks fs)
  /\ 0 <= Worker.sdnn (Worker.hrv_of peaks fs)
  /\ 0 <= Worker.stressIndex (Worker.hrv_of peaks fs)
  /\ ((3 <= List.length peaks)%nat <->
      0 < Worker.stressIndex (Worker.hrv_of peaks fs)).
Proof.
  intros Hfs Hsorted. unfold Worker.hrv_of.
  destruct (Nat.ltb_spec 2 (List.length peaks)) as [Hlen | Hlen].
  - cbn [Worker.rmssd Worker.sdnn Worker.stressIndex].
    set (iv := map (fun p : nat * nat =>
                      (INR (snd p) - INR (fst p)) * 1000 / fs)
                   (Worker.successive peaks)).
    assert (Hiv : forall x, In x iv -> 0 < x).
    { intros x Hx. unfold iv in Hx. apply in_map_iff in Hx.
      destruct Hx as ([a b] & <- & Hab). cbn [fst snd].
      apply (successive_sorted peaks Hsorted) in Hab. apply lt_INR in Hab.
      assert (0 < / fs) by (apply Rinv_0_lt_compat; exact Hfs).
      unfold Rdiv. nra. }
    assert (Hn : (0 < List.length iv)%nat).
    { unfold iv. rewrite length_map, successive_length. lia. }
    assert (Hne : iv <> []) by (destruct iv; [simpl in Hn; lia | discriminate]).
    assert (Hmode : 0 < Worker.mean iv).
    { unfold Worker.mean, JS.sum.
      destruct (sum_positive iv 0 Hiv) as [_ Hs]. specialize (Hs Hne).
      apply lt_INR in Hn. simpl in Hn.
      assert (0 < / INR (List.length iv)) by (apply Rinv_0_lt_compat; exact Hn).
      unfold Rdiv. nra. }
    pose proof (or_else_one_positive _ (range_nonneg iv)) as Hr.
    assert (Hsi : 0 < 1000
                      / (2 * Worker.mean iv
                         * JS.or_else (JS.max_list iv - JS.min_list iv) 1)
                      * 10000).
    { assert (0 < / (2 * Worker.mean iv
                     * JS.or_else (JS.max_list iv - JS.min_list iv) 1))
        by (apply Rinv_0_lt_compat; nra).
      unfold Rdiv. nra. }
    repeat apply conj.
    + apply sqrt_pos.
    + unfold Worker.stdDev. apply sqrt_pos.
    + lra.
    + intros _. exact Hsi.
    + intros _. lia.
  - cbn [Worker.rmssd Worker.sdnn Worker.stressIndex].
    repeat apply conj; try lra; intros H; solve [lia | lra].
Qed.

(** X14. For a positive sample rate the HRV fields the worker reports are
    never negative, and the stress index is positive exactly when at
    least 3 peaks were detected: a stress index of 0 means "no HRV". *)
Theorem X14_hrv_fields_nonnegative :
  forall (req : Worker.ProcessingRequest) (res : Worker.ProcessingResponse),
    Worker.onmessage req = Worker.vitals_result res ->
    0 < Worker.sampleRate req ->
    let peaks :=
      Worker.detectPeaks
        (Worker.acSignal_of (Worker.rgbData req) (Worker.sampleRate req))
        (Worker.sampleRate req) in
    0 <= Worker.rmssd (Worker.hrv res)
    /\ 0 <= Worker.sdnn (Worker.hrv res)
    /\ 0 <= Worker.stressIndex (Worker.hrv res)
    /\ ((3 <= List.length peaks)%nat <->
        0 < Worker.stressIndex (Worker.hrv res)).
Proof.
  intros req res Hmsg Hfs. cbv zeta.
  rewrite (onmessage_hrv req res Hmsg).
  apply hrv_of_nonneg; [exact Hfs | apply detectPeaks_sorted].
Qed.

Lemma X14_witness :
  exists res,
    (Worker.onmessage (Examples.req_black 64) = Worker.vitals_result res
     /\ 0 < Worker.sampleRate (Examples.req_black 64))
    /\ 0 <= Worker.stressIndex (Worker.hrv res).
Proof.
  destruct req_black_accepted as [res Hres].
  assert (Hfs : 0 < Worker.sampleRate (Examples.req_black 64))
    by (simpl; lra).
  exists res. split; [exact (conj Hres Hfs)|].
  exact (proj1 (proj2 (proj2 (X14_hrv_fields_nonnegative
                                (Examples.req_black 64) res Hres Hfs)))).
Defined.

(* ================================================================== *)
(** ** The engine: frames with a face *)
(* ================================================================== *)

(** What [processFrame] does with a frame that shows a face, on an
    initialised engine, spelled out in terms of the buffer after the push,
    the motion score and the worker's reply. *)
Lemma processFrame_face_spec (e : Engine.CameraVitalsEngine)
    (video : Engine.Video) (now : R) (pts : list Engine.Keypoint)
    (rest : list (list Engine.Keypoint)) :
  Engine.detector e = true ->
  Engine.worker e = true ->
  exists fused : Worker.RGB,
    Worker.timestamp fused = now /\
    let pushed := Engine.rgbBuffer e ++ [fused] in
    let buffer :=
      if (Engine.BUFFER_DURATION * Engine.SAMPLE_RATE <? List.length pushed)%nat
      then tl pushed else pushed in
    let motion := snd (Engine.calculateMotion (Engine.lastPos e) pts) in
    let lastPos' := fst (Engine.calculateMotion (Engine.lastPos e) pts) in
    let vs' :=
      Engine.valenceSmoother e * 0.9
      + Engine.calculateGeometricValence pts * 0.1 in
    let workerResult :=
      if (64 <? List.length buffer)%nat && negb (Engine.isProcessing e)
      then match Worker.onmessage (Props.worker_request buffer motion) with
           | Worker.vitals_result res => Some (Engine.mapWorkerResponse res)
           | Worker.error _ => None
           end
      else None in
    let current :=
      match workerResult with
      | Some v => v
      | None => Engine.lastKnownVitals e
      end in
    let rawStress :=
      match Vitals.hrv current with
      | Some h => JS.or_else (Worker.stressIndex h) 0
      | None => 0
      end in
    let as' :=
      Engine.arousalSmoother e * 0.95 + Rmin 1 (rawStress / 500) * 0.05 in
    let final :=
      Vitals.mkVitals (Vitals.heartRate current)
        (Vitals.respirationRate current) (Vitals.hrv current)
        (Some (Vitals.mkAffective vs' as' (Engine.classifyMood vs' as')))
        (Vitals.confidence current) (Vitals.signalQuality current)
        (Vitals.snr current) motion in
    Engine.processFrame e video now (pts :: rest)
    = (Engine.mkEngine true true buffer (Engine.isProcessing e) vs' as'
         final lastPos',
       final).
Proof.
  intros Hd Hw. eexists. split; [|cbv zeta].
  2: { unfold Engine.processFrame. rewrite Hd, Hw. cbn [negb orb].
       destruct (Engine.calculateMotion (Engine.lastPos e) pts)
         as [lastPos' motion].
       unfold Engine.triggerWorker, Props.worker_request.
       cbn [Engine.worker Engine.rgbBuffer Engine.isProcessing
            Engine.detector Engine.lastKnownVitals Engine.arousalSmoother
            fst snd].
       cbn [negb]. reflexivity. }
  reflexivity.
Qed.

Lemma hypot_nonneg (a b : R) : 0 <= JS.hypot a b.
Proof. unfold JS.hypot. apply sqrt_pos. Qed.

Lemma calculateMotion_range (lastPos : option Engine.Keypoint)
    (pts : list Engine.Keypoint) :
  0 <= snd (Engine.calculateMotion lastPos pts) <= 1
  /\ fst (Engine.calculateMotion lastPos pts) = Some (Engine.pt pts 1).
Proof.
  unfold Engine.calculateMotion. destruct lastPos as [p|]; cbn [fst snd].
  - split; [|reflexivity].
    pose proof (hypot_nonneg (Engine.x (Engine.pt pts 1) - Engine.x p)
                  (Engine.y (Engine.pt pts 1) - Engine.y p)) as H.
    assert (0 <= JS.hypot (Engine.x (Engine.pt pts 1) - Engine.x p)
                   (Engine.y (Engine.pt pts 1) - Engine.y p) / 10) by lra.
    minmax.
  - split; [lra | reflexivity].
Qed.

Lemma calculateGeometricValence_range (pts : list Engine.Keypoint) :
  -1 <= Engine.calculateGeometricValence pts <= 1.
Proof. unfold Engine.calculateGeometricValence. cbv zeta. minmax. Qed.

Lemma processFrame_cases (e : Engine.CameraVitalsEngine)
    (video : Engine.Video) (now : R) (faces : list (list Engine.Keypoint)) :
  (Engine.detector e = true /\ Engine.worker e = true)
  \/ Engine.processFrame e video now faces = (e, Engine.getDefaultVitals).
Proof.
  unfold Engine.processFrame.
  destruct (Engine.detector e), (Engine.worker e); cbn [negb orb];
    solve [left; split; reflexivity | right; reflexivity].
Qed.

Lemma processFrame_no_face (e : Engine.CameraVitalsEngine)
    (video : Engine.Video) (now : R) :
  Engine.detector e = true -> Engine.worker e = true ->
  Engine.processFrame e video now [] = Engine.decayVitals e.
Proof.
  intros Hd Hw. unfold Engine.processFrame. rewrite Hd, Hw. reflexivity.
Qed.

Lemma processFrame_buffer_bound (e : Engine.CameraVitalsEngine)
    (video : Engine.Video) (now : R) (faces : list (list Engine.Keypoint)) :
  (List.length (Engine.rgbBuffer e) <= 180)%nat ->
  (List.length (Engine.rgbBuffer (fst (Engine.processFrame e video now faces)))
   <= 180)%nat.
Proof.
  intros Hlen.
  destruct (processFrame_cases e video now faces) as [[Hd Hw] | ->];
    [|exact Hlen].
  destruct faces as [|pts rest].
  - rewrite processFrame_no_face by assumption. exact Hlen.
  - destruct (processFrame_face_spec e video now pts rest Hd Hw)
      as (fused & _ & E).
    cbv zeta in E. rewrite E. cbn [fst Engine.rgbBuffer].
    change (Engine.BUFFER_DURATION * Engine.SAMPLE_RATE)%nat with 180%nat.
    destruct (Nat.ltb_spec 180 (List.length (Engine.rgbBuffer e ++ [fused])))
      as [Hfull | Hfree].
    + rewrite length_tl, length_app. simpl. lia.
    + exact Hfree.
Qed.

(** X15. The colour buffer is a ring of at most 180 samples (6 s at
    30 Hz): whatever sequence of frames is processed, an engine whose
    buffer holds at most 180 samples still does afterwards; a frame
    without a face leaves the buffer as it is, and a frame with a face
    appends one sample stamped with the frame's time. *)
Theorem X15_buffer_never_exceeds_capacity :
  forall (frames : list Props.Frame) (e : Engine.CameraVitalsEngine),
    (List.length (Engine.rgbBuffer e) <= 180)%nat ->
    (List.length (Engine.rgbBuffer (Props.processFrames e frames)) <= 180)%nat
    /\ (forall video now,
          Engine.rgbBuffer (fst (Engine.processFrame e video now []))
          = Engine.rgbBuffer e)
    /\ (forall video now pts rest,
          Engine.detector e = true -> Engine.worker e = true ->
          exists fused,
            Worker.timestamp fused = now
            /\ last (Engine.rgbBuffer
                       (fst (Engine.processFrame e video now (pts :: rest))))
                    Worker.zeroRGB = fused).
Proof.
  intros frames e Hlen. split; [|split].
  - revert e Hlen. unfold Props.processFrames.
    induction frames as [|[[video now] faces] frames IH]; intros e Hlen.
    + exact Hlen.
    + cbn [fold_left fst snd]. apply IH.
      apply processFrame_buffer_bound. exact Hlen.
  - intros video now.
    destruct (processFrame_cases e video now []) as [[Hd Hw] | ->];
      [|reflexivity].
    rewrite processFrame_no_face by assumption. reflexivity.
  - intros video now pts rest Hd Hw.
    destruct (processFrame_face_spec e video now pts rest Hd Hw)
      as (fused & Hts & E).
    cbv zeta in E. rewrite E. cbn [fst Engine.rgbBuffer].
    exists fused. split; [exact Hts|].
    change (Engine.BUFFER_DURATION * Engine.SAMPLE_RATE)%nat with 180%nat.
    destruct (Nat.ltb_spec 180 (List.length (Engine.rgbBuffer e ++ [fused])))
      as [Hfull | Hfree].
    + destruct (Engine.rgbBuffer e) as [|c buf].
      * simpl in Hfull. lia.
      * cbn [app tl]. apply last_last.
    + apply last_last.
Qed.

Lemma X15_witness :
  (List.length (Engine.rgbBuffer Samples.engine_ready) <= 180)%nat
  /\ (List.length
        (Engine.rgbBuffer
           (Props.processFrames Samples.engine_ready Samples.frames_two))
      <= 180)%nat.
Proof.
  assert (H : (List.length (Engine.rgbBuffer Samples.engine_ready) <= 180)%nat)
    by (simpl; lia).
  split; [exact H|].
  exact (proj1 (X15_buffer_never_exceeds_capacity Samples.frames_two
                  Samples.engine_ready H)).
Defined.

Lemma sample_rate_positive : 0 < INR Engine.SAMPLE_RATE.
Proof. apply lt_0_INR. unfold Engine.SAMPLE_RATE. lia. Qed.

(** Confidence and stress index of a mapped worker reply. *)
Lemma mapped_reply_core (req : Worker.ProcessingRequest)
    (res : Worker.ProcessingResponse) :
  Worker.onmessage req = Worker.vitals_result res ->
  0 <= Worker.motionScore req ->
  0 < Worker.sampleRate req ->
  0 <= Vitals.confidence (Engine.mapWorkerResponse res) <= 1
  /\ (forall h, Vitals.hrv (Engine.mapWorkerResponse res) = Some h ->
        0 <= Worker.stressIndex h).
Proof.
  intros Hmsg Hmotion Hfs. cbn [Engine.mapWorkerResponse Vitals.confidence
                                 Vitals.hrv].
  split.
  - pose proof (onmessage_snr_nonneg req res Hmsg) as Hsnr.
    pose proof (onmessage_confidence_fusion req res Hmsg) as Hc.
    destruct (fusion_range _ _ Hmotion Hsnr) as [[H0 H1] H2].
    rewrite <- Hc in H0, H1. lra.
  - intros h E. injection E as <-.
    rewrite (onmessage_hrv req res Hmsg).
    apply hrv_of_nonneg; [exact Hfs | apply detectPeaks_sorted].
Qed.

Lemma default_vitals_ok : Props.vitals_ok Engine.getDefaultVitals.
Proof.
  unfold Props.vitals_ok; simpl.
  repeat apply conj; try lra; intros ? E; discriminate.
Qed.

Lemma raw_stress_nonneg (x : R) : 0 <= x -> 0 <= JS.or_else x 0.
Proof. intros H. unfold JS.or_else. destruct (Req_dec_T x 0); lra. Qed.

(** One frame keeps the ranges, and hands out vitals within them. *)
Lemma processFrame_ok (e : Engine.CameraVitalsEngine)
    (video : Engine.Video) (now : R) (faces : list (list Engine.Keypoint)) :
  Props.engine_ok e ->
  Props.engine_ok (fst (Engine.processFrame e video now faces))
  /\ Props.vitals_ok (snd (Engine.processFrame e video now faces)).
Proof.
  intros Hok.
  destruct (processFrame_cases e video now faces) as [[Hd Hw] | ->].
  2: { split; [exact Hok | exact default_vitals_ok]. }
  destruct Hok as ((Hc & Hm & Hh & Ha) & Hvs & Has).
  destruct faces as [|pts rest].
  - rewrite processFrame_no_face by assumption.
    assert (Hv : Props.vitals_ok (snd (Engine.decayVitals e))).
    { unfold Engine.decayVitals, Props.vitals_ok.
      cbn [snd Vitals.confidence Vitals.motionLevel Vitals.hrv
           Vitals.affective].
      repeat apply conj; try lra; assumption. }
    split; [|exact Hv].
    unfold Props.engine_ok. split; [exact Hv | split; assumption].
  - destruct (processFrame_face_spec e video now pts rest Hd Hw)
      as (fused & _ & E).
    cbv zeta in E. rewrite E. clear E. cbn [fst snd].
    destruct (calculateMotion_range (Engine.lastPos e) pts) as [Hmot _].
    pose proof (calculateGeometricValence_range pts) as Hval.
    set (motion := snd (Engine.calculateMotion (Engine.lastPos e) pts)) in *.
    match goal with
    | |- context [match ?w with Some v => v | None => Engine.lastKnownVitals e end] =>
        set (wr := w) in *
    end.
    set (current := match wr with
                    | Some v => v
                    | None => Engine.lastKnownVitals e
                    end) in *.
    assert (Hcur : 0 <= Vitals.confidence current <= 1
                   /\ forall h, Vitals.hrv current = Some h ->
                                0 <= Worker.stressIndex h).
    { unfold current, wr.
      destruct ((64 <? _)%nat && negb (Engine.isProcessing e));
        [|split; assumption].
      match goal with
      | |- context [Worker.onmessage ?r] =>
          destruct (Worker.onmessage r) as [res | msg] eqn:Hmsg
      end; [|split; assumption].
      apply (mapped_reply_core _ res Hmsg).
      - exact (proj1 Hmot).
      - exact sample_rate_positive. }
    destruct Hcur as [Hcc Hch].
    set (raw := match Vitals.hrv current with
                | Some h => JS.or_else (Worker.stressIndex h) 0
                | None => 0
                end) in *.
    assert (Hraw : 0 <= raw).
    { unfold raw. destruct (Vitals.hrv current) as [h|] eqn:Hh';
        [apply raw_stress_nonneg, Hch; reflexivity | lra]. }
    assert (Har : 0 <= Rmin 1 (raw / 500) <= 1).
    { assert (0 <= raw / 500) by lra. minmax. }
    assert (Hfinal :
      -1 <= Engine.valenceSmoother e * 0.9
            + Engine.calculateGeometricValence pts * 0.1 <= 1
      /\ 0 <= Engine.arousalSmoother e * 0.95 + Rmin 1 (raw / 500) * 0.05 <= 1)
      by lra.
    assert (Hv : Props.vitals_ok
                   (Vitals.mkVitals (Vitals.heartRate current)
                      (Vitals.respirationRate current) (Vitals.hrv current)
                      (Some
                         (Vitals.mkAffective
                            (Engine.valenceSmoother e * 0.9
                             + Engine.calculateGeometricValence pts * 0.1)
                            (Engine.arousalSmoother e * 0.95
                             + Rmin 1 (raw / 500) * 0.05)
                            (Engine.classifyMood
                               (Engine.valenceSmoother e * 0.9
                                + Engine.calculateGeometricValence pts * 0.1)
                               (Engine.arousalSmoother e * 0.95
                                + Rmin 1 (raw / 500) * 0.05))))
                      (Vitals.confidence current)
                      (Vitals.signalQuality current) (Vitals.snr current)
                      motion)).
    { unfold Props.vitals_ok.
      cbn [Vitals.confidence Vitals.motionLevel Vitals.hrv Vitals.affective].
      split; [exact Hcc|]. split; [exact Hmot|]. split; [exact Hch|].
      intros a Ea. injection Ea as <-.
      cbn [Vitals.valence Vitals.arousal]. exact Hfinal. }
    split; [|exact Hv].
    unfold Props.engine_ok.
    cbn [Engine.lastKnownVitals Engine.valenceSmoother Engine.arousalSmoother].
    split; [exact Hv | exact Hfinal].
Qed.

Lemma new_engine_ok : Props.engine_ok Engine.new_engine.
Proof.
  unfold Props.engine_ok. split; [exact default_vitals_ok | simpl; lra].
Qed.

(** X16. Starting from a fresh engine (or any engine within the ranges)
    and whatever frames are processed, as long as every detected face
    has a positive face width (the distance between keypoints 234 and
    454 that the valence proxy divides by), every VitalSigns value
    [processFrame] returns has confidence and motionLevel in [0,1], a
    non-negative stress index, and an affective state with valence in
    [-1,1] and arousal in [0,1]. *)
Theorem X16_vitals_stay_in_range :
  forall (frames : list Props.Frame) (e : Engine.CameraVitalsEngine)
         (video : Engine.Video) (now : R)
         (faces : list (list Engine.Keypoint)),
    Props.engine_ok e ->
    Forall (fun f : Props.Frame => Props.face_ok (snd f)) frames ->
    Props.face_ok faces ->
    Props.vitals_ok
      (snd (Engine.processFrame (Props.processFrames e frames) video now faces))
    /\ Props.engine_ok (Props.processFrames e frames)
    /\ Props.engine_ok Engine.new_engine.
Proof.
  intros frames e video now faces Hok Hframes _.
  assert (H : Props.engine_ok (Props.processFrames e frames)).
  { clear Hframes. revert e Hok. unfold Props.processFrames.
    induction frames as [|[[v t] fs] frames IH]; intros e Hok.
    - exact Hok.
    - cbn [fold_left fst snd]. apply IH.
      apply processFrame_ok. exact Hok. }
  split; [|split].
  - apply processFrame_ok. exact H.
  - exact H.
  - exact new_engine_ok.
Qed.

Lemma face_flat_ok : Props.face_ok [Samples.face_flat].
Proof.
  unfold Props.face_ok, Engine.dist, Engine.pt, Samples.face_flat.
  rewrite app_nth1 by (rewrite repeat_length; lia).
  rewrite nth_repeat.
  rewrite app_nth2 by (rewrite repeat_length; lia).
  rewrite repeat_length. replace (454 - 454)%nat with 0%nat by lia.
  cbn [nth Engine.x Engine.y Engine.zeroPoint].
  unfold JS.hypot. apply sqrt_lt_R0. lra.
Qed.

Lemma frames_two_ok :
  Forall (fun f : Props.Frame => Props.face_ok (snd f)) Samples.frames_two.
Proof.
  unfold Samples.frames_two.
  constructor; [exact face_flat_ok|]. constructor; [exact I | constructor].
Qed.

Lemma engine_ready_ok : Props.engine_ok Samples.engine_ready.
Proof.
  unfold Props.engine_ok. split; [exact default_vitals_ok | simpl; lra].
Qed.

Lemma X16_witness :
  (Props.engine_ok Samples.engine_ready
   /\ Forall (fun f : Props.Frame => Props.face_ok (snd f)) Samples.frames_two
   /\ Props.face_ok [Samples.face_flat])
  /\ Props.vitals_ok
       (snd (Engine.processFrame
               (Props.processFrames Samples.engine_ready Samples.frames_two)
               Samples.video_blank 66 [Samples.face_flat])).
Proof.
  split; [exact (conj engine_ready_ok (conj frames_two_ok face_flat_ok))|].
  exact (proj1 (X16_vitals_stay_in_range Samples.frames_two
                  Samples.engine_ready Samples.video_blank 66
                  [Samples.face_flat] engine_ready_ok frames_two_ok
                  face_flat_ok)).
Defined.

(** X17. On an initialised engine with no job in flight whose buffer
    already holds at least 64 samples, a frame with a face always gets
    its vitals from the worker: the request built from the buffer is
    never rejected, and heart rate, respiration rate, HRV, confidence and
    snr of the result are the worker's, with the quality tier read off
    the confidence (excellent above 0.7, good above 0.4, else poor). *)
Theorem X17_trigger_is_never_rejected :
  forall (e : Engine.CameraVitalsEngine) (video : Engine.Video) (now : R)
         (pts : list Engine.Keypoint) (rest : list (list Engine.Keypoint)),
    Engine.detector e = true ->
    Engine.worker e = true ->
    Engine.isProcessing e = false ->
    (64 <= List.length (Engine.rgbBuffer e))%nat ->
    let e' := fst (Engine.processFrame e video now (pts :: rest)) in
    let v := snd (Engine.processFrame e video now (pts :: rest)) in
    exists res,
      Worker.onmessage
        (Props.worker_request (Engine.rgbBuffer e')
           (snd (Engine.calculateMotion (Engine.lastPos e) pts)))
      = Worker.vitals_result res
      /\ Vitals.heartRate v = Worker.heartRate res
      /\ Vitals.respirationRate v = Some (Worker.respirationRate res)
      /\ Vitals.hrv v = Some (Worker.hrv res)
      /\ Vitals.confidence v = Worker.confidence res
      /\ Vitals.snr v = Worker.snr res
      /\ Vitals.signalQuality v
         = (if JS.gtb (Worker.confidence res) 0.7 then Vitals.excellent
            else if JS.gtb (Worker.confidence res) 0.4 then Vitals.good
            else Vitals.poor)
      /\ Engine.lastKnownVitals e' = v.
Proof.
  intros e video now pts rest Hd Hw Hp Hlen. cbv zeta.
  destruct (processFrame_face_spec e video now pts rest Hd Hw)
    as (fused & _ & E).
  cbv zeta in E. rewrite E. clear E.
  cbn [fst snd Engine.rgbBuffer Engine.lastKnownVitals].
  change (Engine.BUFFER_DURATION * Engine.SAMPLE_RATE)%nat with 180%nat.
  set (buffer := if (180 <? List.length (Engine.rgbBuffer e ++ [fused]))%nat
                 then tl (Engine.rgbBuffer e ++ [fused])
                 else Engine.rgbBuffer e ++ [fused]).
  assert (Hbuf : (64 < List.length buffer)%nat).
  { unfold buffer.
    destruct (Nat.ltb_spec 180 (List.length (Engine.rgbBuffer e ++ [fused])))
      as [Hfull | Hfree].
    - rewrite length_tl. lia.
    - rewrite length_app. simpl. lia. }
  assert (Htrig : ((64 <? List.length buffer)%nat
                   && negb (Engine.isProcessing e)) = true).
  { rewrite Hp. apply Nat.ltb_lt in Hbuf. rewrite Hbuf. reflexivity. }
  rewrite Htrig.
  destruct (onmessage_accepts
              (Props.worker_request buffer
                 (snd (Engine.calculateMotion (Engine.lastPos e) pts))))
    as [res Hres]; [reflexivity | simpl; lia | exact sample_rate_positive |].
  exists res. rewrite Hres.
  cbn [Engine.mapWorkerResponse Vitals.heartRate Vitals.respirationRate
       Vitals.hrv Vitals.confidence Vitals.snr Vitals.signalQuality].
  repeat apply conj; reflexivity.
Qed.

Lemma X17_witness :
  (Engine.detector (Samples.engine_with 64) = true
   /\ Engine.worker (Samples.engine_with 64) = true
   /\ Engine.isProcessing (Samples.engine_with 64) = false
   /\ (64 <= List.length (Engine.rgbBuffer (Samples.engine_with 64)))%nat)
  /\ exists res,
       Vitals.hrv
         (snd (Engine.processFrame (Samples.engine_with 64)
                 Samples.video_blank 0 [Samples.face_flat]))
       = Some (Worker.hrv res).
Proof.
  assert (Hl : (64 <= List.length
                        (Engine.rgbBuffer (Samples.engine_with 64)))%nat).
  { simpl. lia. }
  split; [exact (conj eq_refl (conj eq_refl (conj eq_refl Hl)))|].
  destruct (X17_trigger_is_never_rejected (Samples.engine_with 64)
              Samples.video_blank 0 Samples.face_flat [] eq_refl eq_refl
              eq_refl Hl) as (res & _ & _ & _ & Hh & _).
  exists res. exact Hh.
Defined.

(** X18. On an initialised engine, a frame with a face does not consult
    the worker while fewer than 64 samples are buffered before the frame
    (the worker is first asked with 65 samples) or while a job is in
    flight: heart rate, respiration rate, HRV, confidence, quality and
    snr are carried over from the last-known vitals; only motionLevel and
    the affective state are refreshed. *)
Theorem X18_last_known_vitals_reused :
  forall (e : Engine.CameraVitalsEngine) (video : Engine.Video) (now : R)
         (pts : list Engine.Keypoint) (rest : list (list Engine.Keypoint)),
    Engine.detector e = true ->
    Engine.worker e = true ->
    (List.length (Engine.rgbBuffer e) < 64)%nat
    \/ Engine.isProcessing e = true ->
    let v := snd (Engine.processFrame e video now (pts :: rest)) in
    let last := Engine.lastKnownVitals e in
    Vitals.heartRate v = Vitals.heartRate last
    /\ Vitals.respirationRate v = Vitals.respirationRate last
    /\ Vitals.hrv v = Vitals.hrv last
    /\ Vitals.confidence v = Vitals.confidence last
    /\ Vitals.signalQuality v = Vitals.signalQuality last
    /\ Vitals.snr v = Vitals.snr last
    /\ Vitals.motionLevel v
       = snd (Engine.calculateMotion (Engine.lastPos e) pts)
    /\ Vitals.affective v <> None.
Proof.
  intros e video now pts rest Hd Hw Hskip. cbv zeta.
  destruct (processFrame_face_spec e video now pts rest Hd Hw)
    as (fused & _ & E).
  cbv zeta in E. rewrite E. clear E. cbn [snd].
  change (Engine.BUFFER_DURATION * Engine.SAMPLE_RATE)%nat with 180%nat.
  set (buffer := if (180 <? List.length (Engine.rgbBuffer e ++ [fused]))%nat
                 then tl (Engine.rgbBuffer e ++ [fused])
                 else Engine.rgbBuffer e ++ [fused]).
  assert (Htrig : ((64 <? List.length buffer)%nat
                   && negb (Engine.isProcessing e)) = false).
  { destruct Hskip as [Hshort | Hbusy].
    - assert (Hb : (List.length buffer <= 64)%nat).
      { unfold buffer.
        destruct (Nat.ltb_spec 180
                    (List.length (Engine.rgbBuffer e ++ [fused])))
          as [Hfull | Hfree].
        - rewrite length_app in Hfull. simpl in Hfull. lia.
        - rewrite length_app. simpl. lia. }
      apply Nat.ltb_ge in Hb. rewrite Hb. reflexivity.
    - rewrite Hbusy. apply andb_false_r. }
  rewrite Htrig.
  cbn [Vitals.heartRate Vitals.respirationRate Vitals.hrv Vitals.confidence
       Vitals.signalQuality Vitals.snr Vitals.motionLevel Vitals.affective].
  repeat apply conj; try reflexivity. discriminate.
Qed.

Lemma X18_witness :
  (Engine.detector (Samples.engine_with 10) = true
   /\ Engine.worker (Samples.engine_with 10) = true
   /\ ((List.length (Engine.rgbBuffer (Samples.engine_with 10)) < 64)%nat
       \/ Engine.isProcessing (Samples.engine_with 10) = true))
  /\ Vitals.heartRate
       (snd (Engine.processFrame (Samples.engine_with 10)
               Samples.video_blank 0 [Samples.face_flat]))
     = Vitals.heartRate (Engine.lastKnownVitals (Samples.engine_with 10)).
Proof.
  assert (H : (List.length (Engine.rgbBuffer (Samples.engine_with 10)) < 64)%nat
              \/ Engine.isProcessing (Samples.engine_with 10) = true).
  { left. simpl. lia. }
  split; [exact (conj eq_refl (conj eq_refl H))|].
  exact (proj1 (X18_last_known_vitals_reused (Samples.engine_with 10)
                  Samples.video_blank 0 Samples.face_flat [] eq_refl eq_refl H)).
Defined.

Lemma decayVitals_fields (e : Engine.CameraVitalsEngine) :
  let e' := fst (Engine.decayVitals e) in
  Engine.detector e' = Engine.detector e
  /\ Engine.worker e' = Engine.worker e
  /\ Engine.rgbBuffer e' = Engine.rgbBuffer e
  /\ Vitals.confidence (Engine.lastKnownVitals e')
     = Vitals.confidence (Engine.lastKnownVitals e) * 0.95
  /\ Vitals.heartRate (Engine.lastKnownVitals e')
     = Vitals.heartRate (Engine.lastKnownVitals e)
  /\ Vitals.hrv (Engine.lastKnownVitals e')
     = Vitals.hrv (Engine.lastKnownVitals e).
Proof. cbv zeta. repeat apply conj; reflexivity. Qed.

(** X19. While the face stays lost the confidence decays geometrically:
    after n consecutive frames without a face on an initialised engine
    the last-known confidence is 0.95^n times what it was, heart rate,
    HRV and the colour buffer are untouched, and once the decayed
    confidence is at most 0.4 the next faceless frame reports 'poor'. *)
Theorem X19_faceless_frames_decay_geometrically :
  forall (frames : list Props.Frame) (e : Engine.CameraVitalsEngine),
    Engine.detector e = true ->
    Engine.worker e = true ->
    Forall (fun f : Props.Frame => snd f = []) frames ->
    let e' := Props.processFrames e frames in
    Vitals.confidence (Engine.lastKnownVitals e')
    = Vitals.confidence (Engine.lastKnownVitals e)
      * 0.95 ^ List.length frames
    /\ Vitals.heartRate (Engine.lastKnownVitals e')
       = Vitals.heartRate (Engine.lastKnownVitals e)
    /\ Vitals.hrv (Engine.lastKnownVitals e')
       = Vitals.hrv (Engine.lastKnownVitals e)
    /\ Engine.rgbBuffer e' = Engine.rgbBuffer e
    /\ (forall video now,
          Vitals.confidence (Engine.lastKnownVitals e') * 0.95 <= 0.4 ->
          Vitals.signalQuality (snd (Engine.processFrame e' video now []))
          = Vitals.poor).
Proof.
  intros frames e Hd Hw Hall. cbv zeta.
  assert (H : Engine.detector (Props.processFrames e frames) = true
              /\ Engine.worker (Props.processFrames e frames) = true
              /\ Vitals.confidence
                   (Engine.lastKnownVitals (Props.processFrames e frames))
                 = Vitals.confidence (Engine.lastKnownVitals e)
                   * 0.95 ^ List.length frames
              /\ Vitals.heartRate
                   (Engine.lastKnownVitals (Props.processFrames e frames))
                 = Vitals.heartRate (Engine.lastKnownVitals e)
              /\ Vitals.hrv
                   (Engine.lastKnownVitals (Props.processFrames e frames))
                 = Vitals.hrv (Engine.lastKnownVitals e)
              /\ Engine.rgbBuffer (Props.processFrames e frames)
                 = Engine.rgbBuffer e).
  { revert e Hd Hw. unfold Props.processFrames.
    induction Hall as [|[[video now] faces] frames Hf _ IH]; intros e Hd Hw.
    - cbn [fold_left List.length pow].
      repeat apply conj; try reflexivity; try assumption. lra.
    - cbn [snd] in Hf. subst faces. cbn [fold_left fst snd List.length].
      rewrite processFrame_no_face by assumption.
      destruct (decayVitals_fields e) as (D1 & D2 & D3 & D4 & D5 & D6).
      cbv zeta in D1, D2, D3, D4, D5, D6.
      destruct (IH (fst (Engine.decayVitals e)))
        as (I1 & I2 & I3 & I4 & I5 & I6).
      + rewrite D1. exact Hd.
      + rewrite D2. exact Hw.
      + repeat apply conj; try assumption.
        rewrite I3, D4. cbn [pow]. lra. }
  destruct H as (H1 & H2 & H3 & H4 & H5 & H6).
  repeat apply conj; try assumption.
  intros video now Hlow.
  rewrite processFrame_no_face by assumption.
  unfold Engine.decayVitals. cbn [snd Vitals.signalQuality].
  apply gtb_false_iff in Hlow. rewrite Hlow. reflexivity.
Qed.

Lemma frames_faceless_ok :
  Forall (fun f : Props.Frame => snd f = []) Samples.frames_faceless.
Proof. unfold Samples.frames_faceless. repeat constructor. Qed.

Lemma X19_witness :
  (Engine.detector (Samples.engine_with 10) = true
   /\ Engine.worker (Samples.engine_with 10) = true
   /\ Forall (fun f : Props.Frame => snd f = []) Samples.frames_faceless)
  /\ Engine.rgbBuffer
       (Props.processFrames (Samples.engine_with 10) Samples.frames_faceless)
     = Engine.rgbBuffer (Samples.engine_with 10).
Proof.
  split; [exact (conj eq_refl (conj eq_refl frames_faceless_ok))|].
  exact (proj1 (proj2 (proj2 (proj2
           (X19_faceless_frames_decay_geometrically Samples.frames_faceless
              (Samples.engine_with 10) eq_refl eq_refl
              frames_faceless_ok))))).
Defined.

(* ================================================================== *)
(** ** The engine: regions of interest, colour averages, mood *)
(* ================================================================== *)

Lemma fold_max_le (l : list R) (x hi : R) :
  x <= hi -> (forall y, In y l -> y <= hi) -> fold_left Rmax l x <= hi.
Proof.
  revert x. induction l as [|y l IH]; intros x Hx Hl; simpl; [exact Hx|].
  apply IH.
  - apply Rmax_lub; [exact Hx | apply Hl; left; reflexivity].
  - intros z Hz. apply Hl. right. exact Hz.
Qed.

Lemma fold_min_ge (l : list R) (x lo : R) :
  lo <= x -> (forall y, In y l -> lo <= y) -> lo <= fold_left Rmin l x.
Proof.
  revert x. induction l as [|y l IH]; intros x Hx Hl; simpl; [exact Hx|].
  apply IH.
  - apply Rmin_glb; [exact Hx | apply Hl; left; reflexivity].
  - intros z Hz. apply Hl. right. exact Hz.
Qed.

(** Minimum and maximum of a non-empty list whose entries lie in
    [lo, hi]. *)
Lemma list_extent (l : list R) (lo hi : R) :
  l <> [] -> (forall y, In y l -> lo <= y <= hi) ->
  lo <= JS.min_list l /\ JS.min_list l <= JS.max_list l
  /\ JS.max_list l <= hi.
Proof.
  intros Hne Hl. destruct l as [|x l]; [contradiction|].
  cbn [JS.min_list JS.max_list].
  assert (Hx : lo <= x <= hi) by (apply Hl; left; reflexivity).
  split; [|split].
  - apply fold_min_ge; [lra|]. intros y Hy. apply Hl. right. exact Hy.
  - pose proof (fold_min_le l x). pose proof (fold_max_ge l x). lra.
  - apply fold_max_le; [lra|]. intros y Hy. apply Hl. right. exact Hy.
Qed.

Lemma clamped_in (w v : R) : 0 <= w -> 0 <= Rmax 0 (Rmin w v) <= w.
Proof. intros. minmax. Qed.

(** X20. For a frame of non-negative size the forehead region lies
    inside the frame: its corner is non-negative, its width and height
    are non-negative, and x + width <= w, y + height <= h.  The cheek
    regions, which are not clamped to the frame, still have non-negative
    width and height. *)
Theorem X20_forehead_roi_inside_frame :
  forall (pts : list Engine.Keypoint) (w h : R),
    0 <= w -> 0 <= h ->
    let roi := Engine.getForeheadROI pts w h in
    (0 <= Engine.roi_x roi /\ 0 <= Engine.roi_y roi
     /\ 0 <= Engine.width roi /\ 0 <= Engine.height roi
     /\ Engine.roi_x roi + Engine.width roi <= w
     /\ Engine.roi_y roi + Engine.height roi <= h)
    /\ (forall isLeft,
          0 <= Engine.width (Engine.getCheekROI pts w h isLeft)
          /\ 0 <= Engine.height (Engine.getCheekROI pts w h isLeft)).
Proof.
  intros pts w h Hw Hh. cbv zeta. split.
  - unfold Engine.getForeheadROI.
    cbn [Engine.roi_x Engine.roi_y Engine.width Engine.height].
    match goal with
    | |- context [JS.min_list ?xs] =>
        match xs with
        | map _ [_; _; _; _] =>
            destruct (list_extent xs 0 w) as (X1 & X2 & X3)
        end
    end.
    { discriminate. }
    { intros y Hy. apply in_map_iff in Hy. destruct Hy as (v & <- & _).
      apply clamped_in. exact Hw. }
    match goal with
    | |- context [JS.min_list ?ys] =>
        match ys with
        | map _ [_; _; _] =>
            destruct (list_extent ys 0 h) as (Y1 & Y2 & Y3)
        end
    end.
    { discriminate. }
    { intros y Hy. apply in_map_iff in Hy. destruct Hy as (v & <- & _).
      apply clamped_in. exact Hh. }
    repeat apply conj; lra.
  - intros isLeft. unfold Engine.getCheekROI.
    cbn [Engine.width Engine.height].
    split; apply range_nonneg.
Qed.

Lemma X20_witness :
  (0 <= 640 /\ 0 <= 480)
  /\ Engine.roi_x (Engine.getForeheadROI Samples.face_flat 640 480)
     + Engine.width (Engine.getForeheadROI Samples.face_flat 640 480)
     <= 640.
Proof.
  assert (Hw : 0 <= 640) by lra.
  assert (Hh : 0 <= 480) by lra.
  split; [exact (conj Hw Hh)|].
  exact (proj1 (proj2 (proj2 (proj2 (proj2 (proj1
           (X20_forehead_roi_inside_frame Samples.face_flat 640 480
              Hw Hh))))))).
Defined.

Lemma fold_sum_bounds (f : nat -> R) (lo hi : R) (idx : list nat) (a : R) :
  (forall i, lo <= f i <= hi) ->
  a + INR (List.length idx) * lo
  <= fold_left (fun acc i => acc + f i) idx a
  <= a + INR (List.length idx) * hi.
Proof.
  intros Hf. revert a. induction idx as [|i idx IH]; intros a.
  - simpl. lra.
  - cbn [fold_left List.length]. rewrite S_INR.
    specialize (IH (a + f i)). specialize (Hf i). lra.
Qed.

Lemma average_bounds (s lo hi : R) (c : nat) :
  (0 < c)%nat -> INR c * lo <= s <= INR c * hi -> lo <= s / INR c <= hi.
Proof.
  intros Hc Hs. apply lt_INR in Hc. simpl in Hc.
  assert (E : s / INR c * INR c = s) by (field; lra).
  split.
  - apply Rmult_le_reg_r with (INR c); [lra|]. rewrite E. lra.
  - apply Rmult_le_reg_r with (INR c); [lra|]. rewrite E. lra.
Qed.

(** X21. The colour [extractROIColor] averages out of a region whose
    image bytes all lie in [0,255] has its three channels in [0,255]; a
    region of non-positive width or height, and a region without pixels,
    give black. *)
Theorem X21_roi_colour_is_a_byte_average :
  forall (video : Engine.Video) (roi : Engine.ROI),
    (forall i, 0 <= nth i (Engine.imageData video roi) 0 <= 255) ->
    let c := Engine.extractROIColor video roi in
    (0 <= Engine.col_r c <= 255 /\ 0 <= Engine.col_g c <= 255
     /\ 0 <= Engine.col_b c <= 255)
    /\ (Engine.width roi <= 0 \/ Engine.height roi <= 0 ->
        c = Engine.mkColor 0 0 0)
    /\ (Engine.imageData video roi = [] -> c = Engine.mkColor 0 0 0).
Proof.
  intros video roi Hbytes. cbv zeta.
  unfold Engine.extractROIColor.
  destruct (JS.leb (Engine.width roi) 0 || JS.leb (Engine.height roi) 0)
    eqn:Hdeg.
  - cbn [Engine.col_r Engine.col_g Engine.col_b].
    repeat apply conj; try lra; reflexivity.
  - apply orb_false_elim in Hdeg. destruct Hdeg as [Hw Hh].
    apply leb_false_iff in Hw, Hh.
    set (data := Engine.imageData video roi) in *.
    set (idx := Engine.sampled_indices (List.length data)).
    destruct (Nat.ltb_spec 0 (List.length idx)) as [Hc | Hc].
    + cbn [Engine.col_r Engine.col_g Engine.col_b].
      split; [|split].
      * pose proof (fold_sum_bounds (fun i => nth i data 0) 0 255 idx 0
                      Hbytes) as Br.
        pose proof (fold_sum_bounds (fun i => nth (i + 1) data 0) 0 255 idx 0
                      (fun i => Hbytes (i + 1)%nat)) as Bg.
        pose proof (fold_sum_bounds (fun i => nth (i + 2) data 0) 0 255 idx 0
                      (fun i => Hbytes (i + 2)%nat)) as Bb.
        cbv beta in Br, Bg, Bb.
        split; [|split]; apply average_bounds; try exact Hc; lra.
      * intros [H | H]; lra.
      * intros Hempty. exfalso. unfold idx in Hc. rewrite Hempty in Hc.
        simpl in Hc. lia.
    + cbn [Engine.col_r Engine.col_g Engine.col_b].
      repeat apply conj; try lra; reflexivity.
Qed.

Lemma X21_witness :
  (forall i,
     0 <= nth i (Engine.imageData Samples.video_blank
                   (Engine.mkROI 0 0 10 10)) 0 <= 255)
  /\ Engine.extractROIColor Samples.video_blank (Engine.mkROI 0 0 10 10)
     = Engine.mkColor 0 0 0.
Proof.
  assert (H : forall i,
             0 <= nth i (Engine.imageData Samples.video_blank
                           (Engine.mkROI 0 0 10 10)) 0 <= 255).
  { intros i. simpl. destruct i; lra. }
  split; [exact H|].
  exact (proj2 (proj2 (X21_roi_colour_is_a_byte_average Samples.video_blank
                         (Engine.mkROI 0 0 10 10) H)) eq_refl).
Defined.

(** X22. The mood label partitions the valence/arousal plane by the
    order of the tests: 'anxious' exactly when arousal > 0.7, 'calm'
    exactly when arousal < 0.5 and valence > 0.3; 'focused' forces
    valence > 0.2 and arousal in (0.4, 0.7), 'distracted' forces
    arousal < 0.2 and valence <= 0.3, and an arousal of exactly 0.7 is
    never 'anxious' nor 'focused'. *)
Theorem X22_mood_regions :
  forall val aro : R,
    let m := Engine.classifyMood val aro in
    (m = Vitals.anxious <-> aro > 0.7)
    /\ (m = Vitals.calm <-> aro < 0.5 /\ val > 0.3)
    /\ (m = Vitals.focused -> val > 0.2 /\ 0.4 < aro < 0.7)
    /\ (m = Vitals.distracted -> aro < 0.2 /\ val <= 0.3)
    /\ (aro = 0.7 -> m <> Vitals.anxious /\ m <> Vitals.focused).
Proof.
  intros val aro. cbv zeta. unfold Engine.classifyMood.
  destruct (JS.gtb aro 0.7) eqn:A1;
    [apply gtb_true_iff in A1 | apply gtb_false_iff in A1];
  destruct (JS.gtb val 0.3) eqn:V1;
    [apply gtb_true_iff in V1 | apply gtb_false_iff in V1
    |apply gtb_true_iff in V1 | apply gtb_false_iff in V1];
  destruct (JS.ltb aro 0.5) eqn:A2;
    try (apply ltb_true_iff in A2); try (apply ltb_false_iff in A2);
  destruct (JS.gtb val 0.2) eqn:V2;
    try (apply gtb_true_iff in V2); try (apply gtb_false_iff in V2);
  destruct (JS.gtb aro 0.4) eqn:A3;
    try (apply gtb_true_iff in A3); try (apply gtb_false_iff in A3);
  destruct (JS.ltb aro 0.7) eqn:A4;
    try (apply ltb_true_iff in A4); try (apply ltb_false_iff in A4);
  destruct (JS.ltb aro 0.2) eqn:A5;
    try (apply ltb_true_iff in A5); try (apply ltb_false_iff in A5);
  cbn [andb];
  repeat apply conj; intros; try discriminate; try reflexivity;
    try lra; try (split; lra); try (split; [discriminate | discriminate]);
    try (destruct H; lra).
Qed.

Lemma X22_witness :
  (0.1 < 0.5 /\ 0.5 > 0.3)
  /\ Engine.classifyMood 0.5 0.1 = Vitals.calm.
Proof.
  assert (H : 0.1 < 0.5 /\ 0.5 > 0.3) by lra.
  split; [exact H|].
  exact (proj2 (proj1 (proj2 (X22_mood_regions 0.5 0.1))) H).
Defined.

(* ================================================================== *)
(** ** The footer: safety profile bookkeeping *)
(* ================================================================== *)



(** The outcome [handleStop] records: a session of more than 45 whole
    seconds that ended with a prediction error below 0.5. *)
Lemma handleStop_outcome (reg : list (string * SafetyProfile))
    (pid : string) (start now : R) (b : BeliefState) :
  let old :=
    match Footer.registry_get reg pid with
    | Some r => r
    | None => mkProfile pid 0 0 0 []
    end in
  let success :=
    JS.gtb (IZR (JS.floor ((now - start) / 1000))) 45
    && JS.ltb (prediction_error b) 0.5 in
  Footer.handleStop_record reg pid start now b
  = if success then
      mkProfile (patternId old) (cummulative_stress_score old)
        (last_incident_timestamp old) (safety_lock_until old)
        (Footer.push_last5 (resonance_history old) 1.0)
    else if JS.gtb (cummulative_stress_score old + 1) 5 then
      mkProfile (patternId old) 0 (last_incident_timestamp old)
        (now + 24 * 60 * 60 * 1000)
        (Footer.push_last5 (resonance_history old) 0.0)
    else
      mkProfile (patternId old) (cummulative_stress_score old + 1)
        (last_incident_timestamp old) (safety_lock_until old)
        (Footer.push_last5 (resonance_history old) 0.0).
Proof. reflexivity. Qed.


(** X24. Stress accounting of [handleStop]: a successful session leaves
    the stress score and the lock untouched; a failed one adds 1 to the
    score, and when that exceeds 5 the pattern is locked until 24 hours
    from now and the score restarts at 0.  A score between 0 and 5 thus
    stays between 0 and 5.  The pattern id and last_incident_timestamp
    are never changed. *)
Theorem X24_stress_score_and_lock :
  forall (reg : list (string * SafetyProfile)) (pid : string)
         (start now : R) (b : BeliefState),
    let old :=
      match Footer.registry_get reg pid with
      | Some r => r
      | None => mkProfile pid 0 0 0 []
      end in
    let new := Footer.handleStop_record reg pid start now b in
    let success :=
      IZR (JS.floor ((now - start) / 1000)) > 45
      /\ prediction_error b < 0.5 in
    (success ->
       cummulative_stress_score new = cummulative_stress_score old
       /\ safety_lock_until new = safety_lock_until old)
    /\ (~ success -> cummulative_stress_score old + 1 > 5 ->
          cummulative_stress_score new = 0
          /\ safety_lock_until new = now + 86400000)
    /\ (~ success -> cummulative_stress_score old + 1 <= 5 ->
          cummulative_stress_score new = cummulative_stress_score old + 1
          /\ safety_lock_until new = safety_lock_until old)
    /\ (0 <= cummulative_stress_score old <= 5 ->
          0 <= cummulative_stress_score new <= 5)
    /\ patternId new = patternId old
    /\ last_incident_timestamp new = last_incident_timestamp old.
Proof.
  intros reg pid start now b. cbv zeta.
  rewrite handleStop_outcome. cbv zeta.
  set (old := match Footer.registry_get reg pid with
              | Some r => r
              | None => mkProfile pid 0 0 0 []
              end).
  destruct (JS.gtb (IZR (JS.floor ((now - start) / 1000))) 45) eqn:Hd;
    [apply gtb_true_iff in Hd | apply gtb_false_iff in Hd];
  destruct (JS.ltb (prediction_error b) 0.5) eqn:Hp;
    [apply ltb_true_iff in Hp | apply ltb_false_iff in Hp
    |apply ltb_true_iff in Hp | apply ltb_false_iff in Hp];
  cbn [andb];
  destruct (JS.gtb (cummulative_stress_score old + 1) 5) eqn:Hs;
    [apply gtb_true_iff in Hs | apply gtb_false_iff in Hs
    |apply gtb_true_iff in Hs | apply gtb_false_iff in Hs
    |apply gtb_true_iff in Hs | apply gtb_false_iff in Hs
    |apply gtb_true_iff in Hs | apply gtb_false_iff in Hs];
  cbn [cummulative_stress_score safety_lock_until patternId
       last_incident_timestamp];
  repeat apply conj; intros; try reflexivity; try lra;
    try (exfalso; tauto);
    try (match goal with H : ~ _ |- _ => exfalso; apply H; split; lra end).
Qed.

Lemma X24_witness :
  (~ (IZR (JS.floor ((60000 - 0) / 1000)) > 45
      /\ prediction_error Examples.belief_alarm < 0.5)
   /\ 0 + 1 <= 5)
  /\ cummulative_stress_score
       (Footer.handleStop_record [] "box" 0 60000 Examples.belief_alarm)
     = 0 + 1.
Proof.
  assert (Hf : ~ (IZR (JS.floor ((60000 - 0) / 1000)) > 45
                  /\ prediction_error Examples.belief_alarm < 0.5)).
  { intros [_ H]. simpl in H. lra. }
  assert (Hs : 0 + 1 <= 5) by lra.
  split; [exact (conj Hf Hs)|].
  exact (proj1 (proj1 (proj2 (proj2
           (X24_stress_score_and_lock [] "box" 0 60000
              Examples.belief_alarm))) Hf Hs)).
Defined.

(** The tier rule of [isPatternLocked], applied when no safety lock is
    active. *)
Lemma isPatternLocked_unlocked_registry
    (reg : list (string * SafetyProfile))
    (history : list Footer.SessionHistoryItem) (now : R)
    (pattern : BreathPattern) :
  (forall r, Footer.registry_get reg (id pattern) = Some r ->
             safety_lock_until r <= now) ->
  let q := List.length
             (filter (fun h => JS.gtb (Footer.durationSec h) 60) history) in
  Footer.isPatternLocked reg history now pattern
  = if (tier pattern =? 1)%nat then Footer.mkLock false None
    else if (tier pattern =? 2)%nat then
      if (q <? 5)%nat
      then Footer.mkLock true (Some (Footer.RequiresMoreSessions (5 - q)))
      else Footer.mkLock false None
    else if (tier pattern =? 3)%nat then
      if (q <? 20)%nat
      then Footer.mkLock true (Some (Footer.RequiresMoreSessions (20 - q)))
      else Footer.mkLock false None
    else Footer.mkLock false None.
Proof.
  intros Hfree. cbv zeta. unfold Footer.isPatternLocked.
  destruct (Footer.registry_get reg (id pattern)) as [r|]; [|reflexivity].
  specialize (Hfree r eq_refl). apply gtb_false_iff in Hfree.
  rewrite Hfree. reflexivity.
Qed.

(** X25. When the registry holds no active safety lock for the pattern,
    [isPatternLocked] follows the tier rule alone: tier 1 is never
    locked, tier 2 is locked exactly while fewer than 5 sessions of more
    than 60 s are in the history, tier 3 exactly while fewer than 20 are,
    and the reason names how many sessions are still missing. *)
Theorem X25_tier_rule :
  forall (reg : list (string * SafetyProfile))
         (history : list Footer.SessionHistoryItem) (now : R)
         (pattern : BreathPattern),
    (forall r, Footer.registry_get reg (id pattern) = Some r ->
               safety_lock_until r <= now) ->
    let q := List.length
               (filter (fun h => JS.gtb (Footer.durationSec h) 60) history) in
    let status := Footer.isPatternLocked reg history now pattern in
    (Footer.locked status = true <->
       (tier pattern = 2%nat /\ (q < 5)%nat)
       \/ (tier pattern = 3%nat /\ (q < 20)%nat))
    /\ (tier pattern = 1%nat -> Footer.locked status = false)
    /\ (Footer.locked status = true ->
        exists missing,
          Footer.reason status = Some (Footer.RequiresMoreSessions missing)
          /\ (1 <= missing)%nat
          /\ ((tier pattern = 2%nat /\ q + missing = 5)
              \/ (tier pattern = 3%nat /\ q + missing = 20))%nat)
    /\ (Footer.locked status = false -> Footer.reason status = None).
Proof.
  intros reg history now pattern Hfree. cbv zeta.
  rewrite (isPatternLocked_unlocked_registry reg history now pattern Hfree).
  cbv zeta.
  set (q := List.length
              (filter (fun h => JS.gtb (Footer.durationSec h) 60) history)).
  destruct (Nat.eqb_spec (tier pattern) 1) as [T1 | T1];
    [|destruct (Nat.eqb_spec (tier pattern) 2) as [T2 | T2];
      [destruct (Nat.ltb_spec q 5) as [Q | Q]
      |destruct (Nat.eqb_spec (tier pattern) 3) as [T3 | T3];
        [destruct (Nat.ltb_spec q 20) as [Q | Q]|]]];
    cbn [Footer.locked Footer.reason];
    (split; [split; [intros H; try discriminate; try (left; split; [assumption | lia]);
                     try (right; split; [assumption | lia])
                    |intros [[H1 H2] | [H1 H2]]; try reflexivity; try lia]
            |split; [intros H; try reflexivity; try lia
                    |split; [intros H; try discriminate
                            |intros H; try reflexivity; try discriminate]]]).
  - exists (5 - q)%nat. split; [reflexivity|]. split; [lia|].
    left. split; [assumption | lia].
  - exists (20 - q)%nat. split; [reflexivity|]. split; [lia|].
    right. split; [assumption | lia].
Qed.

Lemma X25_witness :
  (forall r,
     Footer.registry_get [] (id Samples.pattern_coherence) = Some r ->
     safety_lock_until r <= 0)
  /\ Footer.locked
       (Footer.isPatternLocked [] [] 0 Samples.pattern_coherence) = true.
Proof.
  assert (H : forall r,
             Footer.registry_get [] (id Samples.pattern_coherence) = Some r ->
             safety_lock_until r <= 0).
  { intros r E. discriminate E. }
  split; [exact H|].
  apply (proj2 (proj1 (X25_tier_rule [] [] 0 Samples.pattern_coherence H))).
  left. split; [reflexivity | simpl; lia].
Defined.

Lemma floor_nonneg (x : R) : 0 <= x -> (0 <= JS.floor x)%Z.
Proof.
  intros Hx. destruct (floor_bounds x) as [_ H].
  assert (Hlt : IZR (-1) < IZR (JS.floor x)) by (simpl; lra).
  apply lt_IZR in Hlt. lia.
Qed.

Lemma floor_below (x : R) (n : Z) : x < IZR n -> (JS.floor x < n)%Z.
Proof.
  intros Hx. destruct (floor_bounds x) as [H _].
  apply lt_IZR. lra.
Qed.

Lemma rem_nonneg_dividend (a b : R) :
  0 <= a -> 0 < b ->
  Footer.rem a b = a - b * IZR (JS.floor (a / b))
  /\ 0 <= Footer.rem a b < b.
Proof.
  intros Ha Hb.
  assert (Hq : 0 <= a / b) by (apply div_nonneg; lra).
  assert (E : Footer.rem a b = a - b * IZR (JS.floor (a / b))).
  { unfold Footer.rem, Footer.trunc.
    destruct (Rlt_dec (a / b) 0); [lra | reflexivity]. }
  split; [exact E|]. rewrite E.
  destruct (floor_bounds (a / b)) as [F1 F2].
  assert (Eq : a / b * b = a) by (field; lra).
  split; nra.
Qed.

(** X26. While the registry holds an active safety lock for the pattern
    (lock time in the future) [isPatternLocked] reports it locked,
    whatever its tier and the history, and the hours h and minutes m of
    the reason decompose the remaining time: h >= 0, 0 <= m < 60 and
    h hours + m minutes <= remaining < h hours + (m + 1) minutes. *)
Theorem X26_safety_lock_remaining_time :
  forall (reg : list (string * SafetyProfile))
         (history : list Footer.SessionHistoryItem) (now : R)
         (pattern : BreathPattern) (r : SafetyProfile),
    Footer.registry_get reg (id pattern) = Some r ->
    safety_lock_until r > now ->
    let status := Footer.isPatternLocked reg history now pattern in
    let remaining := safety_lock_until r - now in
    Footer.locked status = true
    /\ exists h m : Z,
         Footer.reason status = Some (Footer.SafetyLockActive h m)
         /\ (0 <= h)%Z /\ (0 <= m < 60)%Z
         /\ IZR h * 3600000 + IZR m * 60000 <= remaining
            < IZR h * 3600000 + (IZR m + 1) * 60000.
Proof.
  intros reg history now pattern r Hget Hlock. cbv zeta.
  unfold Footer.isPatternLocked. rewrite Hget.
  pose proof Hlock as Hg. apply gtb_true_iff in Hg. rewrite Hg.
  cbn [Footer.locked Footer.reason]. split; [reflexivity|].
  replace (Rmax 0 (safety_lock_until r - now))
    with (safety_lock_until r - now) by minmax.
  set (remaining := safety_lock_until r - now) in *.
  assert (Hrem : 0 <= remaining) by (unfold remaining; lra).
  destruct (rem_nonneg_dividend remaining 3600000 Hrem ltac:(lra))
    as [Erem Rrange].
  eexists. eexists. split; [reflexivity|].
  destruct (floor_bounds (remaining / 3600000)) as [H1 H2].
  destruct (floor_bounds (Footer.rem remaining 3600000 / 60000)) as [M1 M2].
  assert (Hm60 : (JS.floor (Footer.rem remaining 3600000 / 60000) < 60)%Z).
  { apply floor_below. lra. }
  split; [apply floor_nonneg; lra|].
  split; [split; [apply floor_nonneg; lra | exact Hm60]|].
  set (m := JS.floor (Footer.rem remaining 3600000 / 60000)) in *.
  set (h := JS.floor (remaining / 3600000)) in *.
  assert (Eq : Footer.rem remaining 3600000 / 60000 * 60000
               = remaining - 3600000 * IZR h) by (rewrite <- Erem; field).
  split; nra.
Qed.

Lemma X26_witness :
  (Footer.registry_get Samples.registry_locked
     (id Samples.pattern_coherence)
   = Some (mkProfile "coherence" 5 0 5000000 [0; 0; 0; 0; 0])
   /\ safety_lock_until (mkProfile "coherence" 5 0 5000000 [0; 0; 0; 0; 0])
      > 1000)
  /\ Footer.locked
       (Footer.isPatternLocked Samples.registry_locked [] 1000
          Samples.pattern_coherence) = true.
Proof.
  assert (H : safety_lock_until
                (mkProfile "coherence" 5 0 5000000 [0; 0; 0; 0; 0]) > 1000)
    by (simpl; lra).
  split; [exact (conj eq_refl H)|].
  exact (proj1 (X26_safety_lock_remaining_time Samples.registry_locked []
                  1000 Samples.pattern_coherence _ eq_refl H)).
Defined.

(** X27. The failure that pushes the stress score above 5 locks the
    pattern for a day: once the record [handleStop] produces is in the
    registry, [isPatternLocked] reports the pattern locked at every
    instant before now + 24 h, whatever its tier and the session
    history. *)
Theorem X27_sixth_failure_locks_for_a_day :
  forall (reg reg' : list (string * SafetyProfile))
         (history : list Footer.SessionHistoryItem)
         (pattern : BreathPattern) (start now later : R) (b : BeliefState),
    let old :=
      match Footer.registry_get reg (id pattern) with
      | Some r => r
      | None => mkProfile (id pattern) 0 0 0 []
      end in
    ~ (IZR (JS.floor ((now - start) / 1000)) > 45
       /\ prediction_error b < 0.5) ->
    cummulative_stress_score old + 1 > 5 ->
    Footer.registry_get reg' (id pattern)
    = Some (Footer.handleStop_record reg (id pattern) start now b) ->
    later < now + 86400000 ->
    Footer.locked (Footer.isPatternLocked reg' history later pattern) = true.
Proof.
  intros reg reg' history pattern start now later b. cbv zeta.
  intros Hfail Hscore Hget Hlater.
  unfold Footer.isPatternLocked. rewrite Hget.
  assert (Elock : safety_lock_until
                    (Footer.handleStop_record reg (id pattern) start now b)
                  = now + 24 * 60 * 60 * 1000).
  { rewrite handleStop_outcome. cbv zeta.
    destruct (JS.gtb _ 45 && JS.ltb _ 0.5) eqn:Hs.
    - exfalso. apply Hfail. apply andb_prop in Hs. destruct Hs as [H1 H2].
      apply gtb_true_iff in H1. apply ltb_true_iff in H2. split; assumption.
    - apply gtb_true_iff in Hscore. rewrite Hscore. reflexivity. }
  rewrite Elock.
  assert (Hg : JS.gtb (now + 24 * 60 * 60 * 1000) later = true)
    by (apply gtb_true_iff; lra).
  rewrite Hg. reflexivity.
Qed.

Lemma X27_witness :
  (~ (IZR (JS.floor ((60000 - 0) / 1000)) > 45
      /\ prediction_error Examples.belief_alarm < 0.5)
   /\ 5 + 1 > 5
   /\ 70000 < 60000 + 86400000)
  /\ Footer.locked
       (Footer.isPatternLocked
          [("coherence"%string,
            Footer.handleStop_record Samples.registry_locked "coherence"
              0 60000 Examples.belief_alarm)]
          [] 70000 Samples.pattern_coherence) = true.
Proof.
  assert (Hf : ~ (IZR (JS.floor ((60000 - 0) / 1000)) > 45
                  /\ prediction_error Examples.belief_alarm < 0.5)).
  { intros [_ H]. simpl in H. lra. }
  assert (Hs : 5 + 1 > 5) by lra.
  assert (Hl : 70000 < 60000 + 86400000) by lra.
  split; [exact (conj Hf (conj Hs Hl))|].
  exact (X27_sixth_failure_locks_for_a_day Samples.registry_locked
           [("coherence"%string,
             Footer.handleStop_record Samples.registry_locked "coherence"
               0 60000 Examples.belief_alarm)]
           [] Samples.pattern_coherence 0 60000 70000 Examples.belief_alarm
           Hf Hs eq_refl Hl).
Defined.

(* ------------------------------------------------------------------ *)
(** *** The bridge: audio conversion and telemetry pacing *)
(* ------------------------------------------------------------------ *)

Lemma trunc_bounds (v : R) :
  (0 <= v -> IZR (Footer.trunc v) <= v < IZR (Footer.trunc v) + 1)
  /\ (v < 0 -> IZR (Footer.trunc v) - 1 < v <= IZR (Footer.trunc v)).
Proof.
  unfold Footer.trunc. destruct (Rlt_dec v 0) as [Hn | Hp].
  - split; [lra|]. intros _.
    destruct (floor_bounds (- v)) as [F1 F2]. rewrite opp_IZR. lra.
  - split; [|lra]. intros _. apply floor_bounds.
Qed.

Lemma trunc_sign (v : R) :
  (0 <= v -> (0 <= Footer.trunc v)%Z) /\ (v <= 0 -> (Footer.trunc v <= 0)%Z).
Proof.
  destruct (trunc_bounds v) as [Hp Hn]. split; intros Hv.
  - destruct (Hp Hv) as [_ H].
    assert (Hlt : IZR (-1) < IZR (Footer.trunc v)) by (simpl; lra).
    apply lt_IZR in Hlt. lia.
  - destruct (Rle_lt_or_eq_dec _ _ Hv) as [Hlt | Heq].
    + destruct (Hn Hlt) as [H _].
      assert (Hlt1 : IZR (Footer.trunc v) < IZR 1) by (simpl; lra).
      apply lt_IZR in Hlt1. lia.
    + destruct (Hp ltac:(lra)) as [H _].
      apply le_IZR. simpl. lra.
Qed.

Lemma trunc_IZR (n : Z) : Footer.trunc (IZR n) = n.
Proof.
  destruct (trunc_bounds (IZR n)) as [Hp Hn].
  destruct (Rlt_dec (IZR n) 0) as [Hlt | Hge].
  - destruct (Hn Hlt) as [H1 H2].
    apply le_IZR in H2.
    assert (H3 : IZR (Footer.trunc (IZR n)) < IZR (n + 1))
      by (rewrite plus_IZR; simpl; lra).
    apply lt_IZR in H3. lia.
  - destruct (Hp ltac:(lra)) as [H1 H2].
    apply le_IZR in H1.
    assert (H3 : IZR n < IZR (Footer.trunc (IZR n) + 1))
      by (rewrite plus_IZR; simpl; lra).
    apply lt_IZR in H3. lia.
Qed.

Lemma toInt16_no_wrap (v : R) :
  -32768 <= v <= 32767 ->
  Bridge.toInt16 v = Footer.trunc v
  /\ (-32768 <= Footer.trunc v <= 32767)%Z.
Proof.
  intros [Hlo Hhi].
  assert (Hr : (-32768 <= Footer.trunc v <= 32767)%Z).
  { destruct (trunc_bounds v) as [Hp Hn]. destruct (trunc_sign v) as [Sp Sn].
    destruct (Rlt_dec v 0) as [Hlt | Hge].
    - destruct (Hn Hlt) as [_ H]. split; [|specialize (Sn ltac:(lra)); lia].
      apply le_IZR. lra.
    - destruct (Hp ltac:(lra)) as [H _].
      split; [specialize (Sp ltac:(lra)); lia|].
      apply le_IZR. lra. }
  split; [|exact Hr].
  unfold Bridge.toInt16. rewrite Z.mod_small; lia.
Qed.

Lemma pcm_scaled_range (x : R) :
  let s := Rmax (-1) (Rmin 1 x) in
  let v := if JS.ltb s 0 then s * 32768 else s * 32767 in
  -32768 <= v <= 32767
  /\ (x <= -1 -> v = -32768) /\ (1 <= x -> v = 32767)
  /\ (0 <= x -> 0 <= v) /\ (x <= 0 -> v <= 0).
Proof.
  cbv zeta. set (s := Rmax (-1) (Rmin 1 x)).
  assert (Hs : -1 <= s <= 1) by (unfold s; minmax).
  assert (Hlo : x <= -1 -> s = -1) by (intros; unfold s; minmax).
  assert (Hhi : 1 <= x -> s = 1) by (intros; unfold s; minmax).
  assert (Hp : 0 <= x -> 0 <= s) by (intros; unfold s; minmax).
  assert (Hn : x <= 0 -> s <= 0) by (intros; unfold s; minmax).
  destruct (JS.ltb s 0) eqn:E.
  - apply ltb_true_iff in E.
    repeat apply conj; try lra; intros H;
      try (specialize (Hlo H)); try (specialize (Hhi H));
      try (specialize (Hp H)); try (specialize (Hn H)); lra.
  - apply ltb_false_iff in E.
    repeat apply conj; try lra; intros H;
      try (specialize (Hlo H)); try (specialize (Hhi H));
      try (specialize (Hp H)); try (specialize (Hn H)); lra.
Qed.

(** X28. [floatTo16BitPCM] keeps the length of its input, and every output
    sample fits a signed 16-bit integer without wrap-around: it is the
    scaled, clamped input truncated towards zero, less than one unit
    from it, with the sign of the input; inputs at or below -1 saturate
    at -32768, inputs at or above 1 at 32767. *)
Theorem X28_pcm_conversion_saturates :
  forall (input : list R) (i : nat),
    (i < List.length input)%nat ->
    let x := nth i input 0 in
    let s := Rmax (-1) (Rmin 1 x) in
    let v := if JS.ltb s 0 then s * 32768 else s * 32767 in
    let y := nth i (Bridge.floatTo16BitPCM input) 0%Z in
    List.length (Bridge.floatTo16BitPCM input) = List.length input
    /\ y = Footer.trunc v
    /\ (-32768 <= y <= 32767)%Z
    /\ v - 1 < IZR y < v + 1
    /\ (x <= -1 -> y = (-32768)%Z)
    /\ (1 <= x -> y = 32767%Z)
    /\ (0 <= x -> (0 <= y)%Z)
    /\ (x <= 0 -> (y <= 0)%Z).
Proof.
  intros input i Hi. cbv zeta.
  split; [unfold Bridge.floatTo16BitPCM; apply length_map|].
  set (f := fun x : R =>
              let s := Rmax (-1) (Rmin 1 x) in
              Bridge.toInt16 (if JS.ltb s 0 then s * 32768 else s * 32767)).
  assert (Ey : nth i (Bridge.floatTo16BitPCM input) 0%Z
               = f (nth i input 0)).
  { unfold Bridge.floatTo16BitPCM. fold f.
    rewrite (nth_indep _ 0%Z (f 0)) by (rewrite length_map; exact Hi).
    apply map_nth. }
  rewrite Ey. unfold f. cbv zeta.
  set (x := nth i input 0).
  destruct (pcm_scaled_range x) as (Hv & Hlo & Hhi & Hp & Hn).
  cbv zeta in Hv, Hlo, Hhi, Hp, Hn.
  set (v := if JS.ltb (Rmax (-1) (Rmin 1 x)) 0
            then Rmax (-1) (Rmin 1 x) * 32768
            else Rmax (-1) (Rmin 1 x) * 32767) in *.
  destruct (toInt16_no_wrap v Hv) as [E Hr]. rewrite E.
  destruct (trunc_bounds v) as [Tp Tn]. destruct (trunc_sign v) as [Sp Sn].
  split; [reflexivity|]. split; [exact Hr|].
  split.
  { destruct (Rlt_dec v 0) as [Hlt | Hge].
    - specialize (Tn Hlt). lra.
    - specialize (Tp ltac:(lra)). lra. }
  split.
  { intros H. rewrite (Hlo H). apply (trunc_IZR (-32768)). }
  split.
  { intros H. rewrite (Hhi H). apply (trunc_IZR 32767). }
  split.
  - intros H. apply Sp. apply Hp. exact H.
  - intros H. apply Sn. apply Hn. exact H.
Qed.

Lemma X28_witness :
  (1 < List.length Samples.audio_three)%nat
  /\ nth 1 (Bridge.floatTo16BitPCM Samples.audio_three) 0%Z = (-32768)%Z.
Proof.
  assert (H : (1 < List.length Samples.audio_three)%nat) by (simpl; lia).
  split; [exact H|].
  apply (proj1 (proj2 (proj2 (proj2 (proj2
           (X28_pcm_conversion_saturates Samples.audio_three 1%nat H)))))).
  simpl. lra.
Defined.

Lemma telemetry_step_sent (lastSend : R) (c : Bridge.TelemetryCall) :
  snd (Bridge.telemetry_step lastSend c) = true ->
  fst (Bridge.telemetry_step lastSend c) = Bridge.call_now c
  /\ Bridge.call_connected c = true /\ Bridge.call_running c = true
  /\ Bridge.call_now c - lastSend > 1000
  /\ (Bridge.call_prediction_error c <= 0.8 ->
      Bridge.call_now c - lastSend > 3000).
Proof.
  unfold Bridge.telemetry_step. cbv zeta.
  destruct (JS.gtb (Bridge.call_now c - lastSend) 3000) eqn:E3;
    destruct (JS.gtb (Bridge.call_prediction_error c) 0.8) eqn:Ec;
    destruct (JS.gtb (Bridge.call_now c - lastSend) 1000) eqn:E1;
    destruct (Bridge.call_connected c); destruct (Bridge.call_running c);
    cbn [orb andb fst snd]; intros H; try discriminate H;
    try (apply gtb_true_iff in E3); try (apply gtb_true_iff in Ec);
    try (apply gtb_true_iff in E1); try (apply gtb_false_iff in E1);
    repeat apply conj; try reflexivity; try lra; intros; lra.
Qed.

Lemma telemetry_step_silent (lastSend : R) (c : Bridge.TelemetryCall) :
  snd (Bridge.telemetry_step lastSend c) = false ->
  fst (Bridge.telemetry_step lastSend c) = lastSend.
Proof.
  unfold Bridge.telemetry_step. cbv zeta.
  destruct (_ && _ && _); cbn [fst snd]; intros H;
    [discriminate H | reflexivity].
Qed.

Lemma telemetry_run_cons (lastSend : R) (c : Bridge.TelemetryCall)
    (rest : list Bridge.TelemetryCall) :
  Bridge.telemetry_run lastSend (c :: rest)
  = if snd (Bridge.telemetry_step lastSend c)
    then Bridge.call_now c
         :: Bridge.telemetry_run (fst (Bridge.telemetry_step lastSend c)) rest
    else Bridge.telemetry_run (fst (Bridge.telemetry_step lastSend c)) rest.
Proof.
  cbn [Bridge.telemetry_run].
  destruct (Bridge.telemetry_step lastSend c) as [l b]. reflexivity.
Qed.

Lemma paced_cons (gap t : R) (l : list R) :
  match l with [] => True | u :: _ => u - t > gap end ->
  Props.paced gap l -> Props.paced gap (t :: l).
Proof. intros H1 H2. split; assumption. Qed.

Lemma telemetry_run_paced (gap : R) (calls : list Bridge.TelemetryCall) :
  (forall lastSend c, In c calls ->
     snd (Bridge.telemetry_step lastSend c) = true ->
     Bridge.call_now c - lastSend > gap) ->
  forall lastSend,
    Props.paced gap (Bridge.telemetry_run lastSend calls)
    /\ match Bridge.telemetry_run lastSend calls with
       | [] => True
       | t :: _ => t - lastSend > gap
       end.
Proof.
  induction calls as [| c rest IH]; intros Hstep lastSend.
  - split; exact I.
  - rewrite telemetry_run_cons.
    assert (Hrest : forall l c', In c' rest ->
              snd (Bridge.telemetry_step l c') = true ->
              Bridge.call_now c' - l > gap).
    { intros l c' Hin. apply Hstep. right. exact Hin. }
    specialize (IH Hrest).
    destruct (snd (Bridge.telemetry_step lastSend c)) eqn:Es.
    + destruct (telemetry_step_sent lastSend c Es) as (Ef & _).
      rewrite Ef. destruct (IH (Bridge.call_now c)) as [P F].
      split.
      * apply paced_cons; assumption.
      * apply Hstep; [left; reflexivity | exact Es].
    + rewrite (telemetry_step_silent lastSend c Es). apply IH.
Qed.

Lemma telemetry_run_sent (calls : list Bridge.TelemetryCall) :
  forall lastSend t,
    In t (Bridge.telemetry_run lastSend calls) ->
    exists c, In c calls /\ Bridge.call_now c = t
              /\ Bridge.call_connected c = true
              /\ Bridge.call_running c = true.
Proof.
  induction calls as [| c rest IH]; intros lastSend t Hin.
  - destruct Hin.
  - rewrite telemetry_run_cons in Hin.
    destruct (snd (Bridge.telemetry_step lastSend c)) eqn:Es.
    + destruct Hin as [Heq | Hin].
      * destruct (telemetry_step_sent lastSend c Es) as (_ & Hc & Hr & _).
        exists c. repeat apply conj; try assumption. left. reflexivity.
      * destruct (IH _ _ Hin) as (c' & Hc' & Rest).
        exists c'. split; [right; exact Hc' | exact Rest].
    + destruct (IH _ _ Hin) as (c' & Hc' & Rest).
      exists c'. split; [right; exact Hc' | exact Rest].
Qed.

(** X29. The telemetry subscriber throttles: whatever the clock readings
    and kernel states of the calls, consecutive messages are more than
    one second apart, the first more than one second after the initial
    [lastSend], and each message is sent by a call made while connected
    and RUNNING; while no call sees a prediction error above 0.8 the
    messages are more than three seconds apart. *)
Theorem X29_telemetry_is_throttled :
  forall (lastSend : R) (calls : list Bridge.TelemetryCall),
    let sent := Bridge.telemetry_run lastSend calls in
    Props.paced 1000 sent
    /\ match sent with [] => True | t :: _ => t - lastSend > 1000 end
    /\ (forall t, In t sent ->
          exists c, In c calls /\ Bridge.call_now c = t
                    /\ Bridge.call_connected c = true
                    /\ Bridge.call_running c = true)
    /\ ((forall c, In c calls -> Bridge.call_prediction_error c <= 0.8) ->
        Props.paced 3000 sent
        /\ match sent with [] => True | t :: _ => t - lastSend > 3000 end).
Proof.
  intros lastSend calls. cbv zeta.
  assert (H1 : forall l c, In c calls ->
             snd (Bridge.telemetry_step l c) = true ->
             Bridge.call_now c - l > 1000).
  { intros l c _ Es. apply (telemetry_step_sent l c Es). }
  destruct (telemetry_run_paced 1000 calls H1 lastSend) as [P F].
  split; [exact P|]. split; [exact F|].
  split; [intros t Hin; apply (telemetry_run_sent calls lastSend t Hin)|].
  intros Hcalm.
  apply telemetry_run_paced.
  intros l c Hin Es.
  apply (telemetry_step_sent l c Es). apply Hcalm. exact Hin.
Qed.

Lemma X29_witness :
  Props.paced 1000 (Bridge.telemetry_run 0 Samples.calls_three).
Proof.
  exact (proj1 (X29_telemetry_is_throttled 0 Samples.calls_three)).
Defined.
